(** * The CruiseControlOperation reconciler

    A shallow embedding of [controllers/cruisecontroloperation_controller.go]:
    the result merge ([updateResult]), the classifier ([sortOperations]),
    the selector ([selectOperationForExecution]) and the reconciliation loop
    ([Reconcile]), together with the properties the design document states
    about them.

    Go packages are rendered as modules of the same name, so that a field
    reads [banzaiv1alpha1.State task] or [scale.State res] as it does in the
    source.  Records held behind pointers (to [CruiseControlOperation]) live in
    a store, the slice [ccOperationListClusterWide.Items], and a pointer
    [&Items[i]] is the index [i]. *)

From stdpp Require Import gmap strings list sorting.
From Stdlib Require Import ZArith Lia DecimalString.

Open Scope Z_scope.

(** ** Base types *)

(** [v1.Time] as seconds since the Unix epoch; a nil [*v1.Time] is [None]. *)
Definition Time := Z.

(** Go's [int] is 64 bits wide on every platform the operator is built for;
    arithmetic on it wraps around. *)
Definition wrapInt (z : Z) : Z := (z + 2 ^ 63) mod 2 ^ 64 - 2 ^ 63.

(** [fmt.Sprintf("%d", n)]. *)
Definition Sprintf_d (n : Z) : string := NilZero.string_of_int (Z.to_int n).

(** ** Errors *)

Inductive StatusReason :=
| StatusReasonNotFound
| StatusReasonConflict
| StatusReasonOther (reason : string).

(** The error values the controller produces or receives: plain messages
    ([errors.New], [errors.NewWithDetails]), API-server status errors, the
    failure of [time.Parse], and an error wrapped with a message
    ([errors.WrapIff] and its variants). *)
Inductive error :=
| errorString (msg : string)
| StatusError (reason : StatusReason) (msg : string)
| ParseError (layout value : string)
| withMessage (cause : error) (msg : string).

#[global] Instance StatusReason_eq_dec : EqDecision StatusReason.
Proof. solve_decision. Defined.

#[global] Instance error_eq_dec : EqDecision error.
Proof. solve_decision. Defined.

(** [err.Error()].  The text of a [time.Parse] failure is abbreviated. *)
Fixpoint Error (e : error) : string :=
  match e with
  | errorString msg => msg
  | StatusError _ msg => msg
  | ParseError layout value => "parsing time " ++ value ++ " as " ++ layout
  | withMessage cause msg => msg ++ ": " ++ Error cause
  end.

Module errors.

Definition New (msg : string) : error := errorString msg.

Definition WrapIff (err : error) (msg : string) : error := withMessage err msg.

End errors.

Module apiErrors.

(** The reason of the status error found by unwrapping, as [errors.As] does. *)
Fixpoint ReasonForError (e : error) : option StatusReason :=
  match e with
  | StatusError reason _ => Some reason
  | withMessage cause _ => ReasonForError cause
  | _ => None
  end.

Definition IsNotFound (e : error) : bool :=
  bool_decide (ReasonForError e = Some StatusReasonNotFound).

Definition IsConflict (e : error) : bool :=
  bool_decide (ReasonForError e = Some StatusReasonConflict).

End apiErrors.

(** ** [api/v1beta1]: task states *)

Module banzaiv1beta1.

(** [CruiseControlUserTaskState] is a string type; the four named states are
    the constants the controller refers to, [CruiseControlTaskUnset] is the
    zero value (the empty text) and [CruiseControlTaskOther s] any other
    text. *)
Inductive CruiseControlUserTaskState :=
| CruiseControlTaskUnset
| CruiseControlTaskActive
| CruiseControlTaskInExecution
| CruiseControlTaskCompleted
| CruiseControlTaskCompletedWithError
| CruiseControlTaskOther (state : string).

#[global] Instance CruiseControlUserTaskState_eq_dec :
  EqDecision CruiseControlUserTaskState.
Proof. solve_decision. Defined.

End banzaiv1beta1.

(** ** [go-cruise-control/pkg/types]: the optimisation summary *)

Module types.

(** The fields of the engine's optimisation result that [formatSummary]
    prints; all but the recommendation are integers. *)
Record OptimizationSummary := {
  DataToMoveMB : Z;
  NumReplicaMovements : Z;
  IntraBrokerDataToMoveMB : Z;
  NumIntraBrokerReplicaMovements : Z;
  NumLeaderMovements : Z;
  RecentWindows : Z;
  ProvisionRecommendation : string;
}.

Record OptimizationResult := { Summary : OptimizationSummary }.

#[global] Instance OptimizationSummary_eq_dec : EqDecision OptimizationSummary.
Proof. solve_decision. Defined.

#[global] Instance OptimizationResult_eq_dec : EqDecision OptimizationResult.
Proof. solve_decision. Defined.

End types.

(** ** [pkg/scale]: what the Task Executor returns *)

Module scale.

(** Modelled from the spec: [scale.Result] is declared in [pkg/scale], which
    is not among the sources.  The fields are the ones [updateResult] reads;
    the interface section lists the same: job ID, lifecycle state, start
    time (a text timestamp), HTTP request URL, HTTP status code,
    optimisation summary, error. *)
Record Result := {
  TaskID : string;
  StartedAt : string;
  ResponseStatusCode : Z;
  RequestURL : string;
  Result_ : option types.OptimizationResult;
  State : banzaiv1beta1.CruiseControlUserTaskState;
  Err : option error;
}.

#[global] Instance Result_eq_dec : EqDecision Result.
Proof. solve_decision. Defined.

(** Modelled from the spec: [scale.StatusTaskResult] is declared in
    [pkg/scale], which is not among the sources; the interface section gives
    [Status() -> {ready: bool, inExecution: bool}]. *)
Record StatusTaskResult := {
  IsReady : bool;
  InExecution : bool;
}.

End scale.

(** ** [api/v1alpha1]: the operation record *)

Module banzaiv1alpha1.

(** [CruiseControlTaskOperation] is a string type with four named kinds;
    [OperationOther s] stands for any other text. *)
Inductive CruiseControlTaskOperation :=
| OperationAddBroker
| OperationRemoveBroker
| OperationRebalance
| OperationStopExecution
| OperationOther (kind : string).

#[global] Instance CruiseControlTaskOperation_eq_dec :
  EqDecision CruiseControlTaskOperation.
Proof. solve_decision. Defined.

(** Modelled from the spec: the struct [CruiseControlTask] is declared in
    [api/v1alpha1], which is not among the sources.  The fields are the ones
    [updateResult] reads and writes, with the types it uses them at; the data
    model lists the same: kind, parameters, job ID, state, the two timestamps,
    the HTTP request and response code, the error message and the summary. *)
Record CruiseControlTask := {
  ID : string;
  Started : option Time;
  Finished : option Time;
  Operation : CruiseControlTaskOperation;
  Parameters : gmap string string;
  HTTPRequest : string;
  HTTPResponseCode : option Z;
  Summary : option (gmap string string);
  State : banzaiv1beta1.CruiseControlUserTaskState;
  ErrorMessage : string;
}.

#[global] Instance CruiseControlTask_eq_dec : EqDecision CruiseControlTask.
Proof. solve_decision. Defined.

Definition setID (v : string) (t : CruiseControlTask) : CruiseControlTask :=
  {| ID := v; Started := Started t; Finished := Finished t;
     Operation := Operation t; Parameters := Parameters t;
     HTTPRequest := HTTPRequest t; HTTPResponseCode := HTTPResponseCode t;
     Summary := Summary t; State := State t; ErrorMessage := ErrorMessage t |}.

Definition setStarted (v : option Time) (t : CruiseControlTask) : CruiseControlTask :=
  {| ID := ID t; Started := v; Finished := Finished t;
     Operation := Operation t; Parameters := Parameters t;
     HTTPRequest := HTTPRequest t; HTTPResponseCode := HTTPResponseCode t;
     Summary := Summary t; State := State t; ErrorMessage := ErrorMessage t |}.

Definition setFinished (v : option Time) (t : CruiseControlTask) : CruiseControlTask :=
  {| ID := ID t; Started := Started t; Finished := v;
     Operation := Operation t; Parameters := Parameters t;
     HTTPRequest := HTTPRequest t; HTTPResponseCode := HTTPResponseCode t;
     Summary := Summary t; State := State t; ErrorMessage := ErrorMessage t |}.

Definition setOperation (v : CruiseControlTaskOperation) (t : CruiseControlTask)
  : CruiseControlTask :=
  {| ID := ID t; Started := Started t; Finished := Finished t;
     Operation := v; Parameters := Parameters t;
     HTTPRequest := HTTPRequest t; HTTPResponseCode := HTTPResponseCode t;
     Summary := Summary t; State := State t; ErrorMessage := ErrorMessage t |}.

Definition setHTTPRequest (v : string) (t : CruiseControlTask) : CruiseControlTask :=
  {| ID := ID t; Started := Started t; Finished := Finished t;
     Operation := Operation t; Parameters := Parameters t;
     HTTPRequest := v; HTTPResponseCode := HTTPResponseCode t;
     Summary := Summary t; State := State t; ErrorMessage := ErrorMessage t |}.

Definition setHTTPResponseCode (v : option Z) (t : CruiseControlTask)
  : CruiseControlTask :=
  {| ID := ID t; Started := Started t; Finished := Finished t;
     Operation := Operation t; Parameters := Parameters t;
     HTTPRequest := HTTPRequest t; HTTPResponseCode := v;
     Summary := Summary t; State := State t; ErrorMessage := ErrorMessage t |}.

Definition setSummary (v : option (gmap string string)) (t : CruiseControlTask)
  : CruiseControlTask :=
  {| ID := ID t; Started := Started t; Finished := Finished t;
     Operation := Operation t; Parameters := Parameters t;
     HTTPRequest := HTTPRequest t; HTTPResponseCode := HTTPResponseCode t;
     Summary := v; State := State t; ErrorMessage := ErrorMessage t |}.

Definition setState (v : banzaiv1beta1.CruiseControlUserTaskState)
  (t : CruiseControlTask) : CruiseControlTask :=
  {| ID := ID t; Started := Started t; Finished := Finished t;
     Operation := Operation t; Parameters := Parameters t;
     HTTPRequest := HTTPRequest t; HTTPResponseCode := HTTPResponseCode t;
     Summary := Summary t; State := v; ErrorMessage := ErrorMessage t |}.

Definition setErrorMessage (v : string) (t : CruiseControlTask) : CruiseControlTask :=
  {| ID := ID t; Started := Started t; Finished := Finished t;
     Operation := Operation t; Parameters := Parameters t;
     HTTPRequest := HTTPRequest t; HTTPResponseCode := HTTPResponseCode t;
     Summary := Summary t; State := State t; ErrorMessage := v |}.

(** Modelled from the spec: the method [SetDefaults] of a task pointer is
    declared in [api/v1alpha1], which is not among the sources.  The design
    says the merge "reset[s] task-level defaults so the next pass treats it as
    eligible for a fresh [RetryExecution] classification": everything one
    attempt records (job ID, state, timestamps, HTTP diagnostics, error
    message, summary) goes back to its zero value, while the request itself
    (kind and parameters) stays. *)
Definition SetDefaults (t : CruiseControlTask) : CruiseControlTask :=
  {| ID := ""; Started := None; Finished := None;
     Operation := Operation t; Parameters := Parameters t;
     HTTPRequest := ""; HTTPResponseCode := None;
     Summary := None; State := banzaiv1beta1.CruiseControlTaskUnset;
     ErrorMessage := "" |}.

(** The part of [metav1.ObjectMeta] the controller reads and writes.  A nil
    or zero [DeletionTimestamp] is [None]. *)
Record ObjectMeta := {
  Name : string;
  Namespace : string;
  Labels : gmap string string;
  CreationTimestamp : Time;
  DeletionTimestamp : option Time;
  Finalizers : list string;
}.

Record CruiseControlOperationSpec := { ErrorPolicy : string }.

(** Modelled from the spec: the struct [CruiseControlOperationStatus] is
    declared in [api/v1alpha1], which is not among the sources.  The data
    model gives its four fields and the invariant "exactly one [CurrentTask]
    per record at any time", so the current task is a field that is always
    there; [operation.CurrentTask()] hands out a pointer to it. *)
Record CruiseControlOperationStatus := {
  CurrentTask_ : CruiseControlTask;
  StatusErrorPolicy : string;
  RetryCount : Z;
  FailedTasks : list CruiseControlTask;
}.

Record CruiseControlOperation := {
  Meta : ObjectMeta;
  Spec : CruiseControlOperationSpec;
  Status : CruiseControlOperationStatus;
}.

#[global] Instance ObjectMeta_eq_dec : EqDecision ObjectMeta.
Proof. solve_decision. Defined.

#[global] Instance CruiseControlOperationSpec_eq_dec :
  EqDecision CruiseControlOperationSpec.
Proof. solve_decision. Defined.

#[global] Instance CruiseControlOperationStatus_eq_dec :
  EqDecision CruiseControlOperationStatus.
Proof. solve_decision. Defined.

#[global] Instance CruiseControlOperation_eq_dec : EqDecision CruiseControlOperation.
Proof. solve_decision. Defined.

Definition setStatus (s : CruiseControlOperationStatus) (o : CruiseControlOperation)
  : CruiseControlOperation :=
  {| Meta := Meta o; Spec := Spec o; Status := s |}.

Definition setMeta (m : ObjectMeta) (o : CruiseControlOperation)
  : CruiseControlOperation :=
  {| Meta := m; Spec := Spec o; Status := Status o |}.

Definition setFinalizers (fs : list string) (o : CruiseControlOperation)
  : CruiseControlOperation :=
  setMeta {| Name := Name (Meta o); Namespace := Namespace (Meta o);
             Labels := Labels (Meta o);
             CreationTimestamp := CreationTimestamp (Meta o);
             DeletionTimestamp := DeletionTimestamp (Meta o);
             Finalizers := fs |} o.

(** [operation.Status.ErrorPolicy = v]. *)
Definition setStatusErrorPolicy (v : string) (o : CruiseControlOperation)
  : CruiseControlOperation :=
  setStatus {| CurrentTask_ := CurrentTask_ (Status o); StatusErrorPolicy := v;
               RetryCount := RetryCount (Status o);
               FailedTasks := FailedTasks (Status o) |} o.

(** [operation.Status.RetryCount = v]. *)
Definition setRetryCount (v : Z) (o : CruiseControlOperation) : CruiseControlOperation :=
  setStatus {| CurrentTask_ := CurrentTask_ (Status o);
               StatusErrorPolicy := StatusErrorPolicy (Status o);
               RetryCount := v;
               FailedTasks := FailedTasks (Status o) |} o.

(** [operation.Status.FailedTasks = v]. *)
Definition setFailedTasks (v : list CruiseControlTask) (o : CruiseControlOperation)
  : CruiseControlOperation :=
  setStatus {| CurrentTask_ := CurrentTask_ (Status o);
               StatusErrorPolicy := StatusErrorPolicy (Status o);
               RetryCount := RetryCount (Status o);
               FailedTasks := v |} o.

(** A write through the pointer [operation.CurrentTask()]: the task changes
    in place, inside the record. *)
Definition withTask (f : CruiseControlTask → CruiseControlTask)
  (o : CruiseControlOperation) : CruiseControlOperation :=
  setStatus {| CurrentTask_ := f (CurrentTask_ (Status o));
               StatusErrorPolicy := StatusErrorPolicy (Status o);
               RetryCount := RetryCount (Status o);
               FailedTasks := FailedTasks (Status o) |} o.

(** Modelled from the spec: the accessors [CurrentTask], [CurrentTaskID],
    [CurrentTaskOperation], [CurrentTaskParameters], [GetName] and
    [GetNamespace] are declared in [api/v1alpha1] and [metav1], which are not
    among the sources; each returns the field it is named after. *)
Definition CurrentTask (o : CruiseControlOperation) : CruiseControlTask :=
  CurrentTask_ (Status o).

Definition CurrentTaskID (o : CruiseControlOperation) : string :=
  ID (CurrentTask o).

Definition CurrentTaskOperation (o : CruiseControlOperation)
  : CruiseControlTaskOperation :=
  Operation (CurrentTask o).

Definition CurrentTaskParameters (o : CruiseControlOperation) : gmap string string :=
  Parameters (CurrentTask o).

Definition GetName (o : CruiseControlOperation) : string := Name (Meta o).

Definition GetNamespace (o : CruiseControlOperation) : string := Namespace (Meta o).

End banzaiv1alpha1.

(** ** Constants of the controller *)

Definition defaultFailedTasksHistoryMaxLength : nat := 50.

Definition ccOperationFinalizerGroup : string :=
  "finalizer.cruisecontroloperations.kafka.banzaicloud.io".

Definition ccOperationForStopExecution : string := "ccOperationStopExecution".
Definition ccOperationFirstExecution : string := "ccOperationFirstExecution".
Definition ccOperationRetryExecution : string := "ccOperationRetryExecution".
Definition ccOperationInProgress : string := "ccOperationInProgress".

Definition defaultRequeueIntervalInSeconds : Z := 10.

(** [executionPriorityMap[kind]]; a kind that is not a key of the Go map reads
    as the zero value. *)
Definition executionPriorityMap (kind : banzaiv1alpha1.CruiseControlTaskOperation) : Z :=
  match kind with
  | banzaiv1alpha1.OperationAddBroker => 2
  | banzaiv1alpha1.OperationRemoveBroker => 1
  | banzaiv1alpha1.OperationRebalance => 0
  | _ => 0
  end.

Definition missingCCResErr : error :=
  errors.New "missing Cruise Control user task result".

Definition RFC1123 : string := "Mon, 02 Jan 2006 15:04:05 MST".

(** ** [formatSummary] *)

Definition formatSummary (res : option types.OptimizationResult)
  : option (gmap string string) :=
  match res with
  | None => None
  | Some res =>
      let s := types.Summary res in
      Some (<["Data to move" := Sprintf_d (types.DataToMoveMB s)]>
           (<["Number of replica movements" := Sprintf_d (types.NumReplicaMovements s)]>
           (<["Intra broker data to move" := Sprintf_d (types.IntraBrokerDataToMoveMB s)]>
           (<["Number of intra broker replica movements" :=
                Sprintf_d (types.NumIntraBrokerReplicaMovements s)]>
           (<["Number of leader movements" := Sprintf_d (types.NumLeaderMovements s)]>
           (<["Recent windows" := Sprintf_d (types.RecentWindows s)]>
           (<["Provision recommendation" := types.ProvisionRecommendation s]> ∅)))))))
  end.

(** ** The Result Reconciler: [updateResult] *)

Section ResultReconciler.

(** [time.Parse(layout, value)] belongs to Go's library; the merge is stated
    for any parser.  [None] is a parse error. *)
Context (time_Parse : string → string → option Time).

(** The result synthesised for a nil [res] (the struct literal of lines
    381-385; fields it does not name take their zero value). *)
Definition missingResult (operation : banzaiv1alpha1.CruiseControlOperation)
  : scale.Result :=
  {| scale.TaskID := banzaiv1alpha1.CurrentTaskID operation;
     scale.StartedAt := "";
     scale.ResponseStatusCode := 0;
     scale.RequestURL := "";
     scale.Result_ := None;
     scale.State := banzaiv1beta1.CruiseControlTaskCompletedWithError;
     scale.Err := Some missingCCResErr |}.

(** Lines 379-386: a nil [res] is replaced by the synthesised result. *)
Definition resultOrMissing (res : option scale.Result)
  (operation : banzaiv1alpha1.CruiseControlOperation) : scale.Result :=
  match res with
  | None => missingResult operation
  | Some res => res
  end.

(** [res.State == Completed || res.State == CompletedWithError]. *)
Definition isTerminal (state : banzaiv1beta1.CruiseControlUserTaskState) : bool :=
  bool_decide (state = banzaiv1beta1.CruiseControlTaskCompleted)
  || bool_decide (state = banzaiv1beta1.CruiseControlTaskCompletedWithError).

(** Lines 391-393: stamp [Finished] with [time.Now()]. *)
Definition markFinished (now : Time) (res : scale.Result)
  (operation : banzaiv1alpha1.CruiseControlOperation)
  : banzaiv1alpha1.CruiseControlOperation :=
  if isTerminal (scale.State res)
     && bool_decide (banzaiv1alpha1.Finished (banzaiv1alpha1.CurrentTask operation) = None)
  then banzaiv1alpha1.withTask (banzaiv1alpha1.setFinished (Some now)) operation
  else operation.

(** Lines 397-400: drop the oldest entry of a full history, then append a
    copy of the task. *)
Definition appendFailedTask (task : banzaiv1alpha1.CruiseControlTask)
  (operation : banzaiv1alpha1.CruiseControlOperation)
  : banzaiv1alpha1.CruiseControlOperation :=
  let operation :=
    if bool_decide (defaultFailedTasksHistoryMaxLength
                    ≤ length (banzaiv1alpha1.FailedTasks (banzaiv1alpha1.Status operation)))%nat
    then banzaiv1alpha1.setFailedTasks
           (tail (banzaiv1alpha1.FailedTasks (banzaiv1alpha1.Status operation))) operation
    else operation in
  banzaiv1alpha1.setFailedTasks
    (banzaiv1alpha1.FailedTasks (banzaiv1alpha1.Status operation) ++ [task]) operation.

(** What [appendFailedTask] does to the history, on the history alone. *)
Definition pushFailedTask (history : list banzaiv1alpha1.CruiseControlTask)
  (task : banzaiv1alpha1.CruiseControlTask) : list banzaiv1alpha1.CruiseControlTask :=
  (if bool_decide (defaultFailedTasksHistoryMaxLength ≤ length history)%nat
   then tail history else history) ++ [task].

(** The condition of line 396, read off the task as it stands there. *)
Definition isArchived (isAfterExecution : bool)
  (operation : banzaiv1alpha1.CruiseControlOperation) : bool :=
  let task := banzaiv1alpha1.CurrentTask operation in
  isAfterExecution
  && bool_decide (banzaiv1alpha1.Finished task ≠ None)
  && bool_decide (banzaiv1alpha1.State task
                  = banzaiv1beta1.CruiseControlTaskCompletedWithError).

(** Lines 396-404. *)
Definition archiveFailedTask (isAfterExecution : bool)
  (operation : banzaiv1alpha1.CruiseControlOperation)
  : banzaiv1alpha1.CruiseControlOperation :=
  if isArchived isAfterExecution operation then
    let operation := appendFailedTask (banzaiv1alpha1.CurrentTask operation) operation in
    let operation :=
      banzaiv1alpha1.setRetryCount
        (wrapInt (banzaiv1alpha1.RetryCount (banzaiv1alpha1.Status operation) + 1))
        operation in
    banzaiv1alpha1.withTask banzaiv1alpha1.SetDefaults operation
  else operation.

(** Lines 407-413. *)
Definition parseStarted (res : scale.Result)
  (operation : banzaiv1alpha1.CruiseControlOperation)
  : error + banzaiv1alpha1.CruiseControlOperation :=
  match banzaiv1alpha1.Started (banzaiv1alpha1.CurrentTask operation) with
  | None =>
      match time_Parse RFC1123 (scale.StartedAt res) with
      | None =>
          inl (errors.WrapIff (ParseError RFC1123 (scale.StartedAt res))
                 "could not parse user task start time from Cruise Control API")
      | Some startTime =>
          inr (banzaiv1alpha1.withTask (banzaiv1alpha1.setStarted (Some startTime))
                 operation)
      end
  | Some _ => inr operation
  end.

(** Lines 414-420. *)
Definition recordExecution (res : scale.Result)
  (operation : banzaiv1alpha1.CruiseControlOperation)
  : banzaiv1alpha1.CruiseControlOperation :=
  let operation :=
    banzaiv1alpha1.withTask (banzaiv1alpha1.setID (scale.TaskID res)) operation in
  let operation :=
    banzaiv1alpha1.withTask
      (banzaiv1alpha1.setSummary (formatSummary (scale.Result_ res))) operation in
  let operation :=
    match scale.Err res with
    | Some err =>
        banzaiv1alpha1.withTask (banzaiv1alpha1.setErrorMessage (Error err)) operation
    | None => operation
    end in
  let operation :=
    banzaiv1alpha1.withTask (banzaiv1alpha1.setHTTPRequest (scale.RequestURL res))
      operation in
  banzaiv1alpha1.withTask
    (banzaiv1alpha1.setHTTPResponseCode (Some (scale.ResponseStatusCode res))) operation.

(** [updateResult(log, res, operation, isAfterExecution)].  The record is
    changed in place, so the record as it is when the function returns is
    part of the result, also when the function returns an error.  [now] is
    what [time.Now()] reads. *)
Definition updateResult (now : Time) (res : option scale.Result)
  (operation : banzaiv1alpha1.CruiseControlOperation) (isAfterExecution : bool)
  : option error * banzaiv1alpha1.CruiseControlOperation :=
  let res := resultOrMissing res operation in
  let operation :=
    banzaiv1alpha1.setStatusErrorPolicy
      (banzaiv1alpha1.ErrorPolicy (banzaiv1alpha1.Spec operation)) operation in
  let operation := markFinished now res operation in
  let operation := archiveFailedTask isAfterExecution operation in
  if isAfterExecution then
    match parseStarted res operation with
    | inl err => (Some err, operation)
    | inr operation =>
        (None,
         banzaiv1alpha1.withTask (banzaiv1alpha1.setState (scale.State res))
           (recordExecution res operation))
    end
  else
    (None, banzaiv1alpha1.withTask (banzaiv1alpha1.setState (scale.State res)) operation).

(** *** Merges in sequence *)

(** One call of [updateResult]: the clock reading, the result and the flag. *)
Record Merge := {
  now : Time;
  res : option scale.Result;
  isAfterExecution : bool;
}.


(** The snapshot [*task] that a merge appends to [FailedTasks], if it does. *)
Definition archivedBy (m : Merge) (operation : banzaiv1alpha1.CruiseControlOperation)
  : list banzaiv1alpha1.CruiseControlTask :=
  let res := resultOrMissing (res m) operation in
  let operation := markFinished (now m) res operation in
  if isArchived (isAfterExecution m) operation
  then [banzaiv1alpha1.CurrentTask operation]
  else [].

(** A record as the store holds it after a run of merges.  A merge that
    returns an error ends its pass before the status is written (every caller
    of [updateResult] returns on error), so the stored record stays as it
    was.  The second component collects, in order, the snapshots archived. *)
Fixpoint updateResults (ms : list Merge)
  (operation : banzaiv1alpha1.CruiseControlOperation)
  : banzaiv1alpha1.CruiseControlOperation * list banzaiv1alpha1.CruiseControlTask :=
  match ms with
  | [] => (operation, [])
  | m :: ms =>
      match updateResult (now m) (res m) operation (isAfterExecution m) with
      | (Some _, _) => updateResults ms operation
      | (None, operation') =>
          let '(final, archived) := updateResults ms operation' in
          (final, archivedBy m operation ++ archived)
      end
  end.


End ResultReconciler.

(** ** [controllerutil]: the deletion guard *)

Module controllerutil.

Definition ContainsFinalizer (o : banzaiv1alpha1.CruiseControlOperation)
  (finalizer : string) : bool :=
  bool_decide (finalizer ∈ banzaiv1alpha1.Finalizers (banzaiv1alpha1.Meta o)).

Definition AddFinalizer (finalizer : string)
  (o : banzaiv1alpha1.CruiseControlOperation) : banzaiv1alpha1.CruiseControlOperation :=
  if ContainsFinalizer o finalizer then o
  else banzaiv1alpha1.setFinalizers
         (banzaiv1alpha1.Finalizers (banzaiv1alpha1.Meta o) ++ [finalizer]) o.

Definition RemoveFinalizer (finalizer : string)
  (o : banzaiv1alpha1.CruiseControlOperation) : banzaiv1alpha1.CruiseControlOperation :=
  banzaiv1alpha1.setFinalizers
    (filter (λ f, f ≠ finalizer) (banzaiv1alpha1.Finalizers (banzaiv1alpha1.Meta o))) o.

End controllerutil.

(** [!operation.ObjectMeta.DeletionTimestamp.IsZero()]. *)
Definition isMarkedForDeletion (o : banzaiv1alpha1.CruiseControlOperation) : bool :=
  bool_decide (banzaiv1alpha1.DeletionTimestamp (banzaiv1alpha1.Meta o) ≠ None).

Definition isFinalizerNeeded (operation : banzaiv1alpha1.CruiseControlOperation) : bool :=
  controllerutil.ContainsFinalizer operation ccOperationFinalizerGroup
  && isMarkedForDeletion operation.

(** ** The predicates of [api/v1alpha1] *)

(** The methods of [CruiseControlOperation] that the controller calls and
    that are declared in [api/v1alpha1], outside the sources.  The controller
    is modelled over any implementation of them.
    [IsReadyForRetryExecution] reads the clock, which it is handed here. *)
Class OperationAPI := {
  IsDone : banzaiv1alpha1.CruiseControlOperation → bool;
  IsCurrentTaskOperationValid : banzaiv1alpha1.CruiseControlOperation → bool;
  IsCurrentTaskRunning : banzaiv1alpha1.CruiseControlOperation → bool;
  IsWaitingForFirstExecution : banzaiv1alpha1.CruiseControlOperation → bool;
  IsWaitingForRetryExecution : banzaiv1alpha1.CruiseControlOperation → bool;
  IsInProgress : banzaiv1alpha1.CruiseControlOperation → bool;
  IsReadyForRetryExecution : Time → banzaiv1alpha1.CruiseControlOperation → bool;
  GetClusterRef : banzaiv1alpha1.CruiseControlOperation → string;
}.

(** ** The store of records *)

(** The zero values of the structs: what an index outside the slice reads. *)
Definition zeroTask : banzaiv1alpha1.CruiseControlTask :=
  {| banzaiv1alpha1.ID := ""; banzaiv1alpha1.Started := None;
     banzaiv1alpha1.Finished := None;
     banzaiv1alpha1.Operation := banzaiv1alpha1.OperationOther "";
     banzaiv1alpha1.Parameters := ∅; banzaiv1alpha1.HTTPRequest := "";
     banzaiv1alpha1.HTTPResponseCode := None; banzaiv1alpha1.Summary := None;
     banzaiv1alpha1.State := banzaiv1beta1.CruiseControlTaskUnset;
     banzaiv1alpha1.ErrorMessage := "" |}.

Definition zeroOperation : banzaiv1alpha1.CruiseControlOperation :=
  {| banzaiv1alpha1.Meta :=
       {| banzaiv1alpha1.Name := ""; banzaiv1alpha1.Namespace := "";
          banzaiv1alpha1.Labels := ∅; banzaiv1alpha1.CreationTimestamp := 0;
          banzaiv1alpha1.DeletionTimestamp := None;
          banzaiv1alpha1.Finalizers := [] |};
     banzaiv1alpha1.Spec := {| banzaiv1alpha1.ErrorPolicy := "" |};
     banzaiv1alpha1.Status :=
       {| banzaiv1alpha1.CurrentTask_ := zeroTask;
          banzaiv1alpha1.StatusErrorPolicy := "";
          banzaiv1alpha1.RetryCount := 0;
          banzaiv1alpha1.FailedTasks := [] |} |}.

#[global] Instance CruiseControlOperation_inhabited :
  Inhabited banzaiv1alpha1.CruiseControlOperation := populate zeroOperation.

(** The records a pass works on are the elements of
    [ccOperationListClusterWide.Items]; a [*CruiseControlOperation] is
    [&Items[i]], the index [i].  [items !!! p] reads through the pointer,
    [alter f p items] and [<[p:=o]> items] write through it. *)
Abbreviation Store := (list banzaiv1alpha1.CruiseControlOperation).
Abbreviation Pointer := nat.

(** ** The Classifier and Prioritizer: [sortOperations] *)

(** [sort.SliceStable(queue, less)]: the permutation that is sorted by [less]
    and keeps elements that [less] does not order in their original order.
    For a strict weak order there is exactly one; inserting from the right,
    each element in front of the first one that is not less than it,
    computes it. *)
Fixpoint insertStable {A} (less : A → A → bool) (x : A) (l : list A) : list A :=
  match l with
  | [] => [x]
  | y :: l' => if less y x then y :: insertStable less x l' else x :: y :: l'
  end.

Definition SliceStable {A} (less : A → A → bool) (l : list A) : list A :=
  foldr (insertStable less) [] l.

(** [ccOperationQueueMap[key]]: a key that is absent reads as the nil slice. *)
Definition queue (ccOperationQueueMap : gmap string (list Pointer)) (key : string)
  : list Pointer :=
  default [] (ccOperationQueueMap !! key).

Section Classifier.

Context {api : OperationAPI}.

Definition isWaitingForFinalization (ccOperation : banzaiv1alpha1.CruiseControlOperation)
  : bool :=
  IsCurrentTaskRunning ccOperation
  && isMarkedForDeletion ccOperation
  && controllerutil.ContainsFinalizer ccOperation ccOperationFinalizerGroup.

(** The [switch] of lines 279-288: the bucket a record goes to, if any. *)
Definition bucketOf (ccOperation : banzaiv1alpha1.CruiseControlOperation)
  : option string :=
  if isWaitingForFinalization ccOperation then Some ccOperationForStopExecution
  else if IsWaitingForFirstExecution ccOperation then Some ccOperationFirstExecution
  else if IsWaitingForRetryExecution ccOperation then Some ccOperationRetryExecution
  else if IsInProgress ccOperation then Some ccOperationInProgress
  else None.

(** The comparison of lines 295-297, on the records the two pointers of the
    queue refer to. *)
Definition lessOperation (a b : banzaiv1alpha1.CruiseControlOperation) : bool :=
  bool_decide (executionPriorityMap (banzaiv1alpha1.CurrentTaskOperation a)
               > executionPriorityMap (banzaiv1alpha1.CurrentTaskOperation b))
  || (bool_decide (executionPriorityMap (banzaiv1alpha1.CurrentTaskOperation a)
                   = executionPriorityMap (banzaiv1alpha1.CurrentTaskOperation b))
      && bool_decide (banzaiv1alpha1.CreationTimestamp (banzaiv1alpha1.Meta a)
                      < banzaiv1alpha1.CreationTimestamp (banzaiv1alpha1.Meta b))).

(** The order the comparison stands for: a record with a higher priority
    comes first and, of two records with the same priority, the one that was
    created earlier. *)
Definition precedes (a b : banzaiv1alpha1.CruiseControlOperation) : Prop :=
  executionPriorityMap (banzaiv1alpha1.CurrentTaskOperation a)
  > executionPriorityMap (banzaiv1alpha1.CurrentTaskOperation b)
  ∨ (executionPriorityMap (banzaiv1alpha1.CurrentTaskOperation a)
     = executionPriorityMap (banzaiv1alpha1.CurrentTaskOperation b)
     ∧ banzaiv1alpha1.CreationTimestamp (banzaiv1alpha1.Meta a)
       ≤ banzaiv1alpha1.CreationTimestamp (banzaiv1alpha1.Meta b)).

(** The first loop of [sortOperations]: append each record to its bucket. *)
Definition classify (items : Store) (ccOperations : list Pointer)
  : gmap string (list Pointer) :=
  foldl (λ ccOperationQueueMap ccOperation,
           match bucketOf (items !!! ccOperation) with
           | Some key =>
               <[key := queue ccOperationQueueMap key ++ [ccOperation]]>
                 ccOperationQueueMap
           | None => ccOperationQueueMap
           end)
        ∅ ccOperations.

Definition sortOperations (items : Store) (ccOperations : list Pointer)
  : gmap string (list Pointer) :=
  SliceStable (λ i j, lessOperation (items !!! i) (items !!! j))
    <$> classify items ccOperations.

(** ** The Selector: [selectOperationForExecution] *)

(** The selected pointer (nil is [None]) and the store, in which the selected
    record has its kind overwritten when it comes from the stop bucket.
    [now] is the clock [IsReadyForRetryExecution] reads. *)
Definition selectOperationForExecution (now : Time) (items : Store)
  (ccOperationQueueMap : gmap string (list Pointer)) : option Pointer * Store :=
  match queue ccOperationQueueMap ccOperationForStopExecution with
  | ccOperationExecution :: _ =>
      (Some ccOperationExecution,
       alter (banzaiv1alpha1.withTask
                (banzaiv1alpha1.setOperation banzaiv1alpha1.OperationStopExecution))
         ccOperationExecution items)
  | [] =>
      if match queue ccOperationQueueMap ccOperationFirstExecution with
         | first :: _ =>
             bool_decide (banzaiv1alpha1.CurrentTaskOperation (items !!! first)
                          = banzaiv1alpha1.OperationAddBroker)
         | [] => false
         end
      then (head (queue ccOperationQueueMap ccOperationFirstExecution), items)
      else
        match queue ccOperationQueueMap ccOperationRetryExecution with
        | retry :: _ =>
            if IsReadyForRetryExecution now (items !!! retry)
            then (Some retry, items)
            else (None, items)
        | [] => (head (queue ccOperationQueueMap ccOperationFirstExecution), items)
        end
  end.

End Classifier.

(** ** The collaborators of the reconciliation loop *)

Module client.

Record ObjectKey := {
  Name : string;
  Namespace : string;
}.

#[global] Instance ObjectKey_eq_dec : EqDecision ObjectKey.
Proof. solve_decision. Defined.

End client.

(** A call the controller makes to the Operation Store or to the Task
    Executor, with the arguments that matter; records are logged as they are
    in memory at the time of the call. *)
Inductive Call :=
| CallList (namespace : string)
| CallUpdate (o : banzaiv1alpha1.CruiseControlOperation)
| CallGetKafkaCluster (key : client.ObjectKey)
| CallGet (key : client.ObjectKey)
| CallStatusUpdate (o : banzaiv1alpha1.CruiseControlOperation)
| CallScaleFactory (key : client.ObjectKey)
| CallStatus
| CallUserTasks (userTaskIDs : list string)
| CallAddBrokersWithParams (params : gmap string string)
| CallRemoveBrokersWithParams (params : gmap string string)
| CallRebalanceWithParams (params : gmap string string)
| CallStopExecution.

#[global] Instance Call_eq_dec : EqDecision Call.
Proof. solve_decision. Defined.

(** What the collaborators answer.  Every answer may depend on the calls made
    so far in the pass, which is how an environment that changes between two
    calls is written.  [Now n] is the [n]-th reading of the clock in the pass
    and [DefaultBackOffForConflict] the number of retries [util] allows. *)
Record Collaborators := {
  List : list Call → string → error + Store;
  Update : list Call → banzaiv1alpha1.CruiseControlOperation → option error;
  GetKafkaCluster : list Call → client.ObjectKey → option error;
  Get : list Call → client.ObjectKey → error + banzaiv1alpha1.CruiseControlOperation;
  StatusUpdate : list Call → banzaiv1alpha1.CruiseControlOperation → option error;
  ScaleFactory : list Call → client.ObjectKey → option error;
  Status : list Call → error + scale.StatusTaskResult;
  UserTasks : list Call → list string → error + list scale.Result;
  AddBrokersWithParams :
    list Call → gmap string string → option scale.Result * option error;
  RemoveBrokersWithParams :
    list Call → gmap string string → option scale.Result * option error;
  RebalanceWithParams :
    list Call → gmap string string → option scale.Result * option error;
  StopExecution : list Call → option scale.Result * option error;
  Now : nat → Time;
  DefaultBackOffForConflict : nat;
  Parse : string → string → option Time;
}.

(** Modelled from the spec: [reconciled], [requeueAfter] and
    [requeueWithError] are helpers of the package [controllers] declared
    outside the sources; a pass hands back to the scheduler "either done or
    retry after duration T", or an error to requeue with. *)
Inductive ReconcileResult :=
| reconciled
| requeueAfter (seconds : Z)
| requeueWithError (msg : string) (err : error).

#[global] Instance ReconcileResult_eq_dec : EqDecision ReconcileResult.
Proof. solve_decision. Defined.

(** The state of a pass: the records in memory, the calls made so far and
    the number of clock readings so far. *)
Record World := {
  Items : Store;
  calls : list Call;
  ticks : nat;
}.

#[global] Instance World_eq_dec : EqDecision World.
Proof. solve_decision. Defined.

(** A step of a pass either goes on with a value or leaves [Reconcile] with a
    result ([return] in the middle of the function). *)
Definition Pass (A : Type) : Type := World → (ReconcileResult + A) * World.

#[global] Instance Pass_ret : MRet Pass := λ A a w, (inr a, w).

#[global] Instance Pass_bind : MBind Pass := λ A B f m w,
  match m w with
  | (inl result, w') => (inl result, w')
  | (inr a, w') => f a w'
  end.

Definition exit {A} (result : ReconcileResult) : Pass A := λ w, (inl result, w).

Definition getItems : Pass Store := λ w, (inr (Items w), w).

Definition setItems (items : Store) : Pass unit := λ w,
  (inr (), {| Items := items; calls := calls w; ticks := ticks w |}).

(** Read and write through a pointer. *)
Definition load (p : Pointer) : Pass banzaiv1alpha1.CruiseControlOperation :=
  λ w, (inr (Items w !!! p), w).

Definition store (p : Pointer) (o : banzaiv1alpha1.CruiseControlOperation) : Pass unit :=
  λ w, (inr (), {| Items := <[p := o]> (Items w); calls := calls w; ticks := ticks w |}).

(** A call: the answer is taken from the collaborator, the call is logged. *)
Definition call {A} (answer : list Call → A) (c : Call) : Pass A := λ w,
  (inr (answer (calls w)),
   {| Items := Items w; calls := calls w ++ [c]; ticks := ticks w |}).

(** A pass starts with nothing in memory and no call made. *)
Definition startOfPass : World := {| Items := []; calls := []; ticks := 0 |}.

(** Kinds of calls: a write of a whole record ([r.Update]), a write of a
    status ([r.Status().Update]) and a job handed to the engine. *)
Definition isUpdate (c : Call) : Prop :=
  match c with CallUpdate _ => True | _ => False end.

Definition isStatusUpdate (c : Call) : Prop :=
  match c with CallStatusUpdate _ => True | _ => False end.

Definition isDispatch (c : Call) : Prop :=
  match c with
  | CallAddBrokersWithParams _ | CallRemoveBrokersWithParams _
  | CallRebalanceWithParams _ | CallStopExecution => True
  | _ => False
  end.

(** [w'] is [w] after some more calls, all of which satisfy [P]. *)
Definition extends (P : Call → Prop) (w w' : World) : Prop :=
  ∃ new, calls w' = calls w ++ new ∧ Forall P new.

(** A step that only makes calls that satisfy [P]. *)
Definition emits {A} (P : Call → Prop) (m : Pass A) : Prop :=
  ∀ w, extends P w (snd (m w)).

(** A step that leaves the metadata of every record in memory as it is. *)
Definition keepsMeta {A} (m : Pass A) : Prop :=
  ∀ w, length (Items (snd (m w))) = length (Items w)
       ∧ ∀ p, banzaiv1alpha1.Meta (Items (snd (m w)) !!! p)
              = banzaiv1alpha1.Meta (Items w !!! p).

Section Reconciler.

Context {api : OperationAPI} (env : Collaborators).

(** [time.Now()]. *)
Definition time_Now : Pass Time := λ w,
  (inr (Now env (ticks w)),
   {| Items := Items w; calls := calls w; ticks := S (ticks w) |}).

(** [r.Update(ctx, operation)] and [r.Status().Update(ctx, operation)], on the
    record a pointer refers to.  The store answers a write with the record
    as it has stored it; the record in memory is taken to stay as it was
    sent. *)
Definition r_Update (p : Pointer) : Pass (option error) :=
  o ← load p; call (λ cs, Update env cs o) (CallUpdate o).

Definition r_Status_Update (p : Pointer) : Pass (option error) :=
  o ← load p; call (λ cs, StatusUpdate env cs o) (CallStatusUpdate o).

Definition kafkaClusterReference (operation : banzaiv1alpha1.CruiseControlOperation)
  : client.ObjectKey * option error :=
  if bool_decide (GetClusterRef operation = "")
  then ({| client.Name := ""; client.Namespace := "" |},
        Some (errors.New
                "could not find kafka cluster reference label for CruiseControlOperation"))
  else ({| client.Name := GetClusterRef operation;
           client.Namespace := banzaiv1alpha1.GetNamespace operation |}, None).

(** Lines 88-94: the first record with the name and namespace of the
    request. *)
Definition findOperation (request : client.ObjectKey) (items : Store) : option Pointer :=
  fst <$> list_find
            (λ ccOperation,
               banzaiv1alpha1.GetName ccOperation = client.Name request
               ∧ banzaiv1alpha1.GetNamespace ccOperation = client.Namespace request)
            items.

(** Lines 242-256. *)
Definition addFinalizer (currentCCOperation : Pointer) : Pass (option error) :=
  o ← load currentCCOperation;
  if isMarkedForDeletion o then mret None
  else if controllerutil.ContainsFinalizer o ccOperationFinalizerGroup then mret None
  else
    store currentCCOperation
      (controllerutil.AddFinalizer ccOperationFinalizerGroup o);;
    r_Update currentCCOperation.

(** Lines 159-172: the records of the same cluster that are valid and not
    done. *)
Definition filterByCluster (kafkaClusterRef : client.ObjectKey) (items : Store)
  : list Pointer :=
  filter (λ i,
            let operation := items !!! i in
            let ref := fst (kafkaClusterReference operation) in
            client.Name ref = client.Name kafkaClusterRef
            ∧ client.Namespace ref = client.Namespace kafkaClusterRef
            ∧ IsCurrentTaskOperationValid operation = true
            ∧ IsDone operation = false)
         (seq 0 (length items)).

(** Lines 452-459: merge the polled result of each record that has a job ID. *)
Fixpoint mergeUserTasks (taskResultsByID : gmap string scale.Result)
  (ccOperations : list Pointer) : Pass (option error) :=
  match ccOperations with
  | [] => mret None
  | ccOperation :: rest =>
      o ← load ccOperation;
      if bool_decide (banzaiv1alpha1.CurrentTaskID o ≠ "") && negb (IsDone o) then
        now ← time_Now;
        let '(err, o') :=
          updateResult (Parse env) now
            (taskResultsByID !! banzaiv1alpha1.CurrentTaskID o) o false in
        store ccOperation o';;
        match err with
        | Some err =>
            mret (Some (errors.WrapIff err
                          "could not set Cruise Control user task result to CruiseControlOperation CurrentTask"))
        | None => mergeUserTasks taskResultsByID rest
        end
      else mergeUserTasks taskResultsByID rest
  end.

(** Lines 461-467: write the status of each record that changed. *)
Fixpoint writeChangedStatuses
  (ccOperations : list Pointer)
  (ccOperationsCopy : list banzaiv1alpha1.CruiseControlOperation)
  : Pass (option error) :=
  match ccOperations, ccOperationsCopy with
  | ccOperation :: rest, copy :: restCopy =>
      o ← load ccOperation;
      if bool_decide (banzaiv1alpha1.Status o ≠ banzaiv1alpha1.Status copy) then
        err ← r_Status_Update ccOperation;
        match err with
        | Some err =>
            mret (Some (errors.WrapIff err "could not update CruiseControlOperation status"))
        | None => writeChangedStatuses rest restCopy
        end
      else writeChangedStatuses rest restCopy
  | _, _ => mret None
  end.

(** Lines 430-469. *)
Definition updateCurrentTasks (ccOperations : list Pointer) : Pass (option error) :=
  items ← getItems;
  let userTaskIDs :=
    filter (λ id, id ≠ "")
      (map (λ p, banzaiv1alpha1.CurrentTaskID (items !!! p)) ccOperations) in
  let ccOperationsCopy := map (λ p, items !!! p) ccOperations in
  tasks ← call (λ cs, UserTasks env cs userTaskIDs) (CallUserTasks userTaskIDs);
  match tasks with
  | inl err =>
      mret (Some (errors.WrapIff err "could not get user tasks from Cruise Control API"))
  | inr tasks =>
      let taskResultsByID :=
        foldl (λ m task, <[scale.TaskID task := task]> m) ∅ tasks in
      err ← mergeUserTasks taskResultsByID ccOperations;
      match err with
      | Some err => mret (Some err)
      | None => writeChangedStatuses ccOperations ccOperationsCopy
      end
  end.

(** Lines 258-274. *)
Definition executeOperation (ccOperationExecution : Pointer)
  : Pass (option scale.Result * option error) :=
  o ← load ccOperationExecution;
  match banzaiv1alpha1.CurrentTaskOperation o with
  | banzaiv1alpha1.OperationAddBroker =>
      call (λ cs, AddBrokersWithParams env cs (banzaiv1alpha1.CurrentTaskParameters o))
        (CallAddBrokersWithParams (banzaiv1alpha1.CurrentTaskParameters o))
  | banzaiv1alpha1.OperationRemoveBroker =>
      call (λ cs, RemoveBrokersWithParams env cs (banzaiv1alpha1.CurrentTaskParameters o))
        (CallRemoveBrokersWithParams (banzaiv1alpha1.CurrentTaskParameters o))
  | banzaiv1alpha1.OperationRebalance =>
      call (λ cs, RebalanceWithParams env cs (banzaiv1alpha1.CurrentTaskParameters o))
        (CallRebalanceWithParams (banzaiv1alpha1.CurrentTaskParameters o))
  | banzaiv1alpha1.OperationStopExecution =>
      call (StopExecution env) CallStopExecution
  | banzaiv1alpha1.OperationOther _ =>
      mret (None, Some (errors.New "Cruise Control operation not supported"))
  end.

(** Lines 224-233: merge the result, write the status and, when the write is
    refused as a conflict, read the record again. *)
Definition conflictRetryFunction (cruseControlTaskResult : option scale.Result)
  (ccOperationExecution : Pointer) : Pass (option error) :=
  o ← load ccOperationExecution;
  now ← time_Now;
  let '(err, o') := updateResult (Parse env) now cruseControlTaskResult o true in
  store ccOperationExecution o';;
  match err with
  | Some err => mret (Some err)
  | None =>
      err ← r_Status_Update ccOperationExecution;
      match err with
      | Some err =>
          if apiErrors.IsConflict err then
            let key := {| client.Name := banzaiv1alpha1.GetName o';
                          client.Namespace := banzaiv1alpha1.GetNamespace o' |} in
            fetched ← call (λ cs, Get env cs key) (CallGet key);
            match fetched with
            | inl err => mret (Some err)
            | inr fresh => store ccOperationExecution fresh;; mret None
            end
          else mret (Some err)
      | None => mret None
      end
  end.

(** Modelled from the spec: [util.RetryOnConflict] is declared in [pkg/util],
    which is not among the sources.  The design has the write retried "using
    a bounded exponential backoff, until it succeeds or a non-conflict error
    occurs (which is surfaced)", and exhaustion surfaces the conflict. *)
Fixpoint RetryOnConflict (retries : nat) (fn : Pass (option error))
  : Pass (option error) :=
  err ← fn;
  match err with
  | None => mret None
  | Some err =>
      if apiErrors.IsConflict err then
        match retries with
        | O => mret (Some err)
        | S retries => RetryOnConflict retries fn
        end
      else mret (Some err)
  end.

(** Lines 224-239: merge the result under the retry on conflict. *)
Definition mergeExecutionResult (cruseControlTaskResult : option scale.Result)
  (ccOperationExecution : Pointer) : Pass ReconcileResult :=
  err ← RetryOnConflict (DefaultBackOffForConflict env)
          (conflictRetryFunction cruseControlTaskResult ccOperationExecution);
  match err with
  | Some err =>
      exit (requeueWithError
              "could not update the result of the Cruise Control user task execution to the CruiseControlOperation status"
              err)
  | None => mret reconciled
  end.

(** Lines 200-240: select, check that the engine is free, dispatch and merge
    the result.  The clock is read up front for the selector, which reads it
    in [IsReadyForRetryExecution]. *)
Definition dispatchSelected (status : scale.StatusTaskResult)
  (ccOperationQueueMap : gmap string (list Pointer)) : Pass ReconcileResult :=
  now ← time_Now;
  items ← getItems;
  let '(selected, items) := selectOperationForExecution now items ccOperationQueueMap in
  setItems items;;
  match selected with
  | None => exit (requeueAfter defaultRequeueIntervalInSeconds)
  | Some ccOperationExecution =>
      o ← load ccOperationExecution;
      if (scale.InExecution status
          || bool_decide (queue ccOperationQueueMap ccOperationInProgress ≠ []))
         && bool_decide (banzaiv1alpha1.CurrentTaskOperation o
                         ≠ banzaiv1alpha1.OperationStopExecution)
      then exit (requeueAfter defaultRequeueIntervalInSeconds)
      else
        '(cruseControlTaskResult, err) ← executeOperation ccOperationExecution;
        match err, cruseControlTaskResult with
        | Some err, None =>
            exit (requeueWithError "CruiseControlOperation custom resource is invalid" err)
        | _, _ => mergeExecutionResult cruseControlTaskResult ccOperationExecution
        end
  end.

(** Lines 100-107 and 181-188: take the guard off and write the record. *)
Definition removeFinalizer (currentCCOperation : Pointer) (msg : option string)
  : Pass unit :=
  o ← load currentCCOperation;
  store currentCCOperation
    (controllerutil.RemoveFinalizer ccOperationFinalizerGroup o);;
  err ← r_Update currentCCOperation;
  match err with
  | Some err => exit (requeueWithError (default (Error err) msg) err)
  | None => exit reconciled
  end.

(** Lines 115-134: resolve the cluster of the record and look it up. *)
Definition lookupKafkaCluster (currentCCOperation : Pointer) : Pass client.ObjectKey :=
  o ← load currentCCOperation;
  match kafkaClusterReference o with
  | (_, Some err) => exit (requeueWithError "couldn't get kafka cluster reference" err)
  | (kafkaClusterRef, None) =>
      err ← call (λ cs, GetKafkaCluster env cs kafkaClusterRef)
              (CallGetKafkaCluster kafkaClusterRef);
      match err with
      | Some err =>
          if apiErrors.IsNotFound err then
            if isMarkedForDeletion o then
              store currentCCOperation
                (controllerutil.RemoveFinalizer ccOperationFinalizerGroup o);;
              err ← r_Update currentCCOperation;
              match err with
              | Some err =>
                  exit (requeueWithError
                          "failed to remove finalizer from CruiseControlOperation" err)
              | None => exit reconciled
              end
            else exit reconciled
          else exit (requeueWithError "failed to lookup referenced kafka cluster" err)
      | None => mret kafkaClusterRef
      end
  end.

(** Lines 141-156: build the scaler and ask the engine for its status. *)
Definition engineStatus (kafkaClusterRef : client.ObjectKey)
  : Pass scale.StatusTaskResult :=
  err ← call (λ cs, ScaleFactory env cs kafkaClusterRef)
          (CallScaleFactory kafkaClusterRef);
  match err with
  | Some err =>
      exit (requeueWithError "failed to create Cruise Control Scaler instance" err)
  | None =>
      status ← call (Status env) CallStatus;
      match status with
      | inl _ => exit (requeueAfter defaultRequeueIntervalInSeconds)
      | inr status =>
          if scale.IsReady status then mret status
          else exit (requeueAfter defaultRequeueIntervalInSeconds)
      end
  end.

(** Lines 158-240: filter the records of the cluster, poll the engine for
    them, take the guard off a record that waits for deletion and does not
    run, classify, select and dispatch. *)
Definition reconcileCluster (currentCCOperation : Pointer)
  (kafkaClusterRef : client.ObjectKey) (status : scale.StatusTaskResult)
  : Pass ReconcileResult :=
  items ← getItems;
  let ccOperationsKafkaClusterFiltered := filterByCluster kafkaClusterRef items in
  err ← updateCurrentTasks ccOperationsKafkaClusterFiltered;
  match err with
  | Some _ => exit (requeueAfter defaultRequeueIntervalInSeconds)
  | None =>
      o ← load currentCCOperation;
      (if isFinalizerNeeded o && negb (IsCurrentTaskRunning o)
       then removeFinalizer currentCCOperation None
       else mret ());;
      items ← getItems;
      let ccOperationQueueMap :=
        sortOperations items ccOperationsKafkaClusterFiltered in
      if bool_decide (queue ccOperationQueueMap ccOperationForStopExecution = [])
         && bool_decide (queue ccOperationQueueMap ccOperationFirstExecution = [])
         && bool_decide (queue ccOperationQueueMap ccOperationRetryExecution = [])
         && bool_decide (queue ccOperationQueueMap ccOperationInProgress = [])
      then exit reconciled
      else dispatchSelected status ccOperationQueueMap
  end.

(** [Reconcile(ctx, request)], as a step: the result is the value it goes on
    with or the one it leaves with. *)
Definition reconcile (request : client.ObjectKey) : Pass ReconcileResult :=
  listed ← call (λ cs, List env cs (client.Namespace request))
             (CallList (client.Namespace request));
  match listed with
  | inl err => exit (requeueWithError (Error err) err)
  | inr items =>
      setItems items;;
      match findOperation request items with
      | None => exit reconciled
      | Some currentCCOperation =>
          o ← load currentCCOperation;
          (if isFinalizerNeeded o && IsDone o
           then removeFinalizer currentCCOperation
                  (Some "error happened when removing finalizer")
           else mret ());;
          (if IsCurrentTaskOperationValid o then mret () else exit reconciled);;
          kafkaClusterRef ← lookupKafkaCluster currentCCOperation;
          err ← addFinalizer currentCCOperation;
          match err with
          | Some err =>
              exit (requeueWithError
                      "failed to add finalizer to CruiseControlOperation" err)
          | None =>
              status ← engineStatus kafkaClusterRef;
              reconcileCluster currentCCOperation kafkaClusterRef status
          end
      end
  end.

(** [Reconcile(ctx, request)]: the result of the pass and the world it
    leaves. *)
Definition Reconcile (request : client.ObjectKey) (w : World) : ReconcileResult * World :=
  match reconcile request w with
  | (inl result, w') => (result, w')
  | (inr result, w') => (result, w')
  end.

(** The three situations in which a pass for [request] writes a record
    without the guard: the record written is the triggering record [cur], as
    it is in memory, less the guard; [cur] is marked for deletion, and
    - carries the guard and is done; or
    - refers to a cluster that the store does not find; or
    - carries the guard and its current task is not running. *)
Definition guardRemoved (request : client.ObjectKey)
  (written : banzaiv1alpha1.CruiseControlOperation) : Prop :=
  ∃ cur,
    written = controllerutil.RemoveFinalizer ccOperationFinalizerGroup cur
    ∧ banzaiv1alpha1.GetName cur = client.Name request
    ∧ banzaiv1alpha1.GetNamespace cur = client.Namespace request
    ∧ isMarkedForDeletion cur = true
    ∧ ((controllerutil.ContainsFinalizer cur ccOperationFinalizerGroup = true
        ∧ IsDone cur = true)
       ∨ (∃ cs err,
            GetKafkaCluster env cs (fst (kafkaClusterReference cur)) = Some err
            ∧ apiErrors.IsNotFound err = true)
       ∨ (controllerutil.ContainsFinalizer cur ccOperationFinalizerGroup = true
          ∧ IsCurrentTaskRunning cur = false)).

End Reconciler.

(** ** Implementations used to run the model on concrete passes *)

(** *** A parser for HTTP dates

    The fragment of [time.Parse] that the controller needs for the [Date]
    header of the engine's answers: the layout [RFC1123] with the zone [GMT]
    or [UTC], as in [Mon, 02 Jan 2006 15:04:05 GMT].  The name of the day is
    checked to be one, not to match the date, as in Go. *)

Definition digitValue (c : Ascii.ascii) : option Z :=
  let n := Z.of_nat (Ascii.nat_of_ascii c) in
  if bool_decide (48 ≤ n ≤ 57) then Some (n - 48) else None.

Fixpoint digitsValue (acc : Z) (s : string) : option Z :=
  match s with
  | EmptyString => Some acc
  | String c s' => d ← digitValue c; digitsValue (10 * acc + d) s'
  end.

Definition shortDayNames : list string :=
  ["Sun"; "Mon"; "Tue"; "Wed"; "Thu"; "Fri"; "Sat"].

Definition shortMonthNames : list string :=
  ["Jan"; "Feb"; "Mar"; "Apr"; "May"; "Jun";
   "Jul"; "Aug"; "Sep"; "Oct"; "Nov"; "Dec"].

Definition lookupMonth (name : string) : option Z :=
  (λ r, Z.of_nat (fst r) + 1) <$> list_find (λ m, m = name) shortMonthNames.

Definition isLeap (year : Z) : bool :=
  bool_decide (year mod 4 = 0)
  && (bool_decide (year mod 100 ≠ 0) || bool_decide (year mod 400 = 0)).

Definition daysIn (month year : Z) : Z :=
  if bool_decide (month = 2) then (if isLeap year then 29 else 28)
  else if bool_decide (month ∈ [4; 6; 9; 11]) then 30
  else 31.

(** Days from 1970-01-01 to the given civil date. *)
Definition daysSinceEpoch (year month day : Z) : Z :=
  let y := if bool_decide (month ≤ 2) then year - 1 else year in
  let era := y / 400 in
  let yoe := y - era * 400 in
  let mp := if bool_decide (month > 2) then month - 3 else month + 9 in
  let doy := (153 * mp + 2) / 5 + day - 1 in
  let doe := yoe * 365 + yoe / 4 - yoe / 100 + doy in
  era * 146097 + doe - 719468.

Definition parseRFC1123 (layout value : string) : option Time :=
  if bool_decide (layout = RFC1123 ∧ String.length value = 29%nat
                  ∧ String.substring 0 3 value ∈ shortDayNames
                  ∧ String.substring 3 2 value = ", "
                  ∧ String.substring 7 1 value = " "
                  ∧ String.substring 11 1 value = " "
                  ∧ String.substring 16 1 value = " "
                  ∧ String.substring 19 1 value = ":"
                  ∧ String.substring 22 1 value = ":"
                  ∧ String.substring 25 1 value = " "
                  ∧ String.substring 26 3 value ∈ ["GMT"; "UTC"])
  then
    day ← digitsValue 0 (String.substring 5 2 value);
    month ← lookupMonth (String.substring 8 3 value);
    year ← digitsValue 0 (String.substring 12 4 value);
    hour ← digitsValue 0 (String.substring 17 2 value);
    min ← digitsValue 0 (String.substring 20 2 value);
    sec ← digitsValue 0 (String.substring 23 2 value);
    if bool_decide (1 ≤ day ≤ daysIn month year ∧ hour < 24 ∧ min < 60 ∧ sec < 60)
    then Some (daysSinceEpoch year month day * 86400 + hour * 3600 + min * 60 + sec)
    else None
  else None.

(** *** The predicates of the record, from the design *)

(** Modelled from the spec: the retry backoff window of [api/v1alpha1]; the
    scenarios of the design use 60 seconds. *)
Definition retryBackOffWindow : Z := 60.

(** Modelled from the spec: the label that carries the cluster reference
    ([banzaiv1beta1.KafkaCRLabelKey], declared outside the sources). *)
Definition KafkaCRLabelKey : string := "kafka_cr".

(** Modelled from the spec: the methods of [CruiseControlOperation] declared
    in [api/v1alpha1], outside the sources, after the data model and the
    descriptions of the four buckets.  A record is done in state [Completed],
    or in [CompletedWithError] when its error policy forbids retry; its task
    runs while the engine reports it active or in execution; it waits for its
    first execution while it has never been dispatched, for a retry when its
    last attempt failed and the policy permits retry, and is ready for the
    retry once the backoff window has passed since the attempt finished. *)
#[global] Instance specAPI : OperationAPI := {|
  IsDone o :=
    let task := banzaiv1alpha1.CurrentTask o in
    bool_decide (banzaiv1alpha1.State task = banzaiv1beta1.CruiseControlTaskCompleted)
    || (bool_decide (banzaiv1alpha1.State task
                     = banzaiv1beta1.CruiseControlTaskCompletedWithError)
        && bool_decide (banzaiv1alpha1.StatusErrorPolicy (banzaiv1alpha1.Status o)
                        ≠ "retry"));
  IsCurrentTaskOperationValid o :=
    match banzaiv1alpha1.CurrentTaskOperation o with
    | banzaiv1alpha1.OperationOther _ => false
    | _ => true
    end;
  IsCurrentTaskRunning o :=
    let task := banzaiv1alpha1.CurrentTask o in
    bool_decide (banzaiv1alpha1.State task = banzaiv1beta1.CruiseControlTaskActive)
    || bool_decide (banzaiv1alpha1.State task
                    = banzaiv1beta1.CruiseControlTaskInExecution);
  IsWaitingForFirstExecution o :=
    let task := banzaiv1alpha1.CurrentTask o in
    bool_decide (banzaiv1alpha1.ID task = "")
    && bool_decide (banzaiv1alpha1.State task = banzaiv1beta1.CruiseControlTaskUnset);
  IsWaitingForRetryExecution o :=
    let task := banzaiv1alpha1.CurrentTask o in
    bool_decide (banzaiv1alpha1.State task
                 = banzaiv1beta1.CruiseControlTaskCompletedWithError)
    && bool_decide (banzaiv1alpha1.StatusErrorPolicy (banzaiv1alpha1.Status o)
                    = "retry");
  IsInProgress o :=
    let task := banzaiv1alpha1.CurrentTask o in
    bool_decide (banzaiv1alpha1.ID task ≠ "")
    && (bool_decide (banzaiv1alpha1.State task = banzaiv1beta1.CruiseControlTaskActive)
        || bool_decide (banzaiv1alpha1.State task
                        = banzaiv1beta1.CruiseControlTaskInExecution));
  IsReadyForRetryExecution now o :=
    match banzaiv1alpha1.Finished (banzaiv1alpha1.CurrentTask o) with
    | Some finished => bool_decide (finished + retryBackOffWindow < now)
    | None => false
    end;
  GetClusterRef o :=
    default "" (banzaiv1alpha1.Labels (banzaiv1alpha1.Meta o) !! KafkaCRLabelKey);
|}.

(** ** Sample records and results *)

(** A request that has not been dispatched yet. *)
Definition newTask (kind : banzaiv1alpha1.CruiseControlTaskOperation)
  : banzaiv1alpha1.CruiseControlTask :=
  {| banzaiv1alpha1.ID := ""; banzaiv1alpha1.Started := None;
     banzaiv1alpha1.Finished := None; banzaiv1alpha1.Operation := kind;
     banzaiv1alpha1.Parameters := ∅; banzaiv1alpha1.HTTPRequest := "";
     banzaiv1alpha1.HTTPResponseCode := None; banzaiv1alpha1.Summary := None;
     banzaiv1alpha1.State := banzaiv1beta1.CruiseControlTaskUnset;
     banzaiv1alpha1.ErrorMessage := "" |}.

(** A record of the cluster [kafka] in the namespace [ns], with the error
    policy [retry]. *)
Definition newOperation (name : string) (created : Time)
  (deleted : option Time) (finalizers : list string)
  (task : banzaiv1alpha1.CruiseControlTask) : banzaiv1alpha1.CruiseControlOperation :=
  {| banzaiv1alpha1.Meta :=
       {| banzaiv1alpha1.Name := name; banzaiv1alpha1.Namespace := "ns";
          banzaiv1alpha1.Labels := {[ KafkaCRLabelKey := "kafka" ]};
          banzaiv1alpha1.CreationTimestamp := created;
          banzaiv1alpha1.DeletionTimestamp := deleted;
          banzaiv1alpha1.Finalizers := finalizers |};
     banzaiv1alpha1.Spec := {| banzaiv1alpha1.ErrorPolicy := "retry" |};
     banzaiv1alpha1.Status :=
       {| banzaiv1alpha1.CurrentTask_ := task;
          banzaiv1alpha1.StatusErrorPolicy := "retry";
          banzaiv1alpha1.RetryCount := 0;
          banzaiv1alpha1.FailedTasks := [] |} |}.

(** A task as a merge leaves it once the engine has reported its state. *)
Definition polledTask (kind : banzaiv1alpha1.CruiseControlTaskOperation)
  (id : string) (state : banzaiv1beta1.CruiseControlUserTaskState)
  (started finished : option Time) : banzaiv1alpha1.CruiseControlTask :=
  {| banzaiv1alpha1.ID := id; banzaiv1alpha1.Started := started;
     banzaiv1alpha1.Finished := finished; banzaiv1alpha1.Operation := kind;
     banzaiv1alpha1.Parameters := ∅; banzaiv1alpha1.HTTPRequest := "";
     banzaiv1alpha1.HTTPResponseCode := None; banzaiv1alpha1.Summary := None;
     banzaiv1alpha1.State := state; banzaiv1alpha1.ErrorMessage := "" |}.

(** What the engine answers to a dispatch or a poll. *)
Definition engineResult (id : string) (date : string)
  (state : banzaiv1beta1.CruiseControlUserTaskState) (err : option error)
  : scale.Result :=
  {| scale.TaskID := id; scale.StartedAt := date;
     scale.ResponseStatusCode := 200; scale.RequestURL := "/kafkacruisecontrol";
     scale.Result_ := None; scale.State := state; scale.Err := err |}.

Definition epoch : string := "Thu, 01 Jan 1970 00:00:00 GMT".

(** Collaborators for a pass over [items]: the store lists them and accepts
    every write, the cluster lookup answers [cluster], the engine reports
    [status], knows the results [tasks] and answers every dispatch with
    [dispatched]; the clock starts at 1000 and advances one second a
    reading. *)
Definition collaborators (items : Store) (cluster : option error)
  (status : scale.StatusTaskResult) (tasks : list scale.Result)
  (dispatched : option scale.Result * option error) : Collaborators :=
  {| List := λ _ _, inr items;
     Update := λ _ _, None;
     GetKafkaCluster := λ _ _, cluster;
     Get := λ _ _, inl (StatusError StatusReasonNotFound "not found");
     StatusUpdate := λ _ _, None;
     ScaleFactory := λ _ _, None;
     Status := λ _, inr status;
     UserTasks := λ _ _, inr tasks;
     AddBrokersWithParams := λ _ _, dispatched;
     RemoveBrokersWithParams := λ _ _, dispatched;
     RebalanceWithParams := λ _ _, dispatched;
     StopExecution := λ _, dispatched;
     Now := λ n, 1000 + Z.of_nat n;
     DefaultBackOffForConflict := 5;
     Parse := parseRFC1123 |}.

Definition ready : scale.StatusTaskResult :=
  {| scale.IsReady := true; scale.InExecution := false |}.

Definition busy : scale.StatusTaskResult :=
  {| scale.IsReady := true; scale.InExecution := true |}.

Definition requestFor (name : string) : client.ObjectKey :=
  {| client.Name := name; client.Namespace := "ns" |}.

Definition guard : list string := [ccOperationFinalizerGroup].

(** A rebalance that waits for its first execution. *)
Definition newRebalance : banzaiv1alpha1.CruiseControlOperation :=
  newOperation "rebalance" 10 None guard (newTask banzaiv1alpha1.OperationRebalance).

(** An add-broker request created after [newRebalance]. *)
Definition newAddBroker : banzaiv1alpha1.CruiseControlOperation :=
  newOperation "add-broker" 20 None guard (newTask banzaiv1alpha1.OperationAddBroker).

(** A rebalance whose job [job-1] was seen to end in error at time 50. *)
Definition failedRebalance : banzaiv1alpha1.CruiseControlOperation :=
  newOperation "rebalance" 10 None guard
    (polledTask banzaiv1alpha1.OperationRebalance "job-1"
       banzaiv1beta1.CruiseControlTaskCompletedWithError (Some 0) (Some 50)).

(** A rebalance whose job [job-1] is in execution, with and without a
    request for deletion. *)
Definition runningRebalance (deleted : option Time)
  : banzaiv1alpha1.CruiseControlOperation :=
  newOperation "rebalance" 10 deleted guard
    (polledTask banzaiv1alpha1.OperationRebalance "job-1"
       banzaiv1beta1.CruiseControlTaskInExecution (Some 0) None).

(** An answer of the engine that reports the job [id] as failed. *)
Definition failure (id date : string) : scale.Result :=
  engineResult id date banzaiv1beta1.CruiseControlTaskCompletedWithError
    (Some (errors.New "engine error")).

(** [n] post-execution merges, one a second from time 2000 on, each of a
    result that reports a new job as failed. *)
Definition failedAttempts (n : nat) : list Merge :=
  map (λ i, {| now := 2000 + Z.of_nat i;
               res := Some (failure ("job-" ++ Sprintf_d (2 + Z.of_nat i)) epoch);
               isAfterExecution := true |})
      (seq 0 n).

(** Two polls that report the job [job-1] first in execution, then failed. *)
Definition polls : list Merge :=
  [ {| now := 100;
       res := Some (engineResult "job-1" epoch
                      banzaiv1beta1.CruiseControlTaskInExecution None);
       isAfterExecution := false |};
    {| now := 200; res := Some (failure "job-1" epoch); isAfterExecution := false |};
    {| now := 300; res := None; isAfterExecution := false |} ].

(** The store does not find the cluster. *)
Definition clusterNotFound : option error :=
  Some (StatusError StatusReasonNotFound "kafkaclusters.kafka.banzaicloud.io not found").

(** A dispatch that fails before the engine answers: an error together
    with a partial result that carries neither a job ID nor a date. *)
Definition refusedDispatch : option scale.Result * option error :=
  (Some (failure "" ""), Some (errors.New "engine error")).

(** A dispatch that fails without any result. *)
Definition invalidDispatch : option scale.Result * option error :=
  (None, Some (errors.New "invalid parameters")).

(** The buckets of a pass in which [newRebalance], at index 0, waits. *)
Definition oneWaiting : gmap string (list Pointer) :=
  {[ ccOperationFirstExecution := [0%nat] ]}.

(** The world of such a pass when it comes to the selection. *)
Definition beforeSelection (items : Store) : World :=
  {| Items := items; calls := [CallList "ns"; CallStatus]; ticks := 0 |}.

(** A rebalance whose job [job-1] ended in error at time 996, four seconds
    before the clock of [collaborators] starts. *)
Definition recentlyFailedRebalance : banzaiv1alpha1.CruiseControlOperation :=
  newOperation "rebalance" 10 None guard
    (polledTask banzaiv1alpha1.OperationRebalance "job-1"
       banzaiv1beta1.CruiseControlTaskCompletedWithError (Some 0) (Some 996)).

(** A dispatch that the engine accepts as the job [id]. *)
Definition accepted (id : string) (state : banzaiv1beta1.CruiseControlUserTaskState)
  : option scale.Result * option error :=
  (Some (engineResult id epoch state None), None).

(** ** Notions for the further properties *)

(** Whether a merge archives the current task, read off the record and the
    result as they are when [updateResult] is called: line 396, with
    [Finished] as lines 391-393 leave it. *)
Definition archivesTask (isAfterExecution : bool) (result : scale.Result)
  (operation : banzaiv1alpha1.CruiseControlOperation) : bool :=
  let task := banzaiv1alpha1.CurrentTask operation in
  isAfterExecution
  && bool_decide (banzaiv1alpha1.State task
                  = banzaiv1beta1.CruiseControlTaskCompletedWithError)
  && (bool_decide (banzaiv1alpha1.Finished task ≠ None)
      || isTerminal (scale.State result)).

(** A task that failed and has its end recorded. *)
Definition failedTask (task : banzaiv1alpha1.CruiseControlTask) : Prop :=
  banzaiv1alpha1.State task = banzaiv1beta1.CruiseControlTaskCompletedWithError
  ∧ banzaiv1alpha1.Finished task ≠ None.

(** What the comparison of [sortOperations] looks at. *)
Definition sortKey (o : banzaiv1alpha1.CruiseControlOperation) : Z * Time :=
  (executionPriorityMap (banzaiv1alpha1.CurrentTaskOperation o),
   banzaiv1alpha1.CreationTimestamp (banzaiv1alpha1.Meta o)).

(** The calls of the part of a pass before the records of the cluster are
    polled. *)
Definition isHeadCall (c : Call) : Prop :=
  match c with
  | CallList _ | CallGetKafkaCluster _ | CallUpdate _
  | CallScaleFactory _ | CallStatus => True
  | _ => False
  end.

(** The calls that follow a dispatch. *)
Definition isMergeCall (c : Call) : Prop :=
  match c with
  | CallStatusUpdate _ | CallGet _ => True
  | _ => False
  end.

(** The start time a merge works with: that of its result, the empty text
    for a missing one. *)
Definition resultStartedAt (m : Merge) : string :=
  match res m with
  | None => ""
  | Some r => scale.StartedAt r
  end.

(** What a poll leaves of a record: all but the state and the end of its
    current task and the copy of the error policy. *)
Definition samePolled (o o' : banzaiv1alpha1.CruiseControlOperation) : Prop :=
  banzaiv1alpha1.Meta o' = banzaiv1alpha1.Meta o
  ∧ banzaiv1alpha1.Spec o' = banzaiv1alpha1.Spec o
  ∧ banzaiv1alpha1.FailedTasks (banzaiv1alpha1.Status o')
    = banzaiv1alpha1.FailedTasks (banzaiv1alpha1.Status o)
  ∧ banzaiv1alpha1.RetryCount (banzaiv1alpha1.Status o')
    = banzaiv1alpha1.RetryCount (banzaiv1alpha1.Status o)
  ∧ banzaiv1alpha1.setFinished (banzaiv1alpha1.Finished (banzaiv1alpha1.CurrentTask o))
      (banzaiv1alpha1.setState (banzaiv1alpha1.State (banzaiv1alpha1.CurrentTask o))
         (banzaiv1alpha1.CurrentTask o'))
    = banzaiv1alpha1.CurrentTask o.

(** A step that never leaves the pass: it always goes on with a value. *)
Definition returns {A} (m : Pass A) : Prop :=
  ∀ w, ∃ a, fst (m w) = inr a.

(** The result of [Reconcile] when the pass is run as a step. *)
Definition outcome (r : ReconcileResult + ReconcileResult) : ReconcileResult :=
  match r with
  | inl result => result
  | inr result => result
  end.

(** ** Further sample records and collaborators *)

(** The dispatch of a job that the engine accepts, merged at time [now]. *)
Definition acceptedAt (now : Time) (id : string) : Merge :=
  {| now := now;
     res := Some (engineResult id epoch banzaiv1beta1.CruiseControlTaskActive None);
     isAfterExecution := true |}.

(** A rebalance that waits for its first execution and does not carry the
    guard yet. *)
Definition unguardedRebalance : banzaiv1alpha1.CruiseControlOperation :=
  newOperation "rebalance" 10 None [] (newTask banzaiv1alpha1.OperationRebalance).

(** A store that refuses every write of a status as a conflict and hands
    out [fresh] on every read of a record; all else is as in
    [collaborators]. *)
Definition conflictingStore (fresh : banzaiv1alpha1.CruiseControlOperation)
  (base : Collaborators) : Collaborators :=
  {| List := List base;
     Update := Update base;
     GetKafkaCluster := GetKafkaCluster base;
     Get := λ _ _, inr fresh;
     StatusUpdate := λ _ _, Some (StatusError StatusReasonConflict "conflict");
     ScaleFactory := ScaleFactory base;
     Status := Status base;
     UserTasks := UserTasks base;
     AddBrokersWithParams := AddBrokersWithParams base;
     RemoveBrokersWithParams := RemoveBrokersWithParams base;
     RebalanceWithParams := RebalanceWithParams base;
     StopExecution := StopExecution base;
     Now := Now base;
     DefaultBackOffForConflict := DefaultBackOffForConflict base;
     Parse := Parse base |}.

(** A dispatch that fails after the engine has taken the job: an error
    together with a result that carries the job ID and a date. *)
Definition failedDispatch : option scale.Result * option error :=
  (Some (failure "job-1" epoch), Some (errors.New "engine error")).

(** * Properties *)

(** ** The Result Reconciler *)

Section ResultReconcilerFacts.

Context (time_Parse : string → string → option Time).

Lemma wrapInt_small z : - 2 ^ 63 ≤ z < 2 ^ 63 → wrapInt z = z.
Proof.
  intros Hz. unfold wrapInt.
  rewrite Z.mod_small by lia. lia.
Qed.

(** A merge that does not run after an execution returns no error. *)
Lemma updateResult_poll_no_error now res operation :
  fst (updateResult time_Parse now res operation false) = None.
Proof. reflexivity. Qed.

(** C1, as amended: a post-execution merge archives the failure that an
    earlier merge recorded.  When the state recorded on the current task is
    [CompletedWithError] and [Finished] is set, or is set by this merge, the
    task is appended to [FailedTasks] (the oldest entry of a full history is
    dropped), [RetryCount] grows by one, and the task is reset to its
    defaults before the new result is written into it. *)
Theorem updateResult_archives_recorded_failure now res operation :
  let task := banzaiv1alpha1.CurrentTask operation in
  let result := resultOrMissing res operation in
  let history := banzaiv1alpha1.FailedTasks (banzaiv1alpha1.Status operation) in
  let snapshot := match banzaiv1alpha1.Finished task with
                  | Some _ => task
                  | None => banzaiv1alpha1.setFinished (Some now) task
                  end in
  banzaiv1alpha1.State task = banzaiv1beta1.CruiseControlTaskCompletedWithError →
  banzaiv1alpha1.Finished task ≠ None ∨ isTerminal (scale.State result) = true →
  - 2 ^ 63 ≤ banzaiv1alpha1.RetryCount (banzaiv1alpha1.Status operation) < 2 ^ 63 - 1 →
  let '(err, operation') := updateResult time_Parse now res operation true in
  banzaiv1alpha1.FailedTasks (banzaiv1alpha1.Status operation')
  = (if bool_decide (50 ≤ length history)%nat then tail history else history)
    ++ [snapshot]
  ∧ banzaiv1alpha1.RetryCount (banzaiv1alpha1.Status operation')
    = banzaiv1alpha1.RetryCount (banzaiv1alpha1.Status operation) + 1
  ∧ match time_Parse RFC1123 (scale.StartedAt result) with
    | None =>
        err ≠ None
        ∧ banzaiv1alpha1.CurrentTask operation' = banzaiv1alpha1.SetDefaults task
    | Some startTime =>
        err = None
        ∧ banzaiv1alpha1.CurrentTask operation'
          = {| banzaiv1alpha1.ID := scale.TaskID result;
               banzaiv1alpha1.Started := Some startTime;
               banzaiv1alpha1.Finished := None;
               banzaiv1alpha1.Operation := banzaiv1alpha1.Operation task;
               banzaiv1alpha1.Parameters := banzaiv1alpha1.Parameters task;
               banzaiv1alpha1.HTTPRequest := scale.RequestURL result;
               banzaiv1alpha1.HTTPResponseCode := Some (scale.ResponseStatusCode result);
               banzaiv1alpha1.Summary := formatSummary (scale.Result_ result);
               banzaiv1alpha1.State := scale.State result;
               banzaiv1alpha1.ErrorMessage :=
                 match scale.Err result with Some e => Error e | None => "" end |}
    end.
Proof.
  intros task result history snapshot Hstate Hfin Hcount.
  unfold updateResult. fold result.
  subst task history snapshot. clearbody result.
  destruct operation as [meta spec [t policy count failed]].
  destruct t as [id started finished kind params req code summary state msg].
  cbn in Hstate, Hcount, Hfin. subst state.
  unfold markFinished, archiveFailedTask, isArchived, appendFailedTask, parseStarted,
    recordExecution, defaultFailedTasksHistoryMaxLength.
  destruct finished as [fin|]; cbn.
  - rewrite andb_false_r. cbn.
    destruct (bool_decide (50 ≤ length failed)%nat);
      destruct (time_Parse RFC1123 (scale.StartedAt result));
      destruct (scale.Err result); cbn;
      rewrite wrapInt_small by lia; repeat split; congruence.
  - destruct Hfin as [Hfin|Hfin]; [done|]. rewrite Hfin. cbn.
    destruct (bool_decide (50 ≤ length failed)%nat);
      destruct (time_Parse RFC1123 (scale.StartedAt result));
      destruct (scale.Err result); cbn;
      rewrite wrapInt_small by lia; repeat split; congruence.
Qed.

(** When the state recorded on the task is not [CompletedWithError], a merge
    archives nothing, whatever the state of the incoming result. *)
Lemma updateResult_no_archive now res operation isAfterExecution :
  banzaiv1alpha1.State (banzaiv1alpha1.CurrentTask operation)
  ≠ banzaiv1beta1.CruiseControlTaskCompletedWithError →
  let operation' := snd (updateResult time_Parse now res operation isAfterExecution) in
  banzaiv1alpha1.FailedTasks (banzaiv1alpha1.Status operation')
  = banzaiv1alpha1.FailedTasks (banzaiv1alpha1.Status operation)
  ∧ banzaiv1alpha1.RetryCount (banzaiv1alpha1.Status operation')
    = banzaiv1alpha1.RetryCount (banzaiv1alpha1.Status operation).
Proof.
  intros Hstate. unfold updateResult.
  remember (resultOrMissing res operation) as result eqn:Hres. clear Hres.
  unfold archiveFailedTask, isArchived, markFinished.
  destruct operation as [meta spec [t policy count failed]].
  destruct t as [id started finished kind params req code summary state msg].
  cbn in Hstate.
  destruct (isTerminal (scale.State result) && _); cbn;
    rewrite (bool_decide_eq_false_2 _ Hstate), andb_false_r;
    destruct isAfterExecution; cbn; auto;
    unfold parseStarted; cbn;
    destruct started; cbn;
    try destruct (time_Parse RFC1123 (scale.StartedAt result)); cbn;
    destruct (scale.Err result); cbn; auto.
Qed.

(** *** The history of failed tasks *)

Lemma appendFailedTask_FailedTasks task operation :
  banzaiv1alpha1.FailedTasks (banzaiv1alpha1.Status (appendFailedTask task operation))
  = pushFailedTask (banzaiv1alpha1.FailedTasks (banzaiv1alpha1.Status operation)) task.
Proof.
  unfold appendFailedTask, pushFailedTask.
  destruct (bool_decide _); reflexivity.
Qed.

Lemma markFinished_setStatusErrorPolicy now result policy operation :
  markFinished now result (banzaiv1alpha1.setStatusErrorPolicy policy operation)
  = banzaiv1alpha1.setStatusErrorPolicy policy (markFinished now result operation).
Proof. unfold markFinished. cbn. destruct (_ && _); reflexivity. Qed.

(** What one merge does to the history: it appends the snapshots of
    [archivedBy], at most one, and touches nothing else. *)
Lemma updateResult_FailedTasks m operation :
  banzaiv1alpha1.FailedTasks
    (banzaiv1alpha1.Status
       (snd (updateResult time_Parse (now m) (res m) operation (isAfterExecution m))))
  = foldl pushFailedTask
      (banzaiv1alpha1.FailedTasks (banzaiv1alpha1.Status operation))
      (archivedBy m operation).
Proof.
  unfold updateResult, archivedBy.
  remember (resultOrMissing (res m) operation) as result eqn:Hres. clear Hres.
  rewrite markFinished_setStatusErrorPolicy.
  set (marked := markFinished (now m) result operation).
  unfold archiveFailedTask.
  replace (isArchived (isAfterExecution m)
             (banzaiv1alpha1.setStatusErrorPolicy
                (banzaiv1alpha1.ErrorPolicy (banzaiv1alpha1.Spec operation)) marked))
    with (isArchived (isAfterExecution m) marked) by reflexivity.
  assert (Hsame : banzaiv1alpha1.FailedTasks (banzaiv1alpha1.Status marked)
                  = banzaiv1alpha1.FailedTasks (banzaiv1alpha1.Status operation)).
  { unfold marked, markFinished. destruct (_ && _); reflexivity. }
  destruct (isArchived (isAfterExecution m) marked) eqn:Harch.
  - assert (Hafter : isAfterExecution m = true).
    { unfold isArchived in Harch. destruct (isAfterExecution m); [done|discriminate]. }
    rewrite Hafter. cbn [foldl].
    rewrite <- Hsame.
    unfold parseStarted. cbn.
    destruct (time_Parse RFC1123 (scale.StartedAt result)); cbn;
      try destruct (scale.Err result); cbn;
      unfold pushFailedTask; destruct (bool_decide _); reflexivity.
  - cbn [foldl]. rewrite <- Hsame.
    destruct (isAfterExecution m); [|reflexivity].
    unfold parseStarted. cbn.
    destruct (banzaiv1alpha1.Started _); cbn;
      try destruct (time_Parse RFC1123 (scale.StartedAt result)); cbn;
      try destruct (scale.Err result); reflexivity.
Qed.

Lemma archivedBy_length m operation : (length (archivedBy m operation) ≤ 1)%nat.
Proof. unfold archivedBy. destruct (isArchived _ _); cbn; lia. Qed.

Lemma tail_drop {A} (l : list A) k : tail (drop k l) = drop (S k) l.
Proof.
  revert k. induction l as [|x l IH]; intros [|k]; cbn; auto.
Qed.

(** Pushing onto the last 50 of a list gives the last 50 of the longer list. *)
Lemma pushFailedTask_last all task :
  pushFailedTask (drop (length all - 50) all) task
  = drop (length (all ++ [task]) - 50) (all ++ [task]).
Proof.
  unfold pushFailedTask, defaultFailedTasksHistoryMaxLength.
  rewrite length_drop, length_app. cbn [length].
  case_bool_decide as Hlen.
  - rewrite tail_drop.
    replace (length all + 1 - 50)%nat with (S (length all - 50)) by lia.
    rewrite drop_app_le by lia. reflexivity.
  - replace (length all - 50)%nat with 0%nat by lia.
    replace (length all + 1 - 50)%nat with 0%nat by lia.
    reflexivity.
Qed.

Lemma foldl_pushFailedTask_last all tasks :
  foldl pushFailedTask (drop (length all - 50) all) tasks
  = drop (length (all ++ tasks) - 50) (all ++ tasks).
Proof.
  revert all. induction tasks as [|t tasks IH]; intros all; cbn [foldl].
  - by rewrite app_nil_r.
  - rewrite pushFailedTask_last, IH, <- app_assoc. reflexivity.
Qed.

Lemma updateResults_last all ms operation :
  banzaiv1alpha1.FailedTasks (banzaiv1alpha1.Status operation)
  = drop (length all - 50) all →
  let '(final, archived) := updateResults time_Parse ms operation in
  banzaiv1alpha1.FailedTasks (banzaiv1alpha1.Status final)
  = drop (length (all ++ archived) - 50) (all ++ archived).
Proof.
  revert all operation. induction ms as [|m ms IH]; intros all operation Hall.
  - cbn. by rewrite app_nil_r.
  - cbn [updateResults].
    pose proof (updateResult_FailedTasks m operation) as Hstep.
    destruct (updateResult time_Parse (now m) (res m) operation (isAfterExecution m))
      as [[err|] operation'].
    + apply IH, Hall.
    + cbn [snd] in Hstep.
      rewrite Hall, foldl_pushFailedTask_last in Hstep.
      specialize (IH _ _ Hstep).
      destruct (updateResults time_Parse ms operation') as [final archived].
      rewrite IH, <- app_assoc. reflexivity.
Qed.

(** C4: a history of at most 50 entries stays at most 50 entries long through
    any run of merges: it is the last 50 of the old history followed by the
    snapshots archived since, the oldest ones dropped from the front; after
    more than 50 archived failures on an empty history it holds exactly the
    last 50 of them, in the order they were archived. *)
Theorem FailedTasks_bounded_history ms operation :
  let history := banzaiv1alpha1.FailedTasks (banzaiv1alpha1.Status operation) in
  (length history ≤ 50)%nat →
  let '(final, archived) := updateResults time_Parse ms operation in
  let kept := banzaiv1alpha1.FailedTasks (banzaiv1alpha1.Status final) in
  (length kept ≤ 50)%nat
  ∧ kept = drop (length (history ++ archived) - 50) (history ++ archived)
  ∧ (history = [] → (50 < length archived)%nat →
     length kept = 50%nat ∧ kept = drop (length archived - 50) archived).
Proof.
  intros history Hlen.
  pose proof (updateResults_last history ms operation) as Hlast.
  destruct (updateResults time_Parse ms operation) as [final archived].
  intros kept.
  assert (Hkept : kept = drop (length (history ++ archived) - 50) (history ++ archived)).
  { apply Hlast. subst history.
    replace (length _ - 50)%nat with 0%nat by lia. reflexivity. }
  split; [|split].
  - rewrite Hkept, length_drop. lia.
  - exact Hkept.
  - intros Hnil Hmany. rewrite Hnil in Hkept. cbn [app] in Hkept.
    rewrite Hkept, length_drop. split; [lia|reflexivity].
Qed.

(** *** The steps of a merge *)

Lemma setFinished_id task :
  banzaiv1alpha1.setFinished (banzaiv1alpha1.Finished task) task = task.
Proof. destruct task; reflexivity. Qed.

Lemma markFinished_CurrentTask now result operation :
  let task' := banzaiv1alpha1.CurrentTask (markFinished now result operation) in
  task' = banzaiv1alpha1.setFinished (banzaiv1alpha1.Finished task')
            (banzaiv1alpha1.CurrentTask operation).
Proof.
  unfold markFinished. destruct (_ && _); cbn; [reflexivity|].
  symmetry. apply setFinished_id.
Qed.

Lemma archiveFailedTask_CurrentTask isAfterExecution operation :
  banzaiv1alpha1.CurrentTask (archiveFailedTask isAfterExecution operation)
  = if isArchived isAfterExecution operation
    then banzaiv1alpha1.SetDefaults (banzaiv1alpha1.CurrentTask operation)
    else banzaiv1alpha1.CurrentTask operation.
Proof.
  unfold archiveFailedTask, appendFailedTask.
  destruct (isArchived _ _); [destruct (bool_decide _)|]; reflexivity.
Qed.

Lemma isArchived_markFinished now result operation isAfterExecution :
  isArchived isAfterExecution (markFinished now result operation)
  = archivesTask isAfterExecution result operation.
Proof.
  unfold isArchived, archivesTask, markFinished.
  destruct operation as [meta spec [task policy count failed]].
  destruct task as [id started finished kind params req code summary state msg].
  cbn. destruct isAfterExecution; cbn; [|reflexivity].
  destruct (isTerminal (scale.State result)); destruct finished; cbn;
    repeat (case_bool_decide; cbn); try reflexivity; congruence.
Qed.

(** The record after the steps of lines 388-404, which every merge runs. *)
Lemma updateResult_run now res operation isAfterExecution :
  let result := resultOrMissing res operation in
  let merged :=
    archiveFailedTask isAfterExecution
      (banzaiv1alpha1.setStatusErrorPolicy
         (banzaiv1alpha1.ErrorPolicy (banzaiv1alpha1.Spec operation))
         (markFinished now result operation)) in
  updateResult time_Parse now res operation isAfterExecution
  = if isAfterExecution then
      match parseStarted time_Parse result merged with
      | inl err => (Some err, merged)
      | inr started =>
          (None,
           banzaiv1alpha1.withTask (banzaiv1alpha1.setState (scale.State result))
             (recordExecution result started))
      end
    else
      (None,
       banzaiv1alpha1.withTask (banzaiv1alpha1.setState (scale.State result)) merged).
Proof.
  cbn zeta. unfold updateResult.
  rewrite markFinished_setStatusErrorPolicy. reflexivity.
Qed.

Lemma merged_CurrentTask now result operation isAfterExecution policy :
  banzaiv1alpha1.CurrentTask
    (archiveFailedTask isAfterExecution
       (banzaiv1alpha1.setStatusErrorPolicy policy
          (markFinished now result operation)))
  = if archivesTask isAfterExecution result operation
    then banzaiv1alpha1.SetDefaults (banzaiv1alpha1.CurrentTask operation)
    else banzaiv1alpha1.CurrentTask (markFinished now result operation).
Proof.
  rewrite archiveFailedTask_CurrentTask.
  change (isArchived isAfterExecution
            (banzaiv1alpha1.setStatusErrorPolicy policy
               (markFinished now result operation)))
    with (isArchived isAfterExecution (markFinished now result operation)).
  rewrite isArchived_markFinished.
  destruct (archivesTask _ _ _); [|reflexivity].
  change (banzaiv1alpha1.CurrentTask
            (banzaiv1alpha1.setStatusErrorPolicy policy
               (markFinished now result operation)))
    with (banzaiv1alpha1.CurrentTask (markFinished now result operation)).
  rewrite (markFinished_CurrentTask now result operation). reflexivity.
Qed.

Lemma markFinished_Started now result operation :
  banzaiv1alpha1.Started (banzaiv1alpha1.CurrentTask (markFinished now result operation))
  = banzaiv1alpha1.Started (banzaiv1alpha1.CurrentTask operation).
Proof. unfold markFinished. destruct (_ && _); reflexivity. Qed.

Lemma markFinished_State now result operation :
  banzaiv1alpha1.State (banzaiv1alpha1.CurrentTask (markFinished now result operation))
  = banzaiv1alpha1.State (banzaiv1alpha1.CurrentTask operation).
Proof. unfold markFinished. destruct (_ && _); reflexivity. Qed.


(** The error a merge returns, if any: the one of line 410. *)
Lemma updateResult_error now res operation isAfterExecution :
  let result := resultOrMissing res operation in
  fst (updateResult time_Parse now res operation isAfterExecution)
  = if isAfterExecution
       && (bool_decide (banzaiv1alpha1.Started (banzaiv1alpha1.CurrentTask operation)
                        = None)
           || archivesTask true result operation)
    then match time_Parse RFC1123 (scale.StartedAt result) with
         | Some _ => None
         | None =>
             Some (errors.WrapIff (ParseError RFC1123 (scale.StartedAt result))
                     "could not parse user task start time from Cruise Control API")
         end
    else None.
Proof.
  intros result. rewrite updateResult_run. fold result.
  destruct isAfterExecution; cbn zeta; [|reflexivity].
  unfold parseStarted. rewrite merged_CurrentTask.
  destruct (archivesTask true result operation).
  - rewrite orb_true_r. cbn.
    destruct (time_Parse RFC1123 (scale.StartedAt result)); reflexivity.
  - rewrite orb_false_r, markFinished_Started.
    destruct (banzaiv1alpha1.Started (banzaiv1alpha1.CurrentTask operation)); cbn;
      [reflexivity|].
    destruct (time_Parse RFC1123 (scale.StartedAt result)); reflexivity.
Qed.

(** The error of a merge as a condition on the record and the result. *)
Lemma updateResult_error_cases now res operation isAfterExecution :
  let result := resultOrMissing res operation in
  fst (updateResult time_Parse now res operation isAfterExecution) ≠ None
  ↔ isAfterExecution = true
    ∧ (banzaiv1alpha1.Started (banzaiv1alpha1.CurrentTask operation) = None
       ∨ archivesTask true result operation = true)
    ∧ time_Parse RFC1123 (scale.StartedAt result) = None.
Proof.
  intros result. rewrite updateResult_error. fold result.
  destruct isAfterExecution; cbn [andb].
  2:{ split; [done|]. intros (? & _). discriminate. }
  case_bool_decide as Hstarted; cbn [orb].
  - destruct (time_Parse RFC1123 (scale.StartedAt result)).
    + split; [done|]. intros (_ & _ & ?). discriminate.
    + split; [auto|discriminate].
  - destruct (archivesTask true result operation).
    + destruct (time_Parse RFC1123 (scale.StartedAt result)).
      * split; [done|]. intros (_ & _ & ?). discriminate.
      * split; [auto|discriminate].
    + split; [done|]. intros (_ & [?|?] & _); [done|discriminate].
Qed.

(** The task a merge leaves in memory when it returns an error. *)
Lemma updateResult_error_task now res operation isAfterExecution :
  let result := resultOrMissing res operation in
  fst (updateResult time_Parse now res operation isAfterExecution) ≠ None →
  banzaiv1alpha1.CurrentTask
    (snd (updateResult time_Parse now res operation isAfterExecution))
  = if archivesTask isAfterExecution result operation
    then banzaiv1alpha1.SetDefaults (banzaiv1alpha1.CurrentTask operation)
    else banzaiv1alpha1.CurrentTask (markFinished now result operation).
Proof.
  intros result. rewrite updateResult_run. fold result. cbn zeta.
  destruct isAfterExecution; [|cbn; congruence].
  destruct (parseStarted _ _ _); cbn [fst snd]; [|congruence].
  intros _. apply merged_CurrentTask.
Qed.


(** What the merge of a missing result archives: a task whose recorded
    state is [CompletedWithError], the result being terminal. *)
Lemma archivesTask_missing operation :
  archivesTask true (resultOrMissing None operation) operation
  = bool_decide (banzaiv1alpha1.State (banzaiv1alpha1.CurrentTask operation)
                 = banzaiv1beta1.CruiseControlTaskCompletedWithError).
Proof.
  unfold archivesTask. cbn.
  change (isTerminal banzaiv1beta1.CruiseControlTaskCompletedWithError) with true.
  rewrite orb_true_r, andb_true_r. reflexivity.
Qed.

(** *** A missing result *)

(** C5, as amended.  A nil result is replaced by one that bears the job ID
    of the current task, the state [CompletedWithError] and the sentinel
    error.  The merge of a poll then returns no error and leaves the task in
    state [CompletedWithError] with [Finished] set.  A merge after an
    execution returns the parse error of the empty start time of the
    synthesised result when a start time is still to be recorded, which is
    when [Started] is unset or the recorded state is [CompletedWithError],
    so that the task is archived and reset; the task ends the merge in
    state [CompletedWithError] exactly when no error is returned, and then
    carries the job ID and the text of the sentinel; when the error is
    returned the task keeps its old state or, after the reset, is unset. *)
Theorem updateResult_missing_result now operation :
  let synthesized := resultOrMissing None operation in
  let task := banzaiv1alpha1.CurrentTask operation in
  scale.TaskID synthesized = banzaiv1alpha1.CurrentTaskID operation
  ∧ scale.State synthesized = banzaiv1beta1.CruiseControlTaskCompletedWithError
  ∧ scale.Err synthesized = Some missingCCResErr
  ∧ (∀ isAfterExecution,
       updateResult time_Parse now None operation isAfterExecution
       = updateResult time_Parse now (Some synthesized) operation isAfterExecution)
  ∧ (let '(err, polled) := updateResult time_Parse now None operation false in
     err = None
     ∧ banzaiv1alpha1.State (banzaiv1alpha1.CurrentTask polled)
       = banzaiv1beta1.CruiseControlTaskCompletedWithError
     ∧ banzaiv1alpha1.Finished (banzaiv1alpha1.CurrentTask polled) ≠ None
     ∧ banzaiv1alpha1.ID (banzaiv1alpha1.CurrentTask polled)
       = banzaiv1alpha1.CurrentTaskID operation)
  ∧ (let '(err, merged) := updateResult time_Parse now None operation true in
     (err ≠ None
      ↔ (banzaiv1alpha1.Started task = None
         ∨ banzaiv1alpha1.State task = banzaiv1beta1.CruiseControlTaskCompletedWithError)
        ∧ time_Parse RFC1123 "" = None)
     ∧ (banzaiv1alpha1.State (banzaiv1alpha1.CurrentTask merged)
        = banzaiv1beta1.CruiseControlTaskCompletedWithError
        ↔ err = None)
     ∧ (err = None →
        banzaiv1alpha1.ID (banzaiv1alpha1.CurrentTask merged)
        = banzaiv1alpha1.CurrentTaskID operation
        ∧ banzaiv1alpha1.ErrorMessage (banzaiv1alpha1.CurrentTask merged)
          = Error missingCCResErr)
     ∧ (err ≠ None →
        banzaiv1alpha1.State (banzaiv1alpha1.CurrentTask merged)
        = if bool_decide (banzaiv1alpha1.State task
                          = banzaiv1beta1.CruiseControlTaskCompletedWithError)
          then banzaiv1beta1.CruiseControlTaskUnset
          else banzaiv1alpha1.State task)).
Proof.
  cbn zeta.
  split; [reflexivity|]. split; [reflexivity|]. split; [reflexivity|].
  split; [reflexivity|]. split.
  - unfold updateResult, markFinished. cbn.
    change (isTerminal banzaiv1beta1.CruiseControlTaskCompletedWithError) with true.
    case_bool_decide as Hfin; cbn; repeat split; congruence.
  - pose proof (updateResult_error_cases now None operation true) as Herr.
    pose proof (updateResult_error_task now None operation true) as Htask.
    cbn zeta in Herr, Htask. rewrite archivesTask_missing in Herr, Htask.
    change (scale.StartedAt (resultOrMissing None operation)) with "" in Herr.
    assert (Hdone : fst (updateResult time_Parse now None operation true) = None →
      let merged := snd (updateResult time_Parse now None operation true) in
      banzaiv1alpha1.State (banzaiv1alpha1.CurrentTask merged)
      = banzaiv1beta1.CruiseControlTaskCompletedWithError
      ∧ banzaiv1alpha1.ID (banzaiv1alpha1.CurrentTask merged)
        = banzaiv1alpha1.CurrentTaskID operation
      ∧ banzaiv1alpha1.ErrorMessage (banzaiv1alpha1.CurrentTask merged)
        = Error missingCCResErr).
    { unfold updateResult. destruct (parseStarted _ _ _); [discriminate|].
      intros _. repeat split. }
    destruct (updateResult time_Parse now None operation true) as [err merged].
    cbn [fst snd] in Herr, Htask, Hdone. split; [|split; [|split]].
    + rewrite Herr. rewrite bool_decide_eq_true. tauto.
    + split.
      * intros Hstate. destruct err as [err|]; [|reflexivity].
        specialize (Htask ltac:(discriminate)).
        rewrite Htask in Hstate. case_bool_decide as Hrecorded.
        -- discriminate.
        -- rewrite markFinished_State in Hstate. contradiction.
      * intros ->. apply Hdone. reflexivity.
    + intros ->. apply Hdone. reflexivity.
    + intros Hfailed. rewrite (Htask Hfailed).
      case_bool_decide; [reflexivity|apply markFinished_State].
Qed.

(** *** The [Finished] timestamp *)


(** One merge, in memory: a [Finished] that is set is kept as it is, unless
    the merge archives the task and resets it for the next attempt. *)
Lemma updateResult_keeps_Finished now res operation isAfterExecution t :
  banzaiv1alpha1.Finished (banzaiv1alpha1.CurrentTask operation) = Some t →
  let operation' := snd (updateResult time_Parse now res operation isAfterExecution) in
  banzaiv1alpha1.Finished (banzaiv1alpha1.CurrentTask operation') = Some t
  ∨ (isAfterExecution = true
     ∧ banzaiv1alpha1.State (banzaiv1alpha1.CurrentTask operation)
       = banzaiv1beta1.CruiseControlTaskCompletedWithError
     ∧ banzaiv1alpha1.Finished (banzaiv1alpha1.CurrentTask operation') = None).
Proof.
  intros Hfin. unfold updateResult.
  remember (resultOrMissing res operation) as result eqn:Hres. clear Hres.
  unfold archiveFailedTask, isArchived, markFinished, parseStarted.
  destruct operation as [meta spec [task policy count failed]].
  destruct task as [id started finished kind params req code summary state msg].
  cbn in Hfin. subst finished. cbn.
  rewrite andb_false_r. cbn.
  destruct isAfterExecution; cbn; [|by left].
  case_bool_decide as Hstate; cbn.
  - right. repeat split; [done|].
    destruct (time_Parse RFC1123 (scale.StartedAt result)); cbn;
      try destruct (scale.Err result); reflexivity.
  - left. destruct started; cbn;
      try destruct (time_Parse RFC1123 (scale.StartedAt result)); cbn;
      try destruct (scale.Err result); reflexivity.
Qed.



(** *** A start time that does not parse *)

(** The merge part of C10: with [Started] unset and a start time that does
    not parse, a post-execution merge returns the parse error, wrapped.  The
    task it leaves behind is the old one, at most stamped with [Finished],
    or the old one reset to its defaults: nothing of the result is in it. *)
Lemma updateResult_unparsable_start now res operation :
  let result := resultOrMissing res operation in
  let task := banzaiv1alpha1.CurrentTask operation in
  banzaiv1alpha1.Started task = None →
  time_Parse RFC1123 (scale.StartedAt result) = None →
  ∃ operation',
    updateResult time_Parse now res operation true
    = (Some (errors.WrapIff (ParseError RFC1123 (scale.StartedAt result))
               "could not parse user task start time from Cruise Control API"),
       operation')
    ∧ let task' := banzaiv1alpha1.CurrentTask operation' in
      task' = banzaiv1alpha1.setFinished (banzaiv1alpha1.Finished task') task
      ∨ task' = banzaiv1alpha1.SetDefaults task.
Proof.
  intros result task Hstarted Hparse.
  unfold updateResult. fold result. clearbody result.
  rewrite markFinished_setStatusErrorPolicy.
  set (marked := markFinished now result operation).
  set (merged := archiveFailedTask true _).
  assert (Htask :
    banzaiv1alpha1.CurrentTask merged
    = banzaiv1alpha1.setFinished
        (banzaiv1alpha1.Finished (banzaiv1alpha1.CurrentTask merged)) task
    ∨ banzaiv1alpha1.CurrentTask merged = banzaiv1alpha1.SetDefaults task).
  { unfold merged. rewrite archiveFailedTask_CurrentTask.
    change (banzaiv1alpha1.CurrentTask (banzaiv1alpha1.setStatusErrorPolicy _ marked))
      with (banzaiv1alpha1.CurrentTask marked).
    pose proof (markFinished_CurrentTask now result operation) as Hmark.
    cbn zeta in Hmark. fold marked task in Hmark.
    destruct (isArchived _ _).
    - right. rewrite Hmark. reflexivity.
    - left. exact Hmark. }
  assert (Hnone : banzaiv1alpha1.Started (banzaiv1alpha1.CurrentTask merged) = None).
  { destruct Htask as [-> | ->]; [exact Hstarted|reflexivity]. }
  unfold parseStarted. rewrite Hnone, Hparse.
  eexists. split; [reflexivity|exact Htask].
Qed.

End ResultReconcilerFacts.

(** ** The Classifier and the Selector *)

Section StableSort.

Context {A : Type} (less : A → A → bool) (R : A → A → Prop).

Hypothesis R_not_less : ∀ x y, less y x = false → R x y.
Hypothesis less_R : ∀ x y, less x y = true → R x y.
Hypothesis R_trans : ∀ x y z, R x y → R y z → R x z.

Lemma insertStable_Permutation x l : insertStable less x l ≡ₚ x :: l.
Proof.
  induction l as [|y l IH]; cbn; [reflexivity|].
  destruct (less y x); [|reflexivity].
  rewrite IH. apply Permutation_swap.
Qed.

Lemma SliceStable_Permutation l : SliceStable less l ≡ₚ l.
Proof.
  induction l as [|x l IH]; cbn; [reflexivity|].
  rewrite insertStable_Permutation. by rewrite IH.
Qed.

Lemma insertStable_StronglySorted x l :
  StronglySorted R l → StronglySorted R (insertStable less x l).
Proof.
  induction 1 as [|y l Hsorted IH Hall]; cbn.
  - repeat constructor.
  - destruct (less y x) eqn:Hless.
    + constructor; [exact IH|].
      rewrite insertStable_Permutation. constructor; [by apply less_R|exact Hall].
    + constructor; [by constructor|].
      constructor; [by apply R_not_less|].
      eapply Forall_impl; [exact Hall|].
      intros z Hz. eapply R_trans; [|exact Hz]. by apply R_not_less.
Qed.

Lemma SliceStable_StronglySorted l : StronglySorted R (SliceStable less l).
Proof.
  induction l as [|x l IH]; cbn; [constructor|].
  by apply insertStable_StronglySorted.
Qed.

End StableSort.

Section ClassifierFacts.

Context {api : OperationAPI}.

Lemma lessOperation_false a b : lessOperation b a = false → precedes a b.
Proof.
  unfold lessOperation, precedes. intros Hless.
  apply orb_false_iff in Hless as [Hgt Heq].
  apply bool_decide_eq_false in Hgt.
  apply andb_false_iff in Heq as [Heq|Hlt]; apply bool_decide_eq_false in Heq || apply bool_decide_eq_false in Hlt; lia.
Qed.

Lemma lessOperation_true a b : lessOperation a b = true → precedes a b.
Proof.
  unfold lessOperation, precedes. intros Hless.
  apply orb_true_iff in Hless as [Hgt|Heq].
  - apply bool_decide_eq_true in Hgt. lia.
  - apply andb_true_iff in Heq as [Heq Hlt].
    apply bool_decide_eq_true in Heq, Hlt. lia.
Qed.

Lemma precedes_trans a b c : precedes a b → precedes b c → precedes a c.
Proof. unfold precedes. lia. Qed.

(** The first loop of [sortOperations] leaves in each bucket the records that
    belong to it, in the order of the input. *)
Lemma classify_queue items ccOperations key :
  queue (classify items ccOperations) key
  = filter (λ p, bucketOf (items !!! p) = Some key) ccOperations.
Proof.
  unfold classify.
  enough (Hgen : ∀ m,
    queue (foldl (λ ccOperationQueueMap ccOperation,
                    match bucketOf (items !!! ccOperation) with
                    | Some key =>
                        <[key := queue ccOperationQueueMap key ++ [ccOperation]]>
                          ccOperationQueueMap
                    | None => ccOperationQueueMap
                    end) m ccOperations) key
    = queue m key ++ filter (λ p, bucketOf (items !!! p) = Some key) ccOperations).
  { rewrite Hgen. unfold queue. rewrite lookup_empty. reflexivity. }
  induction ccOperations as [|p ps IH]; intros m; cbn [foldl].
  - by rewrite app_nil_r.
  - rewrite IH. rewrite filter_cons.
    destruct (bucketOf (items !!! p)) as [k|] eqn:Hbucket.
    + unfold queue at 1. destruct (decide (k = key)) as [->|Hne].
      * rewrite lookup_insert_eq. cbn. rewrite decide_True by done.
        by rewrite <- app_assoc.
      * rewrite lookup_insert_ne by done.
        rewrite decide_False by congruence. reflexivity.
    + rewrite decide_False by congruence. reflexivity.
Qed.

Lemma sortOperations_queue items ccOperations key :
  queue (sortOperations items ccOperations) key
  = SliceStable (λ i j, lessOperation (items !!! i) (items !!! j))
      (filter (λ p, bucketOf (items !!! p) = Some key) ccOperations).
Proof.
  rewrite <- classify_queue. unfold sortOperations, queue.
  rewrite lookup_fmap. destruct (classify items ccOperations !! key); reflexivity.
Qed.

(** C3: every bucket that [sortOperations] produces, so the one of first
    executions and the one of retries, holds the records classified into it,
    ordered by priority, highest first, where add-broker (2) is above
    remove-broker (1) and remove-broker above rebalance (0), and by creation
    time, oldest first, among records of the same priority.  The head of a
    bucket therefore has the highest priority in it and, among the records
    of that priority, the earliest creation time. *)
Theorem sortOperations_priority_order items ccOperations key :
  let bucket := queue (sortOperations items ccOperations) key in
  executionPriorityMap banzaiv1alpha1.OperationAddBroker
  > executionPriorityMap banzaiv1alpha1.OperationRemoveBroker
  ∧ executionPriorityMap banzaiv1alpha1.OperationRemoveBroker
    > executionPriorityMap banzaiv1alpha1.OperationRebalance
  ∧ bucket ≡ₚ filter (λ p, bucketOf (items !!! p) = Some key) ccOperations
  ∧ StronglySorted (λ i j, precedes (items !!! i) (items !!! j)) bucket
  ∧ ∀ first rest, bucket = first :: rest →
      ∀ other, other ∈ rest →
        let a := items !!! first in
        let b := items !!! other in
        executionPriorityMap (banzaiv1alpha1.CurrentTaskOperation b)
        ≤ executionPriorityMap (banzaiv1alpha1.CurrentTaskOperation a)
        ∧ (executionPriorityMap (banzaiv1alpha1.CurrentTaskOperation a)
           = executionPriorityMap (banzaiv1alpha1.CurrentTaskOperation b) →
           banzaiv1alpha1.CreationTimestamp (banzaiv1alpha1.Meta a)
           ≤ banzaiv1alpha1.CreationTimestamp (banzaiv1alpha1.Meta b)).
Proof.
  intros bucket.
  assert (Hsorted : StronglySorted (λ i j, precedes (items !!! i) (items !!! j)) bucket).
  { unfold bucket. rewrite sortOperations_queue.
    apply SliceStable_StronglySorted.
    - intros x y. apply lessOperation_false.
    - intros x y. apply lessOperation_true.
    - intros x y z. apply precedes_trans. }
  split; [cbn; lia|]. split; [cbn; lia|]. split; [|split].
  - unfold bucket. rewrite sortOperations_queue. apply SliceStable_Permutation.
  - exact Hsorted.
  - intros first rest Hbucket other Hother. rewrite Hbucket in Hsorted.
    apply StronglySorted_inv in Hsorted as [_ Hall].
    rewrite Forall_forall in Hall. specialize (Hall other Hother).
    unfold precedes in Hall. cbn zeta. lia.
Qed.

(** C2: when the stop bucket is not empty the selector returns its head,
    whatever the other buckets hold, and the record the head points to has
    its kind overwritten with stop-execution; nothing else in the store
    changes. *)
Theorem selectOperationForExecution_stop_precedence now items ccOperationQueueMap
  ccOperationExecution rest :
  queue ccOperationQueueMap ccOperationForStopExecution = ccOperationExecution :: rest →
  (ccOperationExecution < length items)%nat →
  let '(selected, items') :=
    selectOperationForExecution now items ccOperationQueueMap in
  selected = Some ccOperationExecution
  ∧ banzaiv1alpha1.CurrentTaskOperation (items' !!! ccOperationExecution)
    = banzaiv1alpha1.OperationStopExecution
  ∧ items' !!! ccOperationExecution
    = banzaiv1alpha1.withTask
        (banzaiv1alpha1.setOperation banzaiv1alpha1.OperationStopExecution)
        (items !!! ccOperationExecution)
  ∧ length items' = length items
  ∧ ∀ other, other ≠ ccOperationExecution → items' !!! other = items !!! other.
Proof.
  intros Hstop Hvalid. unfold selectOperationForExecution. rewrite Hstop.
  split; [reflexivity|].
  rewrite list_lookup_total_alter_eq by exact Hvalid.
  split; [reflexivity|]. split; [reflexivity|]. split.
  - apply length_alter.
  - intros other Hne. by apply list_lookup_total_alter_ne.
Qed.

End ClassifierFacts.

(** ** The reconciliation loop *)

Section PassFacts.

Context {api : OperationAPI} (env : Collaborators).

Lemma bind_run {A B} (m : Pass A) (f : A → Pass B) w :
  (m ≫= f) w = match m w with
               | (inl result, w') => (inl result, w')
               | (inr a, w') => f a w'
               end.
Proof. reflexivity. Qed.

Lemma extends_refl P w : extends P w w.
Proof. exists []. by rewrite app_nil_r. Qed.

Lemma extends_trans P w1 w2 w3 : extends P w1 w2 → extends P w2 w3 → extends P w1 w3.
Proof.
  intros (n1 & H1 & F1) (n2 & H2 & F2). exists (n1 ++ n2).
  rewrite H2, H1, app_assoc. split; [reflexivity|]. by apply Forall_app.
Qed.

Lemma extends_same_calls P w w' : calls w' = calls w → extends P w w'.
Proof. intros Hcalls. exists []. by rewrite app_nil_r. Qed.

Lemma emits_ret {A} P (a : A) : emits P (mret a).
Proof. intros w. apply extends_refl. Qed.

Lemma emits_exit {A} P result : emits P (@exit A result).
Proof. intros w. apply extends_refl. Qed.

Lemma emits_bind {A B} P (m : Pass A) (f : A → Pass B) :
  emits P m → (∀ a, emits P (f a)) → emits P (m ≫= f).
Proof.
  intros Hm Hf w. rewrite bind_run. specialize (Hm w).
  destruct (m w) as [[result|a] w']; [exact Hm|].
  eapply extends_trans; [exact Hm|apply Hf].
Qed.

Lemma emits_call {A} (P : Call → Prop) (answer : list Call → A) c :
  P c → emits P (call answer c).
Proof. intros Hc w. exists [c]. split; [reflexivity|]. by constructor. Qed.

Lemma emits_getItems P : emits P getItems.
Proof. intros w. apply extends_refl. Qed.

Lemma emits_setItems P items : emits P (setItems items).
Proof. intros w. by apply extends_same_calls. Qed.

Lemma emits_load P p : emits P (load p).
Proof. intros w. apply extends_refl. Qed.

Lemma emits_store P p o : emits P (store p o).
Proof. intros w. by apply extends_same_calls. Qed.

Lemma emits_time_Now P : emits P (time_Now env).
Proof. intros w. by apply extends_same_calls. Qed.

End PassFacts.

(** Decompose a step into its parts; what is left are the side conditions
    of the calls it makes. *)
Ltac emits_step :=
  first
    [ apply emits_ret | apply emits_exit | apply emits_getItems
    | apply emits_setItems | apply emits_load | apply emits_store
    | apply emits_time_Now
    | apply emits_call; cbn; tauto
    | apply emits_bind; [|intros ?]
    | match goal with
      | |- emits _ (match ?x with _ => _ end) => destruct x
      end ].

Ltac emits_auto := repeat emits_step.

(** Run the steps at the head of a pass that is applied to a world. *)
Ltac pass_run :=
  repeat first
    [ rewrite bind_run
    | progress cbn [call load store getItems setItems time_Now exit
                    mret Pass_ret fst snd Items calls ticks] ].

Section ReconcilerFacts.

Context {api : OperationAPI} (env : Collaborators).

(** The only error [updateResult] returns is the wrapped parse error, which
    is not a conflict. *)
Lemma updateResult_error_not_conflict now res operation isAfterExecution err operation' :
  updateResult (Parse env) now res operation isAfterExecution = (Some err, operation') →
  apiErrors.IsConflict err = false.
Proof.
  unfold updateResult. destruct isAfterExecution; [|discriminate].
  unfold parseStarted.
  destruct (banzaiv1alpha1.Started _); [discriminate|].
  destruct (Parse env RFC1123 _); [discriminate|].
  intros [= <- _]. reflexivity.
Qed.

Lemma emits_r_Status_Update (P : Call → Prop) p :
  (∀ o, P (CallStatusUpdate o)) → emits P (r_Status_Update env p).
Proof. intros HP. unfold r_Status_Update. emits_auto. apply emits_call, HP. Qed.

Lemma emits_executeOperation (P : Call → Prop) p :
  (∀ c, isDispatch c → P c) → emits P (executeOperation env p).
Proof.
  intros HP. unfold executeOperation. emits_auto; apply emits_call, HP; exact I.
Qed.

Lemma emits_conflictRetryFunction (P : Call → Prop) res p :
  (∀ o, P (CallStatusUpdate o)) → (∀ key, P (CallGet key)) →
  emits P (conflictRetryFunction env res p).
Proof.
  intros HP HG. unfold conflictRetryFunction.
  apply emits_bind; [emits_auto|intros o].
  apply emits_bind; [emits_auto|intros now].
  destruct (updateResult _ _ _ _ _) as [err o'].
  apply emits_bind; [emits_auto|intros _].
  destruct err; [emits_auto|].
  apply emits_bind; [by apply emits_r_Status_Update|intros err].
  destruct err as [err|]; [|emits_auto].
  destruct (apiErrors.IsConflict err); [|emits_auto].
  apply emits_bind; [apply emits_call, HG|intros fetched].
  emits_auto.
Qed.

Lemma RetryOnConflict_run retries (fn : Pass (option error)) w :
  RetryOnConflict retries fn w
  = match fn w with
    | (inl result, w') => (inl result, w')
    | (inr None, w') => (inr None, w')
    | (inr (Some err), w') =>
        if apiErrors.IsConflict err then
          match retries with
          | O => (inr (Some err), w')
          | S retries => RetryOnConflict retries fn w'
          end
        else (inr (Some err), w')
    end.
Proof.
  destruct retries; cbn; rewrite bind_run;
    destruct (fn w) as [[result|[err|]] w']; try reflexivity;
    destruct (apiErrors.IsConflict err); reflexivity.
Qed.

Lemma emits_RetryOnConflict (P : Call → Prop) retries fn :
  emits P fn → emits P (RetryOnConflict retries fn).
Proof.
  intros Hfn. induction retries as [|retries IH]; intros w;
    rewrite RetryOnConflict_run; specialize (Hfn w);
    destruct (fn w) as [[result|[err|]] w']; try exact Hfn;
    destruct (apiErrors.IsConflict err); try exact Hfn.
  eapply extends_trans; [exact Hfn|apply IH].
Qed.

(** From the selection on, a pass calls the engine, writes statuses and
    reads a record again; it never writes a record as a whole. *)
Lemma emits_dispatchSelected (P : Call → Prop) status ccOperationQueueMap :
  (∀ c, isDispatch c → P c) → (∀ o, P (CallStatusUpdate o)) →
  (∀ key, P (CallGet key)) →
  emits P (dispatchSelected env status ccOperationQueueMap).
Proof.
  intros HD HS HG. unfold dispatchSelected.
  apply emits_bind; [emits_auto|intros now].
  apply emits_bind; [emits_auto|intros items].
  destruct (selectOperationForExecution _ _ _) as [selected items'].
  apply emits_bind; [emits_auto|intros _].
  destruct selected as [p|]; [|emits_auto].
  apply emits_bind; [emits_auto|intros o].
  destruct (_ && _); [emits_auto|].
  apply emits_bind; [by apply emits_executeOperation|intros [res err]].
  assert (Hmerge : emits P (mergeExecutionResult env res p)).
  { unfold mergeExecutionResult. apply emits_bind; [|intros ?; emits_auto].
    by apply emits_RetryOnConflict, emits_conflictRetryFunction. }
  destruct err as [err|], res as [res|]; try exact Hmerge. emits_auto.
Qed.

(** C7: single flight.  When the selected record is not a stop command and
    the engine is in execution or the in-progress bucket is not empty, the
    pass leaves with a requeue after the fixed interval and has called
    neither the Task Executor nor the Operation Store. *)
Theorem dispatchSelected_single_flight status ccOperationQueueMap w selected items' :
  selectOperationForExecution (Now env (ticks w)) (Items w) ccOperationQueueMap
  = (Some selected, items') →
  banzaiv1alpha1.CurrentTaskOperation (items' !!! selected)
  ≠ banzaiv1alpha1.OperationStopExecution →
  scale.InExecution status = true
  ∨ queue ccOperationQueueMap ccOperationInProgress ≠ [] →
  dispatchSelected env status ccOperationQueueMap w
  = (inl (requeueAfter defaultRequeueIntervalInSeconds),
     {| Items := items'; calls := calls w; ticks := S (ticks w) |}).
Proof.
  intros Hselect Hkind Hbusy.
  unfold dispatchSelected, mbind, Pass_bind, time_Now, getItems, setItems, load.
  cbn. rewrite Hselect. cbn.
  rewrite (bool_decide_eq_true_2 _ Hkind), andb_true_r.
  destruct Hbusy as [-> | Hbusy]; [reflexivity|].
  rewrite (bool_decide_eq_true_2 _ Hbusy), orb_true_r. reflexivity.
Qed.

(** A dispatch calls the engine at most once and touches nothing in memory. *)
Lemma executeOperation_world p w r w2 :
  executeOperation env p w = (r, w2) →
  Items w2 = Items w ∧ ticks w2 = ticks w ∧ extends isDispatch w w2
  ∧ ∃ answer, r = inr answer.
Proof.
  unfold executeOperation. rewrite bind_run. cbn.
  destruct (banzaiv1alpha1.CurrentTaskOperation _); intros [= <- <-]; cbn;
    (split; [reflexivity|]); (split; [reflexivity|]);
    (split; [|eexists; reflexivity]);
    try (eexists [_]; split; [reflexivity|]; repeat constructor);
    apply extends_refl.
Qed.

(** A merge that goes through is followed by the write of the merged status. *)
Lemma mergeExecutionResult_writes res p w merged :
  (p < length (Items w))%nat →
  updateResult (Parse env) (Now env (ticks w)) res (Items w !!! p) true
  = (None, merged) →
  ∃ later,
    calls (snd (mergeExecutionResult env res p w))
    = calls w ++ CallStatusUpdate merged :: later.
Proof.
  intros Hvalid Hmerge.
  unfold mergeExecutionResult. rewrite bind_run, RetryOnConflict_run.
  unfold conflictRetryFunction at 1.
  unfold r_Status_Update, load, store, time_Now, call.
  rewrite !bind_run. cbn -[updateResult]. rewrite Hmerge.
  rewrite !bind_run. cbn.
  rewrite list_lookup_total_insert_eq by exact Hvalid.
  destruct (StatusUpdate env (calls w) merged) as [err|]; cbn.
  2:{ exists []. reflexivity. }
  destruct (apiErrors.IsConflict err) eqn:Hconflict; rewrite ?bind_run; cbn.
  2:{ rewrite Hconflict. cbn. exists []. reflexivity. }
  destruct (Get env _ _) as [err'|fresh]; rewrite ?bind_run; cbn.
  2:{ eexists [_]. rewrite <- app_assoc. reflexivity. }
  destruct (apiErrors.IsConflict err'); cbn.
  2:{ eexists [_]. rewrite <- app_assoc. reflexivity. }
  destruct (DefaultBackOffForConflict env) as [|retries]; cbn.
  { eexists [_]. rewrite <- app_assoc. reflexivity. }
  match goal with
  | |- context [RetryOnConflict retries ?fn ?w'] =>
      destruct (emits_RetryOnConflict (λ _, True) retries fn
                  (emits_conflictRetryFunction (λ _, True) res p
                     (λ _, I) (λ _, I)) w') as (new & Hnew & _);
      destruct (RetryOnConflict retries fn w') as [[result|[err''|]] w'']
  end; cbn in Hnew |- *; rewrite Hnew; eexists (_ :: new);
    rewrite <- !app_assoc; reflexivity.
Qed.

(** C8, as amended.  A dispatch error with a nil result ends the pass as a
    requeue with that error: the records are as they were once the selector
    had run and, but for the dispatch itself, no call is made, so nothing is
    merged and no status is written.  A dispatch error with a result hands
    the result to the post-execution merge.  The merge fails exactly when a
    start time is still to be recorded, [Started] being unset or the task
    being archived and reset by this merge, and the start time of the result
    does not parse; the pass then ends as a requeue with the parse error and
    no status is written.  Otherwise the record carries the state, the job
    ID and the error message of the result and the write of its status is
    the next call; when the store takes the write, the pass is reconciled
    with the merged record in memory and that one write. *)
Theorem dispatch_error_handling status ccOperationQueueMap w selected items'
  cruseControlTaskResult err w2 :
  selectOperationForExecution (Now env (ticks w)) (Items w) ccOperationQueueMap
  = (Some selected, items') →
  (selected < length items')%nat →
  (scale.InExecution status
   || bool_decide (queue ccOperationQueueMap ccOperationInProgress ≠ []))
  && bool_decide (banzaiv1alpha1.CurrentTaskOperation (items' !!! selected)
                  ≠ banzaiv1alpha1.OperationStopExecution) = false →
  executeOperation env selected
    {| Items := items'; calls := calls w; ticks := S (ticks w) |}
  = (inr (cruseControlTaskResult, Some err), w2) →
  match cruseControlTaskResult with
  | None =>
      dispatchSelected env status ccOperationQueueMap w
      = (inl (requeueWithError "CruiseControlOperation custom resource is invalid" err),
         w2)
      ∧ Items w2 = items'
      ∧ extends isDispatch w w2
  | Some result =>
      let operation := items' !!! selected in
      let '(failure, merged) :=
        updateResult (Parse env) (Now env (ticks w2)) (Some result) operation true in
      (failure ≠ None
       ↔ (banzaiv1alpha1.Started (banzaiv1alpha1.CurrentTask operation) = None
          ∨ archivesTask true result operation = true)
         ∧ Parse env RFC1123 (scale.StartedAt result) = None)
      ∧ match failure with
        | Some failure =>
            dispatchSelected env status ccOperationQueueMap w
            = (inl (requeueWithError
                      "could not update the result of the Cruise Control user task execution to the CruiseControlOperation status"
                      failure),
               {| Items := <[selected := merged]> items'; calls := calls w2;
                  ticks := S (ticks w2) |})
        | None =>
            (∃ later,
               calls (snd (dispatchSelected env status ccOperationQueueMap w))
               = calls w2 ++ CallStatusUpdate merged :: later)
            ∧ (StatusUpdate env (calls w2) merged = None →
               dispatchSelected env status ccOperationQueueMap w
               = (inr reconciled,
                  {| Items := <[selected := merged]> items';
                     calls := calls w2 ++ [CallStatusUpdate merged];
                     ticks := S (ticks w2) |}))
            ∧ banzaiv1alpha1.State (banzaiv1alpha1.CurrentTask merged)
              = scale.State result
            ∧ banzaiv1alpha1.ID (banzaiv1alpha1.CurrentTask merged)
              = scale.TaskID result
            ∧ ∀ e, scale.Err result = Some e →
                   banzaiv1alpha1.ErrorMessage (banzaiv1alpha1.CurrentTask merged)
                   = Error e
        end
  end.
Proof.
  intros Hselect Hvalid Hfree Hexec.
  pose proof (executeOperation_world _ _ _ _ Hexec) as (Hitems & Hticks & Hcalls & _).
  cbn in Hitems, Hticks.
  assert (Hrun : dispatchSelected env status ccOperationQueueMap w
    = match cruseControlTaskResult with
      | None =>
          (inl (requeueWithError "CruiseControlOperation custom resource is invalid" err),
           w2)
      | Some _ => mergeExecutionResult env cruseControlTaskResult selected w2
      end).
  { unfold dispatchSelected, mbind, Pass_bind, time_Now, getItems, setItems, load.
    cbn -[executeOperation mergeExecutionResult]. rewrite Hselect.
    cbn -[executeOperation mergeExecutionResult]. rewrite Hfree, Hexec.
    destruct cruseControlTaskResult; reflexivity. }
  destruct cruseControlTaskResult as [result|].
  - cbn zeta.
    pose proof (updateResult_error_cases (Parse env) (Now env (ticks w2)) (Some result)
                  (items' !!! selected) true) as Hcases.
    cbn zeta in Hcases.
    change (resultOrMissing (Some result) (items' !!! selected)) with result in Hcases.
    destruct (updateResult _ _ _ _ _) as [[failure|] merged] eqn:Hmerge;
      cbn [fst] in Hcases.
    + split; [rewrite Hcases; tauto|].
      rewrite Hrun. unfold mergeExecutionResult.
      rewrite bind_run, RetryOnConflict_run.
      unfold conflictRetryFunction at 1. unfold load, store, time_Now.
      rewrite !bind_run. cbn -[updateResult]. rewrite Hitems, Hmerge.
      rewrite !bind_run. cbn.
      rewrite (updateResult_error_not_conflict _ _ _ _ _ _ Hmerge).
      reflexivity.
    + split; [rewrite Hcases; tauto|]. split; [|split].
      * rewrite Hrun. apply mergeExecutionResult_writes.
        -- by rewrite Hitems.
        -- by rewrite Hitems.
      * intros Hwrite. rewrite Hrun. unfold mergeExecutionResult.
        rewrite bind_run, RetryOnConflict_run.
        unfold conflictRetryFunction at 1.
        unfold r_Status_Update, load, store, time_Now, call.
        rewrite !bind_run. cbn -[updateResult]. rewrite Hitems, Hmerge.
        rewrite !bind_run. cbn.
        rewrite list_lookup_total_insert_eq by exact Hvalid.
        rewrite Hwrite. reflexivity.
      * unfold updateResult in Hmerge. cbn in Hmerge.
        destruct (parseStarted _ _ _) as [?|recorded]; [discriminate|].
        injection Hmerge as <-. unfold recordExecution.
        split; [reflexivity|]. split.
        -- destruct (scale.Err result); reflexivity.
        -- intros e ->. reflexivity.
  - rewrite Hrun. split; [reflexivity|]. split; [exact Hitems|].
    destruct Hcalls as (new & Hnew & Hall). exists new. split; [exact Hnew|exact Hall].
Qed.

(** C10: with [Started] unset and a start time that does not parse, the
    empty text being the case of a result that carries none, a post-execution
    merge returns the wrapped parse error: the task it leaves in memory is
    the old one, stamped with [Finished] or reset to its defaults, with
    nothing of the result in it.  A pass that comes to this merge ends as a
    requeue with that error, without having written the status. *)
Theorem unparsable_start_time_requeues now res operation :
  let result := resultOrMissing res operation in
  let task := banzaiv1alpha1.CurrentTask operation in
  let failure :=
    errors.WrapIff (ParseError RFC1123 (scale.StartedAt result))
      "could not parse user task start time from Cruise Control API" in
  banzaiv1alpha1.Started task = None →
  Parse env RFC1123 (scale.StartedAt result) = None →
  ∃ operation',
    updateResult (Parse env) now res operation true = (Some failure, operation')
    ∧ (let task' := banzaiv1alpha1.CurrentTask operation' in
       task' = banzaiv1alpha1.setFinished (banzaiv1alpha1.Finished task') task
       ∨ task' = banzaiv1alpha1.SetDefaults task)
    ∧ ∀ status ccOperationQueueMap w selected items' err w2,
        selectOperationForExecution (Now env (ticks w)) (Items w) ccOperationQueueMap
        = (Some selected, items') →
        (scale.InExecution status
         || bool_decide (queue ccOperationQueueMap ccOperationInProgress ≠ []))
        && bool_decide (banzaiv1alpha1.CurrentTaskOperation (items' !!! selected)
                        ≠ banzaiv1alpha1.OperationStopExecution) = false →
        executeOperation env selected
          {| Items := items'; calls := calls w; ticks := S (ticks w) |}
        = (inr (res, err), w2) →
        (res = None → err = None) →
        items' !!! selected = operation →
        Now env (ticks w2) = now →
        dispatchSelected env status ccOperationQueueMap w
        = (inl (requeueWithError
                  "could not update the result of the Cruise Control user task execution to the CruiseControlOperation status"
                  failure),
           {| Items := <[selected := operation']> items'; calls := calls w2;
              ticks := S (ticks w2) |}).
Proof.
  intros result task failure Hstarted Hparse.
  destruct (updateResult_unparsable_start (Parse env) now res operation
              Hstarted Hparse) as (operation' & Hmerge & Htask).
  exists operation'. split; [exact Hmerge|]. split; [exact Htask|].
  intros status ccOperationQueueMap w selected items' err w2
    Hselect Hfree Hexec Hguard Hrecord Hnow.
  pose proof (executeOperation_world _ _ _ _ Hexec) as (Hitems & Hticks & Hcalls & _).
  cbn in Hitems, Hticks.
  unfold dispatchSelected, mbind, Pass_bind, time_Now, getItems, setItems, load.
  cbn -[executeOperation mergeExecutionResult]. rewrite Hselect.
  cbn -[executeOperation mergeExecutionResult]. rewrite Hfree, Hexec.
  assert (Hrun : mergeExecutionResult env res selected w2
    = (inl (requeueWithError
              "could not update the result of the Cruise Control user task execution to the CruiseControlOperation status"
              failure),
       {| Items := <[selected := operation']> items'; calls := calls w2;
          ticks := S (ticks w2) |})).
  { unfold mergeExecutionResult. rewrite bind_run, RetryOnConflict_run.
    unfold conflictRetryFunction at 1. unfold load, store, time_Now.
    rewrite !bind_run. cbn -[updateResult].
    rewrite Hitems, Hrecord, Hnow, Hmerge. rewrite !bind_run. cbn.
    reflexivity. }
  destruct err as [err|], res as [r|]; try exact Hrun.
  specialize (Hguard eq_refl). discriminate.
Qed.

End ReconcilerFacts.

(** ** The deletion guard *)

Section GuardFacts.

Context {api : OperationAPI} (env : Collaborators).

Lemma updateResult_Meta now res operation isAfterExecution :
  banzaiv1alpha1.Meta
    (snd (updateResult (Parse env) now res operation isAfterExecution))
  = banzaiv1alpha1.Meta operation.
Proof.
  unfold updateResult.
  set (result := resultOrMissing res operation). clearbody result.
  assert (Hmark : ∀ o, banzaiv1alpha1.Meta (markFinished now result o)
                       = banzaiv1alpha1.Meta o).
  { intros o. unfold markFinished. destruct (_ && _); reflexivity. }
  assert (Harchive : ∀ b o, banzaiv1alpha1.Meta (archiveFailedTask b o)
                            = banzaiv1alpha1.Meta o).
  { intros b o. unfold archiveFailedTask, appendFailedTask.
    destruct (isArchived b o); [destruct (bool_decide _)|]; reflexivity. }
  assert (Hrecord : ∀ o, banzaiv1alpha1.Meta (recordExecution result o)
                         = banzaiv1alpha1.Meta o).
  { intros o. unfold recordExecution. destruct (scale.Err result); reflexivity. }
  assert (Hwith : ∀ f o, banzaiv1alpha1.Meta (banzaiv1alpha1.withTask f o)
                         = banzaiv1alpha1.Meta o) by reflexivity.
  destruct isAfterExecution.
  - unfold parseStarted.
    destruct (banzaiv1alpha1.Started _);
      [|destruct (Parse env RFC1123 (scale.StartedAt result))];
      cbn [snd];
      repeat (rewrite Hwith || rewrite Hrecord || rewrite Harchive || rewrite Hmark);
      reflexivity.
  - cbn [snd]. rewrite Hwith, Harchive, Hmark. reflexivity.
Qed.

(** Polling changes statuses only: it makes no call but to the engine and
    for the statuses, and leaves the metadata of every record as it is. *)
Lemma mergeUserTasks_world taskResultsByID ccOperations w :
  let w' := snd (mergeUserTasks env taskResultsByID ccOperations w) in
  calls w' = calls w
  ∧ length (Items w') = length (Items w)
  ∧ ∀ p, banzaiv1alpha1.Meta (Items w' !!! p) = banzaiv1alpha1.Meta (Items w !!! p).
Proof.
  revert w. induction ccOperations as [|p ps IH]; intros w; cbn zeta.
  - cbn. auto.
  - cbn [mergeUserTasks]. rewrite bind_run. cbn [load].
    destruct (_ && _); [|apply IH].
    rewrite bind_run. cbn [time_Now].
    pose proof (updateResult_Meta (Now env (ticks w))
                  (taskResultsByID !! banzaiv1alpha1.CurrentTaskID (Items w !!! p))
                  (Items w !!! p) false) as Hmeta.
    destruct (updateResult _ _ _ _ _) as [err o']. cbn [snd] in Hmeta.
    rewrite bind_run. cbn [store].
    assert (Hstored : ∀ q,
      banzaiv1alpha1.Meta (<[p:=o']> (Items w) !!! q)
      = banzaiv1alpha1.Meta (Items w !!! q)).
    { intros q. rewrite list_lookup_total_insert.
      case_decide as Hq; [|reflexivity]. destruct Hq as [-> _]. exact Hmeta. }
    destruct err as [err|].
    + cbn. rewrite length_insert. auto.
    + match goal with
      | |- context [mergeUserTasks env _ ps ?w1] =>
          destruct (IH w1) as (Hcalls & Hlen & Hmetas)
      end.
      cbn in Hcalls, Hlen, Hmetas. rewrite length_insert in Hlen.
      split; [exact Hcalls|]. split; [exact Hlen|].
      intros q. rewrite Hmetas. apply Hstored.
Qed.

Lemma writeChangedStatuses_world ccOperations ccOperationsCopy w :
  let w' := snd (writeChangedStatuses env ccOperations ccOperationsCopy w) in
  Items w' = Items w ∧ extends isStatusUpdate w w'.
Proof.
  revert ccOperationsCopy w.
  induction ccOperations as [|p ps IH]; intros [|copy copies] w; cbn zeta;
    try (cbn; split; [reflexivity|apply extends_refl]).
  cbn [writeChangedStatuses]. rewrite bind_run. cbn [load].
  destruct (bool_decide _); [|apply IH].
  unfold r_Status_Update. rewrite !bind_run. cbn [load call].
  match goal with
  | |- context [StatusUpdate env ?cs ?o] => destruct (StatusUpdate env cs o)
  end.
  - cbn. split; [reflexivity|]. eexists [_]. split; [reflexivity|].
    repeat constructor.
  - match goal with
    | |- context [writeChangedStatuses env ps copies ?w1] =>
        destruct (IH copies w1) as (Hitems & Hcalls)
    end.
    cbn in Hitems. split; [exact Hitems|].
    eapply extends_trans; [|exact Hcalls].
    eexists [_]. split; [reflexivity|]. repeat constructor.
Qed.

Lemma extends_impl (P Q : Call → Prop) w w' :
  (∀ c, P c → Q c) → extends P w w' → extends Q w w'.
Proof.
  intros HPQ (new & Hnew & Hall). exists new. split; [exact Hnew|].
  eapply Forall_impl; [exact Hall|exact HPQ].
Qed.

Lemma updateCurrentTasks_world ccOperations w :
  let w' := snd (updateCurrentTasks env ccOperations w) in
  extends (λ c, ¬ isUpdate c) w w'
  ∧ length (Items w') = length (Items w)
  ∧ ∀ p, banzaiv1alpha1.Meta (Items w' !!! p) = banzaiv1alpha1.Meta (Items w !!! p).
Proof.
  cbn zeta. unfold updateCurrentTasks. pass_run.
  destruct (UserTasks env _ _) as [err|tasks].
  - cbn. split; [|auto]. eexists [_]. split; [reflexivity|].
    repeat constructor. cbn. tauto.
  - pass_run.
    match goal with
    | |- context [mergeUserTasks env ?tbl ccOperations ?w1] =>
        pose proof (mergeUserTasks_world tbl ccOperations w1) as (Hcalls & Hlen & Hmeta);
        destruct (mergeUserTasks env tbl ccOperations w1) as [[result|[err|]] w2]
    end; cbn in Hcalls, Hlen, Hmeta |- *.
    + split; [|auto]. eexists [_]. split; [exact Hcalls|]. repeat constructor. cbn. tauto.
    + split; [|auto]. eexists [_]. split; [exact Hcalls|]. repeat constructor. cbn. tauto.
    + match goal with
      | |- context [writeChangedStatuses env ccOperations ?copies w2] =>
          pose proof (writeChangedStatuses_world ccOperations copies w2)
            as (Hitems & Hwrites)
      end.
      cbn zeta in Hitems, Hwrites. rewrite Hitems. split; [|auto].
      eapply extends_trans; [|eapply extends_impl; [|exact Hwrites]].
      * eexists [_]. split; [exact Hcalls|]. repeat constructor. cbn. tauto.
      * intros []; cbn; tauto.
Qed.

Lemma findOperation_Some request items cur :
  findOperation request items = Some cur →
  (cur < length items)%nat
  ∧ banzaiv1alpha1.GetName (items !!! cur) = client.Name request
  ∧ banzaiv1alpha1.GetNamespace (items !!! cur) = client.Namespace request.
Proof.
  unfold findOperation. intros Hfind.
  destruct (list_find _ items) as [[i o]|] eqn:Hlist; [|discriminate].
  injection Hfind as <-.
  apply list_find_Some in Hlist as (Hlookup & [Hname Hns] & _).
  split; [by eapply lookup_lt_Some|].
  rewrite (list_lookup_total_correct _ _ _ Hlookup). auto.
Qed.

Lemma Reconcile_world request w :
  snd (Reconcile env request w) = snd (reconcile env request w).
Proof. unfold Reconcile. destruct (reconcile env request w) as [[?|?] ?]; reflexivity. Qed.

(** The part of a pass that works on the records of the cluster writes a
    record as a whole only to take the guard off the triggering record, and
    only when that record, as polling left it, needs the guard no longer:
    it carries the guard, is marked for deletion and its task does not run. *)
Lemma reconcileCluster_updates cur kafkaClusterRef status w :
  (cur < length (Items w))%nat →
  ∃ new,
    calls (snd (reconcileCluster env cur kafkaClusterRef status w)) = calls w ++ new
    ∧ ∀ written, CallUpdate written ∈ new →
        ∃ o, written = controllerutil.RemoveFinalizer ccOperationFinalizerGroup o
             ∧ banzaiv1alpha1.Meta o = banzaiv1alpha1.Meta (Items w !!! cur)
             ∧ isFinalizerNeeded o = true
             ∧ IsCurrentTaskRunning o = false.
Proof.
  intros Hvalid. unfold reconcileCluster. pass_run.
  pose proof (updateCurrentTasks_world (filterByCluster kafkaClusterRef (Items w)) w)
    as ((polled & Hpolled & Hquiet) & Hlen & Hmeta).
  cbn zeta in Hpolled, Hlen, Hmeta.
  assert (Hnone : ∀ written, CallUpdate written ∉ polled).
  { intros written Hin. rewrite Forall_forall in Hquiet.
    by apply (Hquiet _ Hin). }
  destruct (updateCurrentTasks env _ w) as [[result|[err|]] w1];
    cbn [snd] in Hpolled, Hlen, Hmeta; pass_run.
  - exists polled. split; [exact Hpolled|]. intros written Hin. by destruct (Hnone written).
  - exists polled. split; [exact Hpolled|]. intros written Hin. by destruct (Hnone written).
  - destruct (isFinalizerNeeded (Items w1 !!! cur)
              && negb (IsCurrentTaskRunning (Items w1 !!! cur))) eqn:Hidle.
    + apply andb_true_iff in Hidle as [Hneeded Hrunning].
      apply negb_true_iff in Hrunning.
      unfold removeFinalizer, r_Update. pass_run.
      rewrite list_lookup_total_insert_eq by lia.
      exists (polled ++ [CallUpdate
                (controllerutil.RemoveFinalizer ccOperationFinalizerGroup
                   (Items w1 !!! cur))]).
      split.
      { destruct (Update env _ _); pass_run; rewrite Hpolled, app_assoc; reflexivity. }
      intros written Hin. apply elem_of_app in Hin as [Hin|Hin];
        [by destruct (Hnone written)|].
      apply list_elem_of_singleton in Hin. injection Hin as ->.
      eexists. split; [reflexivity|]. auto.
    + pass_run.
      match goal with
      | |- context [if ?b then exit reconciled else _] => destruct b
      end; pass_run.
      { exists polled. split; [exact Hpolled|].
        intros written Hin. by destruct (Hnone written). }
      match goal with
      | |- context [dispatchSelected env status ?m w1] =>
          destruct (emits_dispatchSelected env (λ c, ¬ isUpdate c) status m) with (w := w1)
            as (dispatched & Hdispatched & Hquiet')
      end; try (intros []; cbn; tauto); try (intros; cbn; tauto).
      exists (polled ++ dispatched). split.
      { rewrite Hdispatched, Hpolled, app_assoc. reflexivity. }
      intros written Hin. apply elem_of_app in Hin as [Hin|Hin];
        [by destruct (Hnone written)|].
      rewrite Forall_forall in Hquiet'. by destruct (Hquiet' _ Hin).
Qed.

(** The same from the point where the engine is asked for its status. *)
Lemma engineStatus_reconcileCluster_updates cur kafkaClusterRef w :
  (cur < length (Items w))%nat →
  ∃ new,
    calls (snd ((status ← engineStatus env kafkaClusterRef;
                 reconcileCluster env cur kafkaClusterRef status) w))
    = calls w ++ new
    ∧ ∀ written, CallUpdate written ∈ new →
        ∃ o, written = controllerutil.RemoveFinalizer ccOperationFinalizerGroup o
             ∧ banzaiv1alpha1.Meta o = banzaiv1alpha1.Meta (Items w !!! cur)
             ∧ isFinalizerNeeded o = true
             ∧ IsCurrentTaskRunning o = false.
Proof.
  intros Hvalid. unfold engineStatus. pass_run.
  assert (Hstop : ∀ (cs : list Call) written, (∀ c, c ∈ cs → ¬ isUpdate c) →
    CallUpdate written ∈ cs →
    ∃ o, written = controllerutil.RemoveFinalizer ccOperationFinalizerGroup o
         ∧ banzaiv1alpha1.Meta o = banzaiv1alpha1.Meta (Items w !!! cur)
         ∧ isFinalizerNeeded o = true
         ∧ IsCurrentTaskRunning o = false).
  { intros cs written Hcs Hin. by destruct (Hcs _ Hin). }
  destruct (ScaleFactory env _ _) as [err|]; pass_run.
  { eexists [_]. split; [reflexivity|]. intros written. apply Hstop.
    intros c Hc. apply list_elem_of_singleton in Hc as ->. cbn. tauto. }
  destruct (Status env _) as [err|status]; pass_run.
  { eexists [_; _]. split; [by rewrite <- app_assoc|]. intros written. apply Hstop.
    intros c Hc. repeat (apply elem_of_cons in Hc as [->|Hc]; [cbn; tauto|]).
    by apply elem_of_nil in Hc. }
  destruct (scale.IsReady status); pass_run.
  2:{ eexists [_; _]. split; [by rewrite <- app_assoc|]. intros written. apply Hstop.
      intros c Hc. repeat (apply elem_of_cons in Hc as [->|Hc]; [cbn; tauto|]).
      by apply elem_of_nil in Hc. }
  match goal with
  | |- context [reconcileCluster env cur kafkaClusterRef status ?w1] =>
      destruct (reconcileCluster_updates cur kafkaClusterRef status w1 Hvalid)
        as (new & Hnew & Hjust)
  end.
  cbn [calls Items] in Hnew, Hjust.
  eexists (_ :: _ :: new). split.
  { rewrite Hnew, <- !app_assoc. reflexivity. }
  intros written Hin.
  repeat (apply elem_of_cons in Hin as [Hin|Hin]; [discriminate|]).
  by apply Hjust.
Qed.

Lemma ContainsFinalizer_AddFinalizer o :
  controllerutil.ContainsFinalizer
    (controllerutil.AddFinalizer ccOperationFinalizerGroup o)
    ccOperationFinalizerGroup = true.
Proof.
  unfold controllerutil.AddFinalizer.
  destruct (controllerutil.ContainsFinalizer o _) eqn:Hhas; [exact Hhas|].
  unfold controllerutil.ContainsFinalizer. cbn.
  apply bool_decide_eq_true. apply elem_of_app. right. apply list_elem_of_here.
Qed.

(** A pass writes a record without the guard in three situations only. *)
Lemma guard_removed_only_when_justified request written :
  CallUpdate written ∈ calls (snd (Reconcile env request startOfPass)) →
  controllerutil.ContainsFinalizer written ccOperationFinalizerGroup = false →
  guardRemoved env request written.
Proof.
  rewrite Reconcile_world. unfold reconcile, startOfPass. pass_run.
  destruct (List env [] _) as [err|items]; pass_run.
  { intros Hin. apply list_elem_of_singleton in Hin. discriminate. }
  destruct (findOperation request items) as [cur|] eqn:Hfind; pass_run.
  2:{ intros Hin. apply list_elem_of_singleton in Hin. discriminate. }
  apply findOperation_Some in Hfind as (Hvalid & Hname & Hns).
  set (o := items !!! cur) in *.
  destruct (isFinalizerNeeded o && IsDone o) eqn:Hdone.
  { apply andb_true_iff in Hdone as [Hneeded Hdone].
    apply andb_true_iff in Hneeded as [Hguard Hmarked].
    unfold removeFinalizer, r_Update. pass_run.
    rewrite list_lookup_total_insert_eq by exact Hvalid. fold o.
    intros Hin _.
    assert (Hwritten : written
      = controllerutil.RemoveFinalizer ccOperationFinalizerGroup o).
    { destruct (Update env _ _); pass_run; cbn in Hin;
        repeat (apply elem_of_cons in Hin as [Hin|Hin]; [try discriminate|]);
        try (by apply elem_of_nil in Hin); congruence. }
    exists o. repeat split; auto. }
  pass_run.
  destruct (IsCurrentTaskOperationValid o); pass_run.
  2:{ intros Hin. apply list_elem_of_singleton in Hin. discriminate. }
  unfold lookupKafkaCluster. pass_run. fold o.
  destruct (kafkaClusterReference o) as [kafkaClusterRef [err|]] eqn:Href; pass_run.
  { intros Hin. apply list_elem_of_singleton in Hin. discriminate. }
  destruct (GetKafkaCluster env _ kafkaClusterRef) as [err|] eqn:Hget; pass_run.
  { destruct (apiErrors.IsNotFound err) eqn:Hnotfound; pass_run.
    2:{ intros Hin. cbn in Hin.
        repeat (apply elem_of_cons in Hin as [Hin|Hin]; [discriminate|]).
        by apply elem_of_nil in Hin. }
    destruct (isMarkedForDeletion o) eqn:Hmarked; pass_run.
    2:{ intros Hin. cbn in Hin.
        repeat (apply elem_of_cons in Hin as [Hin|Hin]; [discriminate|]).
        by apply elem_of_nil in Hin. }
    unfold r_Update. pass_run.
    rewrite list_lookup_total_insert_eq by exact Hvalid.
    intros Hin _.
    assert (Hwritten : written
      = controllerutil.RemoveFinalizer ccOperationFinalizerGroup o).
    { destruct (Update env _ _); pass_run; cbn in Hin;
        repeat (apply elem_of_cons in Hin as [Hin|Hin]; [try discriminate|]);
        try (by apply elem_of_nil in Hin); congruence. }
    exists o. repeat split; auto.
    right. left. exists [CallList (client.Namespace request)], err.
    rewrite Href. auto. }
  assert (Hlate : ∀ w,
    (cur < length (Items w))%nat →
    banzaiv1alpha1.GetName (Items w !!! cur) = client.Name request →
    banzaiv1alpha1.GetNamespace (Items w !!! cur) = client.Namespace request →
    ∀ new : list Call,
      (∀ written, CallUpdate written ∈ new →
         ∃ o', written = controllerutil.RemoveFinalizer ccOperationFinalizerGroup o'
               ∧ banzaiv1alpha1.Meta o' = banzaiv1alpha1.Meta (Items w !!! cur)
               ∧ isFinalizerNeeded o' = true
               ∧ IsCurrentTaskRunning o' = false) →
      CallUpdate written ∈ new → guardRemoved env request written).
  { intros w Hcur Hn Hs new Hjust Hin.
    destruct (Hjust _ Hin) as (o' & -> & Hmeta & Hneeded & Hrunning).
    apply andb_true_iff in Hneeded as [Hguard Hmarked].
    exists o'. unfold banzaiv1alpha1.GetName, banzaiv1alpha1.GetNamespace in *.
    rewrite Hmeta. repeat split; auto. }
  unfold addFinalizer. pass_run. fold o.
  destruct (isMarkedForDeletion o) eqn:Hmarked; pass_run.
  { match goal with
    | |- context [engineStatus env kafkaClusterRef ?w1] =>
        destruct (engineStatus_reconcileCluster_updates cur kafkaClusterRef w1 Hvalid)
          as (new & Hnew & Hjust)
    end.
    rewrite bind_run in Hnew. rewrite Hnew. cbn [calls Items] in *.
    intros Hin _. cbn in Hin.
    repeat (apply elem_of_cons in Hin as [Hin|Hin]; [discriminate|]).
    eapply (Hlate {| Items := items; calls := []; ticks := 0 |}); eauto. }
  destruct (controllerutil.ContainsFinalizer o ccOperationFinalizerGroup) eqn:Hguard;
    pass_run.
  { match goal with
    | |- context [engineStatus env kafkaClusterRef ?w1] =>
        destruct (engineStatus_reconcileCluster_updates cur kafkaClusterRef w1 Hvalid)
          as (new & Hnew & Hjust)
    end.
    rewrite bind_run in Hnew. rewrite Hnew. cbn [calls Items] in *.
    intros Hin _. cbn in Hin.
    repeat (apply elem_of_cons in Hin as [Hin|Hin]; [discriminate|]).
    eapply (Hlate {| Items := items; calls := []; ticks := 0 |}); eauto. }
  unfold r_Update. pass_run.
  rewrite list_lookup_total_insert_eq by exact Hvalid.
  set (guarded := controllerutil.AddFinalizer ccOperationFinalizerGroup o).
  assert (Hadded : controllerutil.ContainsFinalizer guarded ccOperationFinalizerGroup
                   = true) by apply ContainsFinalizer_AddFinalizer.
  destruct (Update env _ _) as [err|]; pass_run.
  { intros Hin Hnone. cbn in Hin.
    repeat (apply elem_of_cons in Hin as [Hin|Hin]; [try discriminate|]).
    - injection Hin as ->. congruence.
    - by apply elem_of_nil in Hin. }
  assert (Hvalid' : (cur < length (<[cur:=guarded]> items))%nat)
    by (by rewrite length_insert).
  match goal with
  | |- context [engineStatus env kafkaClusterRef ?w1] =>
      destruct (engineStatus_reconcileCluster_updates cur kafkaClusterRef w1 Hvalid')
        as (new & Hnew & Hjust)
  end.
  rewrite bind_run in Hnew. rewrite Hnew. cbn [calls Items] in *.
  intros Hin Hnone. cbn in Hin.
  repeat (apply elem_of_cons in Hin as [Hin|Hin]; [try discriminate|]).
  - injection Hin as ->. congruence.
  - eapply (Hlate {| Items := <[cur:=guarded]> items; calls := []; ticks := 0 |});
      cbn [Items]; eauto;
      rewrite list_lookup_total_insert_eq by exact Hvalid;
      unfold guarded, controllerutil.AddFinalizer;
      rewrite Hguard; assumption.
Qed.

(** The three situations, the other way round: in each of them the pass
    writes the triggering record without the guard. *)
Lemma guard_removed_when_done request items cur :
  List env [] (client.Namespace request) = inr items →
  findOperation request items = Some cur →
  isFinalizerNeeded (items !!! cur) && IsDone (items !!! cur) = true →
  calls (snd (Reconcile env request startOfPass))
  = [CallList (client.Namespace request);
     CallUpdate (controllerutil.RemoveFinalizer ccOperationFinalizerGroup
                   (items !!! cur))].
Proof.
  intros Hlist Hfind Hdone.
  rewrite Reconcile_world. unfold reconcile, startOfPass. pass_run.
  rewrite Hlist. pass_run. rewrite Hfind. pass_run.
  apply findOperation_Some in Hfind as (Hvalid & _).
  rewrite Hdone. unfold removeFinalizer, r_Update. pass_run.
  rewrite list_lookup_total_insert_eq by exact Hvalid.
  destruct (Update env _ _); reflexivity.
Qed.

Lemma guard_removed_when_cluster_gone request items cur kafkaClusterRef err :
  List env [] (client.Namespace request) = inr items →
  findOperation request items = Some cur →
  isFinalizerNeeded (items !!! cur) && IsDone (items !!! cur) = false →
  IsCurrentTaskOperationValid (items !!! cur) = true →
  kafkaClusterReference (items !!! cur) = (kafkaClusterRef, None) →
  GetKafkaCluster env [CallList (client.Namespace request)] kafkaClusterRef = Some err →
  apiErrors.IsNotFound err = true →
  isMarkedForDeletion (items !!! cur) = true →
  calls (snd (Reconcile env request startOfPass))
  = [CallList (client.Namespace request);
     CallGetKafkaCluster kafkaClusterRef;
     CallUpdate (controllerutil.RemoveFinalizer ccOperationFinalizerGroup
                   (items !!! cur))].
Proof.
  intros Hlist Hfind Hdone Hkind Href Hget Hnotfound Hmarked.
  rewrite Reconcile_world. unfold reconcile, startOfPass. pass_run.
  rewrite Hlist. pass_run. rewrite Hfind. pass_run.
  apply findOperation_Some in Hfind as (Hvalid & _).
  rewrite Hdone. pass_run. rewrite Hkind. pass_run.
  unfold lookupKafkaCluster. pass_run. rewrite Href. pass_run.
  change ([] ++ [CallList (client.Namespace request)])
    with [CallList (client.Namespace request)].
  rewrite Hget. pass_run. rewrite Hnotfound, Hmarked.
  unfold r_Update. pass_run.
  rewrite list_lookup_total_insert_eq by exact Hvalid.
  destruct (Update env _ _); reflexivity.
Qed.

Lemma guard_removed_when_idle cur kafkaClusterRef status w w1 :
  updateCurrentTasks env (filterByCluster kafkaClusterRef (Items w)) w
  = (inr None, w1) →
  (cur < length (Items w1))%nat →
  isFinalizerNeeded (Items w1 !!! cur)
  && negb (IsCurrentTaskRunning (Items w1 !!! cur)) = true →
  calls (snd (reconcileCluster env cur kafkaClusterRef status w))
  = calls w1
    ++ [CallUpdate (controllerutil.RemoveFinalizer ccOperationFinalizerGroup
                      (Items w1 !!! cur))].
Proof.
  intros Hpoll Hvalid Hidle. unfold reconcileCluster. pass_run.
  rewrite Hpoll. pass_run. rewrite Hidle.
  unfold removeFinalizer, r_Update. pass_run.
  rewrite list_lookup_total_insert_eq by exact Hvalid.
  destruct (Update env _ _); reflexivity.
Qed.

(** C6, as amended: a pass writes a record without the guard in exactly
    three situations, and in each of them the record is marked for deletion.
    The record written is the triggering record and it either carried the
    guard and was done when the pass began, or refers to a cluster that the
    store does not find, or carried the guard while, after polling, its
    current task was not running.  In each of the three the guard is taken
    off; in every other situation every write of a record by the pass
    leaves the guard on it. *)
Theorem guard_removal_situations request :
  (∀ written,
     CallUpdate written ∈ calls (snd (Reconcile env request startOfPass)) →
     controllerutil.ContainsFinalizer written ccOperationFinalizerGroup = false →
     guardRemoved env request written)
  ∧ (∀ items cur,
       List env [] (client.Namespace request) = inr items →
       findOperation request items = Some cur →
       let o := items !!! cur in
       let removal :=
         CallUpdate (controllerutil.RemoveFinalizer ccOperationFinalizerGroup o) in
       (isFinalizerNeeded o && IsDone o = true →
        removal ∈ calls (snd (Reconcile env request startOfPass)))
       ∧ (isFinalizerNeeded o && IsDone o = false →
          IsCurrentTaskOperationValid o = true →
          snd (kafkaClusterReference o) = None →
          (∃ err,
             GetKafkaCluster env [CallList (client.Namespace request)]
               (fst (kafkaClusterReference o)) = Some err
             ∧ apiErrors.IsNotFound err = true) →
          isMarkedForDeletion o = true →
          removal ∈ calls (snd (Reconcile env request startOfPass))))
  ∧ (∀ cur kafkaClusterRef status w w1,
       updateCurrentTasks env (filterByCluster kafkaClusterRef (Items w)) w
       = (inr None, w1) →
       (cur < length (Items w1))%nat →
       isFinalizerNeeded (Items w1 !!! cur)
       && negb (IsCurrentTaskRunning (Items w1 !!! cur)) = true →
       CallUpdate (controllerutil.RemoveFinalizer ccOperationFinalizerGroup
                     (Items w1 !!! cur))
       ∈ calls (snd (reconcileCluster env cur kafkaClusterRef status w))).
Proof.
  split; [|split].
  - intros written. apply guard_removed_only_when_justified.
  - intros items cur Hlist Hfind o removal. split.
    + intros Hdone. rewrite (guard_removed_when_done _ _ _ Hlist Hfind Hdone).
      apply list_elem_of_further, list_elem_of_here.
    + intros Hdone Hkind Href (err & Hget & Hnotfound) Hmarked.
      destruct (kafkaClusterReference o) as [kafkaClusterRef failure] eqn:Hpair.
      cbn in Href, Hget. subst failure.
      rewrite (guard_removed_when_cluster_gone _ _ _ _ _ Hlist Hfind Hdone Hkind
                 Hpair Hget Hnotfound Hmarked).
      do 2 apply list_elem_of_further. apply list_elem_of_here.
  - intros cur kafkaClusterRef status w w1 Hpoll Hvalid Hidle.
    rewrite (guard_removed_when_idle _ _ _ _ _ Hpoll Hvalid Hidle).
    apply elem_of_app. right. apply list_elem_of_here.
Qed.

End GuardFacts.

(** * The properties on concrete passes *)

(** Scenario D of the design, against C1 as stated: a first dispatch whose
    result is [CompletedWithError].  The merge records the result on the
    current task and archives nothing: no entry is added to [FailedTasks],
    [RetryCount] stays 0 and the current task is not reset. *)
Lemma updateResult_first_failure_not_archived :
  let '(err, merged) :=
    updateResult parseRFC1123 1000 (Some (failure "job-1" epoch)) newRebalance true in
  err = None
  ∧ banzaiv1alpha1.FailedTasks (banzaiv1alpha1.Status merged) = []
  ∧ banzaiv1alpha1.RetryCount (banzaiv1alpha1.Status merged) = 0
  ∧ banzaiv1alpha1.State (banzaiv1alpha1.CurrentTask merged)
    = banzaiv1beta1.CruiseControlTaskCompletedWithError
  ∧ banzaiv1alpha1.ID (banzaiv1alpha1.CurrentTask merged) = "job-1"
  ∧ banzaiv1alpha1.CurrentTask merged
    ≠ banzaiv1alpha1.SetDefaults (banzaiv1alpha1.CurrentTask newRebalance).
Proof. vm_compute. repeat split; discriminate. Qed.

Lemma updateResult_archives_recorded_failure_witness :
  banzaiv1alpha1.State (banzaiv1alpha1.CurrentTask failedRebalance)
  = banzaiv1beta1.CruiseControlTaskCompletedWithError
  ∧ banzaiv1alpha1.Finished (banzaiv1alpha1.CurrentTask failedRebalance) ≠ None
  ∧ - 2 ^ 63 ≤ banzaiv1alpha1.RetryCount (banzaiv1alpha1.Status failedRebalance)
    < 2 ^ 63 - 1
  ∧ let merged :=
      snd (updateResult parseRFC1123 2000 (Some (failure "job-2" epoch))
             failedRebalance true) in
    banzaiv1alpha1.FailedTasks (banzaiv1alpha1.Status merged)
    = [banzaiv1alpha1.CurrentTask failedRebalance]
    ∧ banzaiv1alpha1.RetryCount (banzaiv1alpha1.Status merged) = 1.
Proof.
  assert (Hstate : banzaiv1alpha1.State (banzaiv1alpha1.CurrentTask failedRebalance)
                   = banzaiv1beta1.CruiseControlTaskCompletedWithError) by reflexivity.
  assert (Hfin : banzaiv1alpha1.Finished (banzaiv1alpha1.CurrentTask failedRebalance)
                 ≠ None) by discriminate.
  assert (Hcount : - 2 ^ 63
                   ≤ banzaiv1alpha1.RetryCount (banzaiv1alpha1.Status failedRebalance)
                   < 2 ^ 63 - 1) by (cbn; lia).
  split; [exact Hstate|]. split; [exact Hfin|]. split; [exact Hcount|].
  pose proof (updateResult_archives_recorded_failure parseRFC1123 2000
                (Some (failure "job-2" epoch)) failedRebalance
                Hstate (or_introl Hfin) Hcount) as H.
  destruct (updateResult parseRFC1123 2000 (Some (failure "job-2" epoch))
              failedRebalance true) as [err merged].
  destruct H as (Hfailed & Hretry & _).
  split; [exact Hfailed|exact Hretry].
Defined.

Lemma selectOperationForExecution_stop_precedence_witness :
  let items := [newAddBroker; runningRebalance (Some 500)] in
  let ccOperationQueueMap : gmap string (list Pointer) :=
    {[ ccOperationForStopExecution := [1%nat];
       ccOperationFirstExecution := [0%nat] ]} in
  queue ccOperationQueueMap ccOperationForStopExecution = [1%nat]
  ∧ (1 < length items)%nat
  ∧ fst (selectOperationForExecution 1000 items ccOperationQueueMap) = Some 1%nat
  ∧ banzaiv1alpha1.CurrentTaskOperation
      (snd (selectOperationForExecution 1000 items ccOperationQueueMap) !!! 1%nat)
    = banzaiv1alpha1.OperationStopExecution.
Proof.
  intros items ccOperationQueueMap.
  assert (Hstop : queue ccOperationQueueMap ccOperationForStopExecution = [1%nat])
    by (vm_compute; reflexivity).
  assert (Hvalid : (1 < length items)%nat) by (cbn; lia).
  split; [exact Hstop|]. split; [exact Hvalid|].
  pose proof (selectOperationForExecution_stop_precedence 1000 items
                ccOperationQueueMap 1%nat [] Hstop Hvalid) as H.
  destruct (selectOperationForExecution 1000 items ccOperationQueueMap)
    as [selected items'].
  destruct H as (Hselected & Hkind & _).
  split; [exact Hselected|exact Hkind].
Defined.

(** Scenario A of the design: a rebalance created first and an add-broker
    request created second, both waiting; the add-broker request heads the
    bucket. *)
Lemma sortOperations_priority_order_witness :
  let items := [newRebalance; newAddBroker] in
  let bucket := queue (sortOperations items [0%nat; 1%nat]) ccOperationFirstExecution in
  bucket = [1%nat; 0%nat]
  ∧ executionPriorityMap (banzaiv1alpha1.CurrentTaskOperation (items !!! 0%nat))
    ≤ executionPriorityMap (banzaiv1alpha1.CurrentTaskOperation (items !!! 1%nat)).
Proof.
  intros items bucket.
  assert (Hbucket : bucket = [1%nat; 0%nat]) by (vm_compute; reflexivity).
  split; [exact Hbucket|].
  pose proof (sortOperations_priority_order items [0%nat; 1%nat]
                ccOperationFirstExecution) as (_ & _ & _ & _ & Hhead).
  apply (Hhead 1%nat [0%nat] Hbucket 0%nat). apply list_elem_of_here.
Defined.

(** 51 failures archived on an empty history: 50 are kept and the first one
    archived, the job [job-1], is the one that is gone. *)
Lemma FailedTasks_bounded_history_witness :
  (length (banzaiv1alpha1.FailedTasks (banzaiv1alpha1.Status failedRebalance)) ≤ 50)%nat
  ∧ let '(final, archived) :=
      updateResults parseRFC1123 (failedAttempts 51) failedRebalance in
    length archived = 51%nat
    ∧ length (banzaiv1alpha1.FailedTasks (banzaiv1alpha1.Status final)) = 50%nat
    ∧ banzaiv1alpha1.FailedTasks (banzaiv1alpha1.Status final) = drop 1 archived
    ∧ banzaiv1alpha1.ID <$> head archived = Some "job-1"
    ∧ banzaiv1alpha1.ID
      <$> head (banzaiv1alpha1.FailedTasks (banzaiv1alpha1.Status final))
      = Some "job-2".
Proof.
  assert (Hlen : (length (banzaiv1alpha1.FailedTasks
                            (banzaiv1alpha1.Status failedRebalance)) ≤ 50)%nat)
    by (cbn; lia).
  split; [exact Hlen|].
  pose proof (FailedTasks_bounded_history parseRFC1123 (failedAttempts 51)
                failedRebalance Hlen) as H.
  destruct (updateResults parseRFC1123 (failedAttempts 51) failedRebalance)
    as [final archived] eqn:Hrun.
  assert (Harchived : length archived = 51%nat ∧ banzaiv1alpha1.ID <$> head archived = Some "job-1").
  { apply (f_equal snd) in Hrun. cbn [snd] in Hrun. subst archived.
    vm_compute. split; reflexivity. }
  destruct Harchived as [Hcount Hfirst].
  destruct H as (_ & _ & H). destruct (H eq_refl) as [Hkept Hlast]; [lia|].
  rewrite Hcount in Hlast. change (51 - 50)%nat with 1%nat in Hlast.
  split; [exact Hcount|]. split; [exact Hkept|]. split; [exact Hlast|].
  split; [exact Hfirst|].
  rewrite Hlast. apply (f_equal snd) in Hrun. cbn [snd] in Hrun. subst archived.
  vm_compute. reflexivity.
Defined.

(** Against C5 as stated: a record with the job ID [job-1] whose recorded
    state is [CompletedWithError], merged after an execution that returned
    neither a result nor an error.  The merge archives the task and resets
    it, fails on the empty start time of the synthesised result and returns
    before it records the state: the task is left unset. *)
Lemma missing_result_after_execution_leaves_task_unset :
  banzaiv1alpha1.CurrentTaskID failedRebalance = "job-1"
  ∧ let '(err, merged) := updateResult parseRFC1123 1000 None failedRebalance true in
    err ≠ None
    ∧ banzaiv1alpha1.State (banzaiv1alpha1.CurrentTask merged)
      = banzaiv1beta1.CruiseControlTaskUnset
    ∧ banzaiv1alpha1.State (banzaiv1alpha1.CurrentTask merged)
      ≠ banzaiv1beta1.CruiseControlTaskCompletedWithError.
Proof. split; [reflexivity|]. vm_compute. repeat split; discriminate. Qed.

(** A running job that is gone from the cache of the engine: the poll, and
    a merge after an execution as well since [Started] is set, leave the task
    in state [CompletedWithError]. *)
Lemma updateResult_missing_result_witness :
  (let '(err, polled) :=
     updateResult parseRFC1123 1000 None (runningRebalance None) false in
   err = None
   ∧ banzaiv1alpha1.State (banzaiv1alpha1.CurrentTask polled)
     = banzaiv1beta1.CruiseControlTaskCompletedWithError
   ∧ banzaiv1alpha1.Finished (banzaiv1alpha1.CurrentTask polled) ≠ None
   ∧ banzaiv1alpha1.ID (banzaiv1alpha1.CurrentTask polled) = "job-1")
  ∧ (let '(err, merged) :=
       updateResult parseRFC1123 1000 None (runningRebalance None) true in
     err = None
     ∧ banzaiv1alpha1.State (banzaiv1alpha1.CurrentTask merged)
       = banzaiv1beta1.CruiseControlTaskCompletedWithError).
Proof.
  pose proof (updateResult_missing_result parseRFC1123 1000 (runningRebalance None))
    as (_ & _ & _ & _ & Hpoll & Hpost).
  split; [exact Hpoll|].
  destruct (updateResult parseRFC1123 1000 None (runningRebalance None) true)
    as [err merged] eqn:Hrun.
  assert (Hnone : err = None).
  { apply (f_equal fst) in Hrun. vm_compute in Hrun. congruence. }
  destruct Hpost as (_ & Hstate & _).
  split; [exact Hnone|by apply Hstate].
Defined.



(** Against C6 as stated: a record that carries the guard and is marked for
    deletion while its job is in execution, so it is neither done nor idle.
    The store does not find its cluster, and the pass writes the record
    without the guard and is done. *)
Lemma guard_removed_while_task_runs :
  let o := runningRebalance (Some 500) in
  let env := collaborators [o] clusterNotFound ready [] invalidDispatch in
  let '(result, w) := Reconcile env (requestFor "rebalance") startOfPass in
  result = reconciled
  ∧ calls w
    = [CallList "ns";
       CallGetKafkaCluster {| client.Name := "kafka"; client.Namespace := "ns" |};
       CallUpdate (controllerutil.RemoveFinalizer ccOperationFinalizerGroup o)]
  ∧ controllerutil.ContainsFinalizer o ccOperationFinalizerGroup = true
  ∧ controllerutil.ContainsFinalizer
      (controllerutil.RemoveFinalizer ccOperationFinalizerGroup o)
      ccOperationFinalizerGroup = false
  ∧ IsDone o = false
  ∧ IsCurrentTaskRunning o = true.
Proof. vm_compute. repeat split. Qed.

(** Also against C6 as stated: a record that is done and carries the guard,
    but is not marked for deletion, keeps the guard; the pass is done
    without a call but the listing. *)
Lemma done_record_keeps_guard :
  let o := newOperation "rebalance" 10 None guard
             (polledTask banzaiv1alpha1.OperationRebalance "job-1"
                banzaiv1beta1.CruiseControlTaskCompleted (Some 0) (Some 50)) in
  let env := collaborators [o] None ready [] invalidDispatch in
  let '(result, w) := Reconcile env (requestFor "rebalance") startOfPass in
  IsDone o = true
  ∧ controllerutil.ContainsFinalizer o ccOperationFinalizerGroup = true
  ∧ Forall (λ c, ¬ isUpdate c) (calls w)
  ∧ Items w = [o].
Proof. vm_compute. repeat split. repeat constructor; tauto. Qed.

Lemma guard_removal_situations_witness :
  let o := runningRebalance (Some 500) in
  let env := collaborators [o] clusterNotFound ready [] invalidDispatch in
  let written := controllerutil.RemoveFinalizer ccOperationFinalizerGroup o in
  CallUpdate written ∈ calls (snd (Reconcile env (requestFor "rebalance") startOfPass))
  ∧ controllerutil.ContainsFinalizer written ccOperationFinalizerGroup = false
  ∧ guardRemoved env (requestFor "rebalance") written.
Proof.
  intros o env written.
  assert (Hin : CallUpdate written
                ∈ calls (snd (Reconcile env (requestFor "rebalance") startOfPass))).
  { apply (bool_decide_unpack _). vm_compute. exact I. }
  assert (Hnone : controllerutil.ContainsFinalizer written ccOperationFinalizerGroup
                  = false) by (vm_compute; reflexivity).
  split; [exact Hin|]. split; [exact Hnone|].
  exact (proj1 (guard_removal_situations env (requestFor "rebalance")) written
           Hin Hnone).
Defined.

Lemma dispatchSelected_single_flight_witness :
  let env := collaborators [newRebalance] None busy [] invalidDispatch in
  let w := beforeSelection [newRebalance] in
  selectOperationForExecution (Now env (ticks w)) (Items w) oneWaiting
  = (Some 0%nat, [newRebalance])
  ∧ banzaiv1alpha1.CurrentTaskOperation ([newRebalance] !!! 0%nat)
    ≠ banzaiv1alpha1.OperationStopExecution
  ∧ scale.InExecution busy = true
  ∧ dispatchSelected env busy oneWaiting w
    = (inl (requeueAfter 10),
       {| Items := [newRebalance]; calls := calls w; ticks := 1 |}).
Proof.
  intros env w.
  assert (Hselect : selectOperationForExecution (Now env (ticks w)) (Items w) oneWaiting
                    = (Some 0%nat, [newRebalance])) by (vm_compute; reflexivity).
  assert (Hkind : banzaiv1alpha1.CurrentTaskOperation ([newRebalance] !!! 0%nat)
                  ≠ banzaiv1alpha1.OperationStopExecution) by discriminate.
  split; [exact Hselect|]. split; [exact Hkind|]. split; [reflexivity|].
  exact (dispatchSelected_single_flight env busy oneWaiting w 0%nat [newRebalance]
           Hselect Hkind (or_introl eq_refl)).
Defined.

(** Against C8 as stated: the dispatch returns an error together with a
    partial result that carries no date.  The pass calls the engine, fails to
    merge the result and ends as a requeue with the parse error: no status
    is written, and the record in memory shows nothing of the attempt but a
    [Finished] stamp. *)
Lemma partial_result_without_date_not_recorded :
  let env := collaborators [newRebalance] None ready [] refusedDispatch in
  let '(result, w) := Reconcile env (requestFor "rebalance") startOfPass in
  result
  = requeueWithError
      "could not update the result of the Cruise Control user task execution to the CruiseControlOperation status"
      (errors.WrapIff (ParseError RFC1123 "")
         "could not parse user task start time from Cruise Control API")
  ∧ calls w
    = [CallList "ns";
       CallGetKafkaCluster {| client.Name := "kafka"; client.Namespace := "ns" |};
       CallScaleFactory {| client.Name := "kafka"; client.Namespace := "ns" |};
       CallStatus; CallUserTasks []; CallRebalanceWithParams ∅]
  ∧ banzaiv1alpha1.CurrentTask (Items w !!! 0%nat)
    = banzaiv1alpha1.setFinished (Some 1001) (banzaiv1alpha1.CurrentTask newRebalance)
  ∧ banzaiv1alpha1.State (banzaiv1alpha1.CurrentTask (Items w !!! 0%nat))
    ≠ scale.State (failure "" "").
Proof. vm_compute. repeat split. discriminate. Qed.

(** A dispatch that fails without a result, and one that fails with a
    result that carries the job ID and a date: the first ends the pass with
    the record untouched, the second is merged and its status written. *)
Lemma dispatch_error_handling_witness :
  (let env := collaborators [newRebalance] None ready [] invalidDispatch in
   let w := beforeSelection [newRebalance] in
   let w2 := {| Items := [newRebalance];
                calls := calls w ++ [CallRebalanceWithParams ∅]; ticks := 1 |} in
   selectOperationForExecution (Now env (ticks w)) (Items w) oneWaiting
   = (Some 0%nat, [newRebalance])
   ∧ (0 < length [newRebalance])%nat
   ∧ executeOperation env 0%nat
       {| Items := [newRebalance]; calls := calls w; ticks := S (ticks w) |}
     = (inr invalidDispatch, w2)
   ∧ dispatchSelected env ready oneWaiting w
     = (inl (requeueWithError "CruiseControlOperation custom resource is invalid"
               (errors.New "invalid parameters")), w2)
   ∧ Items w2 = [newRebalance])
  ∧ (let env := collaborators [newRebalance] None ready [] failedDispatch in
     let w := beforeSelection [newRebalance] in
     let w2 := {| Items := [newRebalance];
                  calls := calls w ++ [CallRebalanceWithParams ∅]; ticks := 1 |} in
     let merged :=
       snd (updateResult (Parse env) (Now env (ticks w2))
              (Some (failure "job-1" epoch)) ([newRebalance] !!! 0%nat) true) in
     executeOperation env 0%nat
       {| Items := [newRebalance]; calls := calls w; ticks := S (ticks w) |}
     = (inr failedDispatch, w2)
     ∧ dispatchSelected env ready oneWaiting w
       = (inr reconciled,
          {| Items := [merged]; calls := calls w2 ++ [CallStatusUpdate merged];
             ticks := 2 |})
     ∧ banzaiv1alpha1.State (banzaiv1alpha1.CurrentTask merged)
       = banzaiv1beta1.CruiseControlTaskCompletedWithError
     ∧ banzaiv1alpha1.ID (banzaiv1alpha1.CurrentTask merged) = "job-1"
     ∧ banzaiv1alpha1.ErrorMessage (banzaiv1alpha1.CurrentTask merged)
       = "engine error").
Proof.
  split.
  - intros env w w2.
    assert (Hselect : selectOperationForExecution (Now env (ticks w)) (Items w) oneWaiting
                      = (Some 0%nat, [newRebalance])) by (vm_compute; reflexivity).
    assert (Hvalid : (0 < length [newRebalance])%nat) by (cbn; lia).
    assert (Hexec : executeOperation env 0%nat
                      {| Items := [newRebalance]; calls := calls w; ticks := S (ticks w) |}
                    = (inr (None, Some (errors.New "invalid parameters")), w2))
      by (vm_compute; reflexivity).
    split; [exact Hselect|]. split; [exact Hvalid|]. split; [exact Hexec|].
    destruct (dispatch_error_handling env ready oneWaiting w 0%nat [newRebalance]
                None (errors.New "invalid parameters") w2
                Hselect Hvalid eq_refl Hexec) as (Hresult & Hitems & _).
    split; [exact Hresult|exact Hitems].
  - intros env w w2 merged.
    assert (Hselect : selectOperationForExecution (Now env (ticks w)) (Items w) oneWaiting
                      = (Some 0%nat, [newRebalance])) by (vm_compute; reflexivity).
    assert (Hvalid : (0 < length [newRebalance])%nat) by (cbn; lia).
    assert (Hexec : executeOperation env 0%nat
                      {| Items := [newRebalance]; calls := calls w; ticks := S (ticks w) |}
                    = (inr (Some (failure "job-1" epoch),
                            Some (errors.New "engine error")), w2))
      by (vm_compute; reflexivity).
    assert (Hmerge : updateResult (Parse env) (Now env (ticks w2))
                       (Some (failure "job-1" epoch)) ([newRebalance] !!! 0%nat) true
                     = (None, merged)) by (vm_compute; reflexivity).
    pose proof (dispatch_error_handling env ready oneWaiting w 0%nat [newRebalance]
                  (Some (failure "job-1" epoch)) (errors.New "engine error") w2
                  Hselect Hvalid eq_refl Hexec) as Hrecorded.
    cbv beta iota zeta in Hrecorded. rewrite Hmerge in Hrecorded.
    destruct Hrecorded as (_ & _ & Htaken & Hstate & Hid & Hmessage).
    split; [exact Hexec|]. split; [exact (Htaken eq_refl)|].
    split; [exact Hstate|]. split; [exact Hid|].
    exact (Hmessage (errors.New "engine error") eq_refl).
Defined.

Lemma unparsable_start_time_requeues_witness :
  let env := collaborators [newRebalance] None ready [] refusedDispatch in
  banzaiv1alpha1.Started (banzaiv1alpha1.CurrentTask newRebalance) = None
  ∧ Parse env RFC1123 (scale.StartedAt (failure "" "")) = None
  ∧ ∃ operation',
      updateResult (Parse env) 1001 (Some (failure "" "")) newRebalance true
      = (Some (errors.WrapIff (ParseError RFC1123 "")
                 "could not parse user task start time from Cruise Control API"),
         operation')
      ∧ banzaiv1alpha1.State (banzaiv1alpha1.CurrentTask operation')
        = banzaiv1beta1.CruiseControlTaskUnset.
Proof.
  intros env.
  assert (Hstarted : banzaiv1alpha1.Started (banzaiv1alpha1.CurrentTask newRebalance)
                     = None) by reflexivity.
  assert (Hparse : Parse env RFC1123 (scale.StartedAt (failure "" "")) = None)
    by (vm_compute; reflexivity).
  split; [exact Hstarted|]. split; [exact Hparse|].
  destruct (unparsable_start_time_requeues env 1001 (Some (failure "" "")) newRebalance
              Hstarted Hparse) as (operation' & Hmerge & Htask & _).
  exists operation'. split; [exact Hmerge|].
  destruct Htask as [-> | ->]; reflexivity.
Defined.

(** ** Passes of the design's scenarios *)

(** A failed rebalance past its backoff window is dispatched again: the pass
    archives the failed task, counts the retry and records the new job. *)
Example retry_archives_previous_failure :
  let env := collaborators [failedRebalance] None ready [failure "job-1" epoch]
               (accepted "job-2" banzaiv1beta1.CruiseControlTaskActive) in
  let '(result, w) := Reconcile env (requestFor "rebalance") startOfPass in
  let status := banzaiv1alpha1.Status (Items w !!! 0%nat) in
  result = reconciled
  ∧ banzaiv1alpha1.FailedTasks status = [banzaiv1alpha1.CurrentTask failedRebalance]
  ∧ banzaiv1alpha1.RetryCount status = 1
  ∧ banzaiv1alpha1.ID (banzaiv1alpha1.CurrentTask_ status) = "job-2"
  ∧ banzaiv1alpha1.State (banzaiv1alpha1.CurrentTask_ status)
    = banzaiv1beta1.CruiseControlTaskActive
  ∧ CallStatusUpdate (Items w !!! 0%nat) ∈ calls w.
Proof.
  vm_compute. repeat split. do 6 apply list_elem_of_further. apply list_elem_of_here.
Qed.

(** Scenario B: a rebalance that failed a few seconds ago goes to the retry
    bucket, and the pass requeues without a dispatch. *)
Example backoff_defers_retry :
  let items := [recentlyFailedRebalance] in
  let env := collaborators items None ready [failure "job-1" epoch]
               (accepted "job-2" banzaiv1beta1.CruiseControlTaskActive) in
  let '(result, w) := Reconcile env (requestFor "rebalance") startOfPass in
  queue (sortOperations items [0%nat]) ccOperationRetryExecution = [0%nat]
  ∧ result = requeueAfter 10
  ∧ Forall (λ c, ¬ isDispatch c) (calls w)
  ∧ Items w = items.
Proof. vm_compute. repeat split. repeat constructor; tauto. Qed.

(** A running rebalance that is marked for deletion is stopped, also while
    the engine is in execution: the pass hands a stop to the engine and the
    record takes the kind stop-execution. *)
Example stop_dispatched_while_engine_busy :
  let env := collaborators [runningRebalance (Some 500)] None busy
               [engineResult "job-1" epoch
                  banzaiv1beta1.CruiseControlTaskInExecution None]
               (accepted "job-3" banzaiv1beta1.CruiseControlTaskCompleted) in
  let '(result, w) := Reconcile env (requestFor "rebalance") startOfPass in
  result = reconciled
  ∧ CallStopExecution ∈ calls w
  ∧ banzaiv1alpha1.CurrentTaskOperation (Items w !!! 0%nat)
    = banzaiv1alpha1.OperationStopExecution
  ∧ controllerutil.ContainsFinalizer (Items w !!! 0%nat) ccOperationFinalizerGroup
    = true.
Proof.
  vm_compute. repeat split. do 5 apply list_elem_of_further. apply list_elem_of_here.
Qed.

(** * Further properties of the code *)

(** ** [updateResult] *)

Section MergeFacts.

Context (time_Parse : string → string → option Time).

(** X1: [updateResult] returns an error in one case only: the merge follows
    an execution, the start time is still to be recorded, because [Started]
    is unset or because the merge archives the task and resets it, and the
    start time of the result does not parse.  A poll never returns an
    error, and neither does a merge on a task that keeps its [Started]. *)
Theorem updateResult_error_iff now res operation isAfterExecution :
  let result := resultOrMissing res operation in
  let task := banzaiv1alpha1.CurrentTask operation in
  fst (updateResult time_Parse now res operation isAfterExecution) ≠ None
  ↔ isAfterExecution = true
    ∧ (banzaiv1alpha1.Started task = None
       ∨ archivesTask true result operation = true)
    ∧ time_Parse RFC1123 (scale.StartedAt result) = None.
Proof.
  intros result task. rewrite updateResult_run. fold result.
  destruct isAfterExecution; cbn zeta.
  2:{ cbn. split; [congruence|]. intros (? & _). discriminate. }
  unfold parseStarted. rewrite merged_CurrentTask.
  destruct (archivesTask true result operation) eqn:Harch.
  - cbn [banzaiv1alpha1.Started banzaiv1alpha1.SetDefaults].
    destruct (time_Parse RFC1123 (scale.StartedAt result)); cbn.
    + split; [congruence|]. intros (_ & _ & ?). discriminate.
    + split; [auto|]. intros _. discriminate.
  - rewrite markFinished_Started. fold task.
    destruct (banzaiv1alpha1.Started task) as [t|]; cbn.
    + split; [congruence|]. intros (_ & [?|?] & _); discriminate.
    + destruct (time_Parse RFC1123 (scale.StartedAt result)); cbn.
      * split; [congruence|]. intros (_ & _ & ?). discriminate.
      * split; [auto|]. intros _. discriminate.
Qed.

Lemma archivedBy_archivesTask m operation :
  archivedBy m operation
  = if archivesTask (isAfterExecution m) (resultOrMissing (res m) operation) operation
    then [banzaiv1alpha1.CurrentTask
            (markFinished (now m) (resultOrMissing (res m) operation) operation)]
    else [].
Proof. unfold archivedBy. rewrite isArchived_markFinished. reflexivity. Qed.

Lemma archivedBy_failedTask m operation :
  Forall failedTask (archivedBy m operation).
Proof.
  unfold archivedBy. destruct (isArchived _ _) eqn:Harch; [|constructor].
  unfold isArchived in Harch.
  apply andb_true_iff in Harch as [Harch Hstate].
  apply andb_true_iff in Harch as [_ Hfin].
  apply bool_decide_eq_true in Hstate, Hfin.
  constructor; [split; assumption|constructor].
Qed.

Lemma pushFailedTask_Forall (P : banzaiv1alpha1.CruiseControlTask → Prop) history task :
  Forall P history → P task → Forall P (pushFailedTask history task).
Proof.
  intros Hhistory Htask. unfold pushFailedTask. apply Forall_app. split.
  - destruct (bool_decide _); [|exact Hhistory].
    destruct Hhistory; [constructor|assumption].
  - constructor; [exact Htask|constructor].
Qed.

(** X2: the history holds failed tasks only.  Every snapshot that a merge
    archives is in state [CompletedWithError] with [Finished] set, so a
    history of such tasks is one after any run of merges. *)
Theorem FailedTasks_hold_failed_tasks ms operation :
  Forall failedTask (banzaiv1alpha1.FailedTasks (banzaiv1alpha1.Status operation)) →
  let '(final, archived) := updateResults time_Parse ms operation in
  Forall failedTask archived
  ∧ Forall failedTask (banzaiv1alpha1.FailedTasks (banzaiv1alpha1.Status final)).
Proof.
  revert operation. induction ms as [|m ms IH]; intros operation Hhistory.
  - cbn. split; [constructor|exact Hhistory].
  - cbn [updateResults].
    pose proof (updateResult_FailedTasks time_Parse m operation) as Hstep.
    destruct (updateResult time_Parse (now m) (res m) operation (isAfterExecution m))
      as [[err|] operation'].
    + by apply IH.
    + cbn [snd] in Hstep.
      assert (Hnext : Forall failedTask
                (banzaiv1alpha1.FailedTasks (banzaiv1alpha1.Status operation'))).
      { rewrite Hstep. clear Hstep.
        pose proof (archivedBy_failedTask m operation) as Hnew.
        revert Hhistory.
        generalize (banzaiv1alpha1.FailedTasks (banzaiv1alpha1.Status operation)).
        induction Hnew as [|t ts Ht Hts IHts]; intros history Hhistory; cbn;
          [exact Hhistory|].
        apply IHts. by apply pushFailedTask_Forall. }
      specialize (IH operation' Hnext).
      destruct (updateResults time_Parse ms operation') as [final archived].
      destruct IH as [Harchived Hfinal]. split; [|exact Hfinal].
      apply Forall_app. split; [apply archivedBy_failedTask|exact Harchived].
Qed.

Lemma updateResult_RetryCount m operation :
  banzaiv1alpha1.RetryCount
    (banzaiv1alpha1.Status
       (snd (updateResult time_Parse (now m) (res m) operation (isAfterExecution m))))
  = match archivedBy m operation with
    | [] => banzaiv1alpha1.RetryCount (banzaiv1alpha1.Status operation)
    | _ => wrapInt (banzaiv1alpha1.RetryCount (banzaiv1alpha1.Status operation) + 1)
    end.
Proof.
  rewrite updateResult_run. cbn zeta. unfold archivedBy.
  set (result := resultOrMissing (res m) operation).
  set (marked := markFinished (now m) result operation).
  assert (Hmarked : banzaiv1alpha1.RetryCount (banzaiv1alpha1.Status marked)
                    = banzaiv1alpha1.RetryCount (banzaiv1alpha1.Status operation)).
  { unfold marked, markFinished. destruct (_ && _); reflexivity. }
  unfold archiveFailedTask, appendFailedTask.
  change (isArchived (isAfterExecution m)
            (banzaiv1alpha1.setStatusErrorPolicy
               (banzaiv1alpha1.ErrorPolicy (banzaiv1alpha1.Spec operation)) marked))
    with (isArchived (isAfterExecution m) marked).
  destruct (isArchived (isAfterExecution m) marked);
    destruct (isAfterExecution m); unfold parseStarted;
    repeat match goal with
           | |- context [bool_decide ?P] => destruct (bool_decide P)
           | |- context [match banzaiv1alpha1.Started ?t with _ => _ end] =>
               destruct (banzaiv1alpha1.Started t)
           | |- context [time_Parse ?l ?v] => destruct (time_Parse l v)
           end;
    unfold recordExecution; try destruct (scale.Err result);
    cbn; rewrite ?Hmarked; reflexivity.
Qed.

(** X3: the retry counter counts the archived failures.  Short of the
    overflow of Go's [int], after any run of merges [RetryCount] has grown
    by the number of snapshots that were appended to the history, which is
    at most one a merge. *)
Theorem RetryCount_counts_archived ms operation :
  - 2 ^ 63 ≤ banzaiv1alpha1.RetryCount (banzaiv1alpha1.Status operation) →
  let '(final, archived) := updateResults time_Parse ms operation in
  (length archived ≤ length ms)%nat
  ∧ (banzaiv1alpha1.RetryCount (banzaiv1alpha1.Status operation)
     + Z.of_nat (length archived) < 2 ^ 63 →
     banzaiv1alpha1.RetryCount (banzaiv1alpha1.Status final)
     = banzaiv1alpha1.RetryCount (banzaiv1alpha1.Status operation)
       + Z.of_nat (length archived)).
Proof.
  revert operation. induction ms as [|m ms IH]; intros operation Hlow.
  - cbn. split; [lia|]. intros _. lia.
  - cbn [updateResults].
    pose proof (updateResult_RetryCount m operation) as Hstep.
    pose proof (archivedBy_length m operation) as Hone.
    destruct (updateResult time_Parse (now m) (res m) operation (isAfterExecution m))
      as [[err|] operation'].
    + specialize (IH operation Hlow).
      destruct (updateResults time_Parse ms operation) as [final archived].
      destruct IH as [Hlen Hcount]. split; [cbn; lia|exact Hcount].
    + cbn [snd] in Hstep.
      destruct (archivedBy m operation) as [|t ts] eqn:Harch.
      * rewrite <- Hstep in Hlow. specialize (IH operation' Hlow).
        destruct (updateResults time_Parse ms operation') as [final archived].
        destruct IH as [Hlen Hcount]. cbn [app].
        split; [cbn; lia|]. rewrite <- Hstep. exact Hcount.
      * destruct ts; [|cbn in Hone; lia].
        destruct (decide (banzaiv1alpha1.RetryCount (banzaiv1alpha1.Status operation) + 1
                          < 2 ^ 63)) as [Hfits|Hover].
        -- rewrite wrapInt_small in Hstep by lia.
           assert (Hlow' : - 2 ^ 63
                           ≤ banzaiv1alpha1.RetryCount (banzaiv1alpha1.Status operation'))
             by lia.
           specialize (IH operation' Hlow').
           destruct (updateResults time_Parse ms operation') as [final archived].
           destruct IH as [Hlen Hcount]. cbn [app length].
           split; [lia|]. intros Hroom. rewrite Hcount; lia.
        -- destruct (updateResults time_Parse ms operation') as [final archived] eqn:Hrest.
           cbn [app length]. split; [|lia].
           enough ((length archived ≤ length ms)%nat) by lia.
           clear -Hrest. revert operation' final archived Hrest.
           induction ms as [|m' ms' IH']; intros o final archived Hrest.
           ++ cbn in Hrest. injection Hrest as _ <-. cbn. lia.
           ++ cbn [updateResults] in Hrest.
              pose proof (archivedBy_length m' o) as Hone'.
              destruct (updateResult time_Parse (now m') (res m') o (isAfterExecution m'))
                as [[err|] o'].
              ** specialize (IH' _ _ _ Hrest). cbn. lia.
              ** destruct (updateResults time_Parse ms' o') as [f a] eqn:Hrest'.
                 injection Hrest as _ <-. specialize (IH' _ _ _ Hrest').
                 rewrite length_app. cbn. lia.
Qed.

(** X4: a merge touches the status only.  The metadata and the spec of the
    record are as before, whether the merge returns an error or not, and
    the error policy of the status is the one of the spec. *)
Theorem updateResult_touches_status_only now res operation isAfterExecution :
  let operation' := snd (updateResult time_Parse now res operation isAfterExecution) in
  banzaiv1alpha1.Meta operation' = banzaiv1alpha1.Meta operation
  ∧ banzaiv1alpha1.Spec operation' = banzaiv1alpha1.Spec operation
  ∧ banzaiv1alpha1.StatusErrorPolicy (banzaiv1alpha1.Status operation')
    = banzaiv1alpha1.ErrorPolicy (banzaiv1alpha1.Spec operation).
Proof.
  rewrite updateResult_run. cbn zeta.
  set (result := resultOrMissing res operation).
  set (marked := markFinished now result operation).
  assert (Hmarked : banzaiv1alpha1.Meta marked = banzaiv1alpha1.Meta operation
                    ∧ banzaiv1alpha1.Spec marked = banzaiv1alpha1.Spec operation).
  { unfold marked, markFinished. destruct (_ && _); split; reflexivity. }
  destruct Hmarked as [Hmeta Hspec].
  unfold archiveFailedTask, appendFailedTask.
  destruct (isArchived _ _);
    destruct isAfterExecution; unfold parseStarted;
    repeat match goal with
           | |- context [bool_decide ?P] => destruct (bool_decide P)
           | |- context [match banzaiv1alpha1.Started ?t with _ => _ end] =>
               destruct (banzaiv1alpha1.Started t)
           | |- context [time_Parse ?l ?v] => destruct (time_Parse l v)
           end;
    unfold recordExecution; try destruct (scale.Err result);
    cbn; rewrite ?Hmeta, ?Hspec; auto.
Qed.

Lemma resultStartedAt_resultOrMissing m operation :
  scale.StartedAt (resultOrMissing (res m) operation) = resultStartedAt m.
Proof. unfold resultStartedAt, resultOrMissing. destruct (res m); reflexivity. Qed.

(** One merge that is written to the store and archives nothing. *)
Lemma updateResult_Started_step m operation operation' :
  updateResult time_Parse (now m) (res m) operation (isAfterExecution m)
  = (None, operation') →
  archivedBy m operation = [] →
  banzaiv1alpha1.Started (banzaiv1alpha1.CurrentTask operation')
  = match banzaiv1alpha1.Started (banzaiv1alpha1.CurrentTask operation) with
    | Some t => Some t
    | None =>
        if isAfterExecution m then time_Parse RFC1123 (resultStartedAt m) else None
    end.
Proof.
  rewrite updateResult_run, archivedBy_archivesTask. cbn zeta.
  rewrite <- (resultStartedAt_resultOrMissing m operation).
  set (result := resultOrMissing (res m) operation).
  destruct (archivesTask _ _ _) eqn:Harch; [discriminate|]. intros Hrun _.
  pose proof (merged_CurrentTask (now m) result operation (isAfterExecution m)
                (banzaiv1alpha1.ErrorPolicy (banzaiv1alpha1.Spec operation))) as Htask.
  rewrite Harch in Htask.
  apply (f_equal banzaiv1alpha1.Started) in Htask.
  rewrite markFinished_Started in Htask.
  set (merged := archiveFailedTask _ _) in *. clearbody merged.
  destruct (isAfterExecution m).
  - unfold parseStarted in Hrun. rewrite Htask in Hrun.
    destruct (banzaiv1alpha1.Started (banzaiv1alpha1.CurrentTask operation)) as [t|].
    + injection Hrun as <-. unfold recordExecution.
      destruct (scale.Err result); cbn; exact Htask.
    + destruct (time_Parse RFC1123 (scale.StartedAt result)) as [t|]; [|discriminate].
      injection Hrun as <-. unfold recordExecution.
      destruct (scale.Err result); reflexivity.
  - injection Hrun as <-. cbn.
    destruct (banzaiv1alpha1.Started (banzaiv1alpha1.CurrentTask operation));
      exact Htask.
Qed.

(** X5: [Started] is set once per attempt.  Over any run of merges in which
    the task is not archived, a [Started] that is set stays as it is, and one
    that is unset is at the end unset or the parsed start time of a result
    that was merged after an execution; a poll never sets it. *)
Theorem Started_set_once ms operation :
  snd (updateResults time_Parse ms operation) = [] →
  let final := fst (updateResults time_Parse ms operation) in
  match banzaiv1alpha1.Started (banzaiv1alpha1.CurrentTask operation) with
  | Some t => banzaiv1alpha1.Started (banzaiv1alpha1.CurrentTask final) = Some t
  | None =>
      banzaiv1alpha1.Started (banzaiv1alpha1.CurrentTask final) = None
      ∨ ∃ m t, m ∈ ms
               ∧ isAfterExecution m = true
               ∧ time_Parse RFC1123 (resultStartedAt m) = Some t
               ∧ banzaiv1alpha1.Started (banzaiv1alpha1.CurrentTask final) = Some t
  end.
Proof.
  revert operation. induction ms as [|m ms IH]; intros operation Hnone.
  - cbn. destruct (banzaiv1alpha1.Started _); auto.
  - cbn [updateResults] in *.
    destruct (updateResult time_Parse (now m) (res m) operation (isAfterExecution m))
      as [[err|] operation'] eqn:Hrun.
    + specialize (IH operation Hnone). cbn zeta in *.
      destruct (banzaiv1alpha1.Started (banzaiv1alpha1.CurrentTask operation));
        [exact IH|].
      destruct IH as [IH|(m' & t & Hin & Hafter & Hparse & Hstarted)]; [by left|].
      right. exists m', t. split; [by apply list_elem_of_further|done].
    + destruct (updateResults time_Parse ms operation') as [final archived] eqn:Hrest.
      cbn [fst snd] in *.
      apply app_eq_nil in Hnone as [Hm Harch].
      pose proof (updateResult_Started_step m operation operation' Hrun Hm) as Hstep.
      specialize (IH operation'). rewrite Hrest in IH. cbn [fst snd] in IH.
      specialize (IH Harch). rewrite Hstep in IH.
      destruct (banzaiv1alpha1.Started (banzaiv1alpha1.CurrentTask operation));
        [exact IH|].
      destruct (isAfterExecution m) eqn:Hafter.
      * destruct (time_Parse RFC1123 (resultStartedAt m)) as [t|] eqn:Hparse.
        -- right. exists m, t. split; [by apply list_elem_of_here|done].
        -- destruct IH as [IH|(m' & t & Hin & Hafter' & Hparse' & Hstarted)];
             [by left|].
           right. exists m', t. split; [by apply list_elem_of_further|done].
      * destruct IH as [IH|(m' & t & Hin & Hafter' & Hparse' & Hstarted)]; [by left|].
        right. exists m', t. split; [by apply list_elem_of_further|done].
Qed.

End MergeFacts.

(** ** [sortOperations] and [selectOperationForExecution] *)

Section StableSortFacts.

Context {A B : Type} `{EqDecision B} (less : A → A → bool) (key : A → B).

Hypothesis less_key : ∀ x y, less y x = true → key y ≠ key x.

Lemma insertStable_filter k x l :
  filter (λ y, key y = k) (insertStable less x l) = filter (λ y, key y = k) (x :: l).
Proof.
  induction l as [|y l IH]; cbn [insertStable]; [reflexivity|].
  destruct (less y x) eqn:Hless; [|reflexivity].
  apply less_key in Hless.
  rewrite filter_cons, IH, !filter_cons.
  repeat case_decide; congruence.
Qed.

Lemma SliceStable_filter k l :
  filter (λ y, key y = k) (SliceStable less l) = filter (λ y, key y = k) l.
Proof.
  induction l as [|x l IH]; [reflexivity|].
  cbn [SliceStable foldr]. rewrite insertStable_filter, !filter_cons.
  unfold SliceStable in IH. rewrite IH. reflexivity.
Qed.

End StableSortFacts.

Section SelectorFacts.

Context {api : OperationAPI}.

Lemma lessOperation_sortKey a b : lessOperation b a = true → sortKey b ≠ sortKey a.
Proof.
  unfold lessOperation, sortKey. intros Hless Hkey.
  injection Hkey as Hpriority Hcreated.
  apply orb_true_iff in Hless as [Hgt|Heq].
  - apply bool_decide_eq_true in Hgt. lia.
  - apply andb_true_iff in Heq as [_ Hlt]. apply bool_decide_eq_true in Hlt. lia.
Qed.

Lemma bucketOf_keys ccOperation key :
  bucketOf ccOperation = Some key →
  key ∈ [ccOperationForStopExecution; ccOperationFirstExecution;
         ccOperationRetryExecution; ccOperationInProgress].
Proof.
  unfold bucketOf.
  destruct (isWaitingForFinalization _); [intros [= <-]; apply list_elem_of_here|].
  destruct (IsWaitingForFirstExecution _);
    [intros [= <-]; apply list_elem_of_further, list_elem_of_here|].
  destruct (IsWaitingForRetryExecution _);
    [intros [= <-]; do 2 apply list_elem_of_further; apply list_elem_of_here|].
  destruct (IsInProgress _); [|discriminate].
  intros [= <-]. do 3 apply list_elem_of_further. apply list_elem_of_here.
Qed.

(** X6: the buckets partition the classified records.  A record that is
    in a bucket was given to [sortOperations], the key of the bucket is one
    of the four of the controller, the record is in no other bucket, and
    the bucket is the one of stop executions exactly when the record waits
    for finalization, whatever the other predicates say of it. *)
Theorem sortOperations_buckets_disjoint items ccOperations ccOperation key :
  ccOperation ∈ queue (sortOperations items ccOperations) key →
  ccOperation ∈ ccOperations
  ∧ key ∈ [ccOperationForStopExecution; ccOperationFirstExecution;
           ccOperationRetryExecution; ccOperationInProgress]
  ∧ (∀ key', ccOperation ∈ queue (sortOperations items ccOperations) key' → key' = key)
  ∧ (key = ccOperationForStopExecution
     ↔ isWaitingForFinalization (items !!! ccOperation) = true).
Proof.
  assert (Hin : ∀ k, ccOperation ∈ queue (sortOperations items ccOperations) k
                     ↔ ccOperation ∈ ccOperations
                       ∧ bucketOf (items !!! ccOperation) = Some k).
  { intros k. rewrite sortOperations_queue, SliceStable_Permutation.
    rewrite list_elem_of_filter. tauto. }
  intros [Hgiven Hbucket]%Hin. split; [exact Hgiven|].
  split; [by eapply bucketOf_keys|]. split.
  - intros key' [_ Hbucket']%Hin. congruence.
  - revert Hbucket. unfold bucketOf.
    destruct (isWaitingForFinalization _).
    + intros [= <-]. done.
    + destruct (IsWaitingForFirstExecution _); [intros [= <-]; split; discriminate|].
      destruct (IsWaitingForRetryExecution _); [intros [= <-]; split; discriminate|].
      destruct (IsInProgress _); [intros [= <-]; split; discriminate|discriminate].
Qed.

(** X7: the sort of a bucket is stable.  Records of the same priority that
    were created in the same second are in the bucket in the order in which
    [sortOperations] was given them. *)
Theorem sortOperations_stable items ccOperations key k :
  filter (λ p, sortKey (items !!! p) = k) (queue (sortOperations items ccOperations) key)
  = filter (λ p, sortKey (items !!! p) = k)
      (filter (λ p, bucketOf (items !!! p) = Some key) ccOperations).
Proof.
  rewrite sortOperations_queue.
  apply (SliceStable_filter _ (λ p, sortKey (items !!! p))).
  intros x y. apply lessOperation_sortKey.
Qed.

(** X8: when the selector returns nothing.  No record waits for the stop of
    its task, the head of the first executions is not an add-broker
    request, and either the head of the retries is not ready, in which case
    the first executions behind it wait with it, or both buckets are
    empty. *)
Theorem selectOperationForExecution_none_iff now items ccOperationQueueMap :
  let first := queue ccOperationQueueMap ccOperationFirstExecution in
  let retries := queue ccOperationQueueMap ccOperationRetryExecution in
  fst (selectOperationForExecution now items ccOperationQueueMap) = None
  ↔ queue ccOperationQueueMap ccOperationForStopExecution = []
    ∧ (banzaiv1alpha1.CurrentTaskOperation <$> ((items !!!.) <$> head first)
       ≠ Some banzaiv1alpha1.OperationAddBroker)
    ∧ match head retries with
      | Some retry => IsReadyForRetryExecution now (items !!! retry) = false
      | None => first = []
      end.
Proof.
  intros first retries. unfold selectOperationForExecution. fold first retries.
  destruct (queue ccOperationQueueMap ccOperationForStopExecution) as [|stop stops].
  2:{ cbn. split; [discriminate|]. intros (? & _). discriminate. }
  destruct first as [|f fs]; cbn.
  - destruct retries as [|r rs]; cbn.
    + split; [intros _; repeat split; discriminate|done].
    + destruct (IsReadyForRetryExecution now (items !!! r)); cbn.
      * split; [discriminate|]. intros (_ & _ & ?). discriminate.
      * split; [intros _; repeat split; discriminate|done].
  - case_bool_decide as Hadd; cbn.
    + split; [discriminate|]. intros (_ & Hnot & _). by rewrite Hadd in Hnot.
    + destruct retries as [|r rs]; cbn.
      * split; [discriminate|]. intros (_ & _ & ?). discriminate.
      * destruct (IsReadyForRetryExecution now (items !!! r)); cbn.
        -- split; [discriminate|]. intros (_ & _ & ?). discriminate.
        -- split; [|done]. intros _. repeat split; congruence.
Qed.

(** X9: the order of precedence below the stop executions.  With no record
    to stop and a retry that is ready, the selector returns the head of the
    first executions if that is an add-broker request and the head of the
    retries otherwise, so a ready retry goes before every other first
    execution; the store is as before. *)
Theorem selectOperationForExecution_retry_precedence now items ccOperationQueueMap
  retry retries :
  queue ccOperationQueueMap ccOperationForStopExecution = [] →
  queue ccOperationQueueMap ccOperationRetryExecution = retry :: retries →
  IsReadyForRetryExecution now (items !!! retry) = true →
  selectOperationForExecution now items ccOperationQueueMap
  = (match head (queue ccOperationQueueMap ccOperationFirstExecution) with
     | Some first =>
         if bool_decide (banzaiv1alpha1.CurrentTaskOperation (items !!! first)
                         = banzaiv1alpha1.OperationAddBroker)
         then Some first else Some retry
     | None => Some retry
     end, items).
Proof.
  intros Hstop Hretry Hready. unfold selectOperationForExecution.
  rewrite Hstop, Hretry, Hready.
  destruct (queue ccOperationQueueMap ccOperationFirstExecution) as [|f fs]; cbn;
    [reflexivity|].
  case_bool_decide; reflexivity.
Qed.

End SelectorFacts.

(** ** The reconciliation pass *)

(** Split the answer of the engine to the dispatch at the head of the goal. *)
Ltac destruct_dispatch_answer :=
  match goal with
  | |- context [AddBrokersWithParams ?e ?cs ?ps] =>
      destruct (AddBrokersWithParams e cs ps) as [[?res|] [?err|]]
  | |- context [RemoveBrokersWithParams ?e ?cs ?ps] =>
      destruct (RemoveBrokersWithParams e cs ps) as [[?res|] [?err|]]
  | |- context [RebalanceWithParams ?e ?cs ?ps] =>
      destruct (RebalanceWithParams e cs ps) as [[?res|] [?err|]]
  | |- context [StopExecution ?e ?cs] =>
      destruct (StopExecution e cs) as [[?res|] [?err|]]
  end.

Section PassMore.

Context {api : OperationAPI} (env : Collaborators).

(** X10: a stop goes to the engine whatever the engine does.  When the
    stop bucket is not empty, the first call from the selection on is the
    stop of the execution: neither an engine in execution nor a record in
    progress holds it back. *)
Theorem stop_bypasses_busy_check status ccOperationQueueMap w ccOperationExecution rest :
  queue ccOperationQueueMap ccOperationForStopExecution = ccOperationExecution :: rest →
  (ccOperationExecution < length (Items w))%nat →
  ∃ later,
    calls (snd (dispatchSelected env status ccOperationQueueMap w))
    = calls w ++ CallStopExecution :: later.
Proof.
  intros Hstop Hvalid.
  assert (Hread :
    banzaiv1alpha1.CurrentTaskOperation
      (alter (banzaiv1alpha1.withTask
                (banzaiv1alpha1.setOperation banzaiv1alpha1.OperationStopExecution))
         ccOperationExecution (Items w) !!! ccOperationExecution)
    = banzaiv1alpha1.OperationStopExecution).
  { rewrite list_lookup_total_alter, decide_True by done. reflexivity. }
  unfold dispatchSelected, selectOperationForExecution. rewrite Hstop.
  pass_run. rewrite Hread.
  rewrite (bool_decide_eq_false_2
             (banzaiv1alpha1.OperationStopExecution
              ≠ banzaiv1alpha1.OperationStopExecution)) by (intros H; by apply H).
  rewrite andb_false_r.
  unfold executeOperation. pass_run. rewrite Hread. pass_run.
  destruct (StopExecution env (calls w)) as [res err].
  assert (Hmerge : ∀ w1, calls w1 = calls w ++ [CallStopExecution] →
    ∃ later, calls (snd (mergeExecutionResult env res ccOperationExecution w1))
             = calls w ++ CallStopExecution :: later).
  { intros w1 Hw1.
    assert (Hemits : emits (λ _, True) (mergeExecutionResult env res ccOperationExecution)).
    { unfold mergeExecutionResult. apply emits_bind; [|intros ?; emits_auto].
      by apply emits_RetryOnConflict, emits_conflictRetryFunction. }
    destruct (Hemits w1) as (new & Hnew & _). exists new.
    rewrite Hnew, Hw1, <- app_assoc. reflexivity. }
  destruct err as [err|], res as [res|]; try (apply Hmerge; reflexivity).
  pass_run. exists []. reflexivity.
Qed.

(** X11: a refused status write is not made again when the record can be
    read again.  When the store refuses the write of the merged status as a
    conflict and then hands out the record, [conflictRetryFunction] returns
    the nil error of the read: the retry ends, the pass is reconciled, the
    refused write is the only one, and the record in memory is the one that
    was read, which knows nothing of the result of the dispatch. *)
Theorem conflict_then_read_drops_result cruseControlTaskResult ccOperationExecution w
  merged err fresh :
  let key := {| client.Name := banzaiv1alpha1.GetName merged;
                client.Namespace := banzaiv1alpha1.GetNamespace merged |} in
  (ccOperationExecution < length (Items w))%nat →
  updateResult (Parse env) (Now env (ticks w)) cruseControlTaskResult
    (Items w !!! ccOperationExecution) true = (None, merged) →
  StatusUpdate env (calls w) merged = Some err →
  apiErrors.IsConflict err = true →
  Get env (calls w ++ [CallStatusUpdate merged]) key = inr fresh →
  mergeExecutionResult env cruseControlTaskResult ccOperationExecution w
  = (inr reconciled,
     {| Items := <[ccOperationExecution := fresh]> (Items w);
        calls := calls w ++ [CallStatusUpdate merged; CallGet key];
        ticks := S (ticks w) |}).
Proof.
  intros key Hvalid Hmerge Hwrite Hconflict Hread.
  unfold mergeExecutionResult. rewrite bind_run, RetryOnConflict_run.
  unfold conflictRetryFunction at 1.
  unfold r_Status_Update, load, store, time_Now, call.
  rewrite !bind_run. cbn -[updateResult]. rewrite Hmerge.
  rewrite !bind_run. cbn.
  rewrite list_lookup_total_insert_eq by exact Hvalid.
  rewrite Hwrite. cbn. rewrite Hconflict. rewrite ?bind_run. cbn.
  fold key. rewrite Hread. rewrite ?bind_run. cbn.
  rewrite list_insert_insert_eq, <- app_assoc. reflexivity.
Qed.

(** X12: [addFinalizer] puts the guard on once.  A record that is marked
    for deletion is left alone; any other record carries the guard
    afterwards; and a second call changes nothing and writes nothing,
    whatever the store answered to the first. *)
Theorem addFinalizer_idempotent currentCCOperation w :
  (currentCCOperation < length (Items w))%nat →
  let w1 := snd (addFinalizer env currentCCOperation w) in
  (isMarkedForDeletion (Items w !!! currentCCOperation) = true → w1 = w)
  ∧ (isMarkedForDeletion (Items w !!! currentCCOperation) = false →
     controllerutil.ContainsFinalizer (Items w1 !!! currentCCOperation)
       ccOperationFinalizerGroup = true)
  ∧ (∀ written, CallUpdate written ∈ calls w1 → CallUpdate written ∉ calls w →
     written = controllerutil.AddFinalizer ccOperationFinalizerGroup
                 (Items w !!! currentCCOperation)
     ∧ controllerutil.ContainsFinalizer (Items w !!! currentCCOperation)
         ccOperationFinalizerGroup = false)
  ∧ snd (addFinalizer env currentCCOperation w1) = w1.
Proof.
  intros Hvalid. cbn zeta. unfold addFinalizer. pass_run.
  destruct (isMarkedForDeletion (Items w !!! currentCCOperation)) eqn:Hmarked.
  { pass_run. rewrite Hmarked. pass_run.
    repeat split; try done; intros written Hin Hout; by destruct Hout. }
  destruct (controllerutil.ContainsFinalizer (Items w !!! currentCCOperation)
              ccOperationFinalizerGroup) eqn:Hguard.
  { pass_run. rewrite Hmarked, Hguard. pass_run.
    repeat split; try done; intros written Hin Hout; by destruct Hout. }
  unfold r_Update. pass_run.
  rewrite !list_lookup_total_insert_eq by exact Hvalid.
  assert (Hmarked' : isMarkedForDeletion
            (controllerutil.AddFinalizer ccOperationFinalizerGroup
               (Items w !!! currentCCOperation)) = false).
  { unfold controllerutil.AddFinalizer. rewrite Hguard. exact Hmarked. }
  rewrite Hmarked', ContainsFinalizer_AddFinalizer. pass_run.
  split; [discriminate|]. split; [reflexivity|]. split; [|reflexivity].
  intros written Hin Hout. apply elem_of_app in Hin as [Hin|Hin]; [by destruct Hout|].
  apply list_elem_of_singleton in Hin. injection Hin as ->. done.
Qed.

(** *** Polling *)

Lemma samePolled_refl o : samePolled o o.
Proof.
  unfold samePolled. repeat split.
  destruct o as [meta spec [[] policy count failed]]. reflexivity.
Qed.

Lemma samePolled_trans o1 o2 o3 : samePolled o1 o2 → samePolled o2 o3 → samePolled o1 o3.
Proof.
  unfold samePolled. intros (-> & -> & -> & -> & H12) (-> & -> & -> & -> & H23).
  repeat split.
  destruct o1 as [meta1 spec1 [[] policy1 count1 failed1]].
  destruct o2 as [meta2 spec2 [[] policy2 count2 failed2]].
  destruct o3 as [meta3 spec3 [[] policy3 count3 failed3]].
  cbn in *. unfold banzaiv1alpha1.setFinished, banzaiv1alpha1.setState in *.
  cbn in *. congruence.
Qed.

Lemma updateResult_poll_samePolled now res o :
  samePolled o (snd (updateResult (Parse env) now res o false)).
Proof.
  rewrite updateResult_run. cbn zeta.
  unfold archiveFailedTask, isArchived, markFinished, samePolled.
  destruct o as [meta spec [[] policy count failed]]. cbn.
  destruct (_ && _); cbn; repeat split.
Qed.

(** The merges of a poll leave every record as a poll may, and leave alone
    the records that are not polled. *)
Lemma mergeUserTasks_frame taskResultsByID ccOperations w p :
  let w' := snd (mergeUserTasks env taskResultsByID ccOperations w) in
  samePolled (Items w !!! p) (Items w' !!! p)
  ∧ (p ∉ ccOperations
     ∨ banzaiv1alpha1.CurrentTaskID (Items w !!! p) = ""
     ∨ IsDone (Items w !!! p) = true →
     Items w' !!! p = Items w !!! p).
Proof.
  revert w. induction ccOperations as [|q qs IH]; intros w; cbn zeta.
  - cbn. split; [apply samePolled_refl|done].
  - cbn [mergeUserTasks]. rewrite bind_run. cbn [load].
    destruct (bool_decide (banzaiv1alpha1.CurrentTaskID (Items w !!! q) ≠ "")
              && negb (IsDone (Items w !!! q))) eqn:Hpolled.
    2:{ destruct (IH w) as [Hsame Hskip]. split; [exact Hsame|].
        intros Hcond. apply Hskip.
        destruct Hcond as [Hout|Hcond]; [|by right].
        left. intros Hin. apply Hout. by apply list_elem_of_further. }
    apply andb_true_iff in Hpolled as [Hid Hdone].
    apply bool_decide_eq_true in Hid. apply negb_true_iff in Hdone.
    rewrite bind_run. cbn [time_Now].
    pose proof (updateResult_poll_samePolled (Now env (ticks w))
                  (taskResultsByID !! banzaiv1alpha1.CurrentTaskID (Items w !!! q))
                  (Items w !!! q)) as Hstep.
    destruct (updateResult _ _ _ _ _) as [err o']. cbn [snd] in Hstep.
    rewrite bind_run. cbn [store].
    assert (Hstored :
      samePolled (Items w !!! p) (<[q:=o']> (Items w) !!! p)
      ∧ (p ∉ q :: qs
         ∨ banzaiv1alpha1.CurrentTaskID (Items w !!! p) = ""
         ∨ IsDone (Items w !!! p) = true →
         <[q:=o']> (Items w) !!! p = Items w !!! p)).
    { rewrite list_lookup_total_insert. case_decide as Hq.
      - destruct Hq as [-> _]. split; [exact Hstep|].
        intros [Hout|[Hempty|Hdone']]; [|congruence..].
        destruct Hout. apply list_elem_of_here.
      - split; [apply samePolled_refl|done]. }
    destruct Hstored as [Hsame Hskip].
    destruct err as [err|]; [cbn; by split|].
    match goal with
    | |- context [mergeUserTasks env _ qs ?w1] => destruct (IH w1) as [Hsame' Hskip']
    end.
    cbn [Items] in Hsame', Hskip'. split.
    + eapply samePolled_trans; [exact Hsame|exact Hsame'].
    + intros Hcond. rewrite <- (Hskip Hcond). apply Hskip'.
      rewrite (Hskip Hcond).
      destruct Hcond as [Hout|Hcond]; [|by right].
      left. intros Hin. apply Hout. by apply list_elem_of_further.
Qed.

(** The records whose status a poll writes: those that changed. *)
Lemma writeChangedStatuses_written ccOperations ccOperationsCopy w :
  let w' := snd (writeChangedStatuses env ccOperations ccOperationsCopy w) in
  Items w' = Items w
  ∧ ∃ writes,
      calls w' = calls w ++ writes
      ∧ ∀ c, c ∈ writes →
          ∃ p copy, (p, copy) ∈ zip ccOperations ccOperationsCopy
                    ∧ c = CallStatusUpdate (Items w !!! p)
                    ∧ banzaiv1alpha1.Status (Items w !!! p) ≠ banzaiv1alpha1.Status copy.
Proof.
  revert ccOperationsCopy w.
  induction ccOperations as [|p ps IH]; intros [|copy copies] w; cbn zeta;
    try (cbn; split; [reflexivity|]; exists []; split;
         [by rewrite app_nil_r|]; intros c Hc; by apply elem_of_nil in Hc).
  cbn [writeChangedStatuses]. rewrite bind_run. cbn [load].
  case_bool_decide as Hchanged.
  2:{ destruct (IH copies w) as (Hitems & writes & Hcalls & Hwrites).
      split; [exact Hitems|]. exists writes. split; [exact Hcalls|].
      intros c Hc. destruct (Hwrites c Hc) as (p' & copy' & Hzip & Hrest).
      exists p', copy'. split; [|exact Hrest]. cbn. by apply list_elem_of_further. }
  unfold r_Status_Update. rewrite !bind_run. cbn [load call].
  match goal with
  | |- context [StatusUpdate env ?cs ?o] => destruct (StatusUpdate env cs o)
  end.
  - cbn. split; [reflexivity|]. eexists [_]. split; [reflexivity|].
    intros c Hc. apply list_elem_of_singleton in Hc as ->.
    exists p, copy. split; [apply list_elem_of_here|done].
  - match goal with
    | |- context [writeChangedStatuses env ps copies ?w1] =>
        destruct (IH copies w1) as (Hitems & writes & Hcalls & Hwrites)
    end.
    cbn [Items calls] in Hitems, Hcalls, Hwrites.
    split; [exact Hitems|]. eexists (_ :: writes). split.
    { rewrite Hcalls, <- app_assoc. reflexivity. }
    intros c Hc. apply elem_of_cons in Hc as [->|Hc].
    + exists p, copy. split; [apply list_elem_of_here|done].
    + destruct (Hwrites c Hc) as (p' & copy' & Hzip & Hrest).
      exists p', copy'. split; [|exact Hrest]. cbn. by apply list_elem_of_further.
Qed.

Lemma elem_of_zip_map {A B} (f : A → B) (l : list A) x y :
  (x, y) ∈ zip l (map f l) → x ∈ l ∧ y = f x.
Proof.
  induction l as [|a l IH]; cbn; [by intros ?%elem_of_nil|].
  intros [[= -> ->]|Hin]%elem_of_cons.
  - split; [apply list_elem_of_here|reflexivity].
  - destruct (IH Hin) as [Hx Hy]. split; [by apply list_elem_of_further|exact Hy].
Qed.

(** X13: what a poll asks and writes.  [updateCurrentTasks] asks the engine
    once, for the job IDs of the records that have one, and then writes
    statuses only: each write is of a record it was given, as the merge left
    it in memory, whose status is not the one it had before the poll.  When
    the engine does not answer, nothing is merged and nothing written. *)
Theorem updateCurrentTasks_writes_changed_statuses ccOperations w :
  let userTaskIDs :=
    filter (λ id, id ≠ "")
      (map (λ p, banzaiv1alpha1.CurrentTaskID (Items w !!! p)) ccOperations) in
  let w' := snd (updateCurrentTasks env ccOperations w) in
  ∃ writes,
    calls w' = calls w ++ CallUserTasks userTaskIDs :: writes
    ∧ (∀ c, c ∈ writes →
         ∃ p, p ∈ ccOperations
              ∧ c = CallStatusUpdate (Items w' !!! p)
              ∧ banzaiv1alpha1.Status (Items w' !!! p)
                ≠ banzaiv1alpha1.Status (Items w !!! p))
    ∧ (∀ err, UserTasks env (calls w) userTaskIDs = inl err →
         writes = [] ∧ Items w' = Items w).
Proof.
  cbn zeta. unfold updateCurrentTasks. pass_run.
  destruct (UserTasks env _ _) as [err|tasks].
  - pass_run. exists []. split; [reflexivity|].
    split; [intros c Hc; by apply elem_of_nil in Hc|done].
  - pass_run.
    match goal with
    | |- context [mergeUserTasks env ?tbl ccOperations ?w1] =>
        pose proof (mergeUserTasks_world env tbl ccOperations w1) as (Hcalls & _);
        destruct (mergeUserTasks env tbl ccOperations w1) as [[result|[err|]] w2]
    end; cbn in Hcalls |- *.
    + exists []. split; [exact Hcalls|].
      split; [intros c Hc; by apply elem_of_nil in Hc|discriminate].
    + exists []. split; [exact Hcalls|].
      split; [intros c Hc; by apply elem_of_nil in Hc|discriminate].
    + match goal with
      | |- context [writeChangedStatuses env ccOperations ?copies w2] =>
          pose proof (writeChangedStatuses_written ccOperations copies w2)
            as (Hitems & writes & Hwrites & Hchanged)
      end.
      cbn zeta in Hitems, Hwrites, Hchanged. exists writes. split.
      { rewrite Hwrites, Hcalls, <- app_assoc. reflexivity. }
      split; [|discriminate].
      intros c Hc. destruct (Hchanged c Hc) as (p & copy & Hzip & -> & Hne).
      apply elem_of_zip_map in Hzip as [Hp ->].
      exists p. rewrite Hitems. done.
Qed.

(** X14: what a poll leaves alone.  Of every record in memory a poll
    changes at most the state and the end of the current task and the copy
    of the error policy: the metadata, the spec, the history, the retry
    counter and the job ID, the start, the kind, the parameters and the
    request of the task are as before.  A record that it was not given, that
    has no job ID or that is done is not changed at all. *)
Theorem updateCurrentTasks_frame ccOperations w p :
  let w' := snd (updateCurrentTasks env ccOperations w) in
  samePolled (Items w !!! p) (Items w' !!! p)
  ∧ (p ∉ ccOperations
     ∨ banzaiv1alpha1.CurrentTaskID (Items w !!! p) = ""
     ∨ IsDone (Items w !!! p) = true →
     Items w' !!! p = Items w !!! p).
Proof.
  cbn zeta. unfold updateCurrentTasks. pass_run.
  destruct (UserTasks env _ _) as [err|tasks].
  - pass_run. split; [apply samePolled_refl|done].
  - pass_run.
    match goal with
    | |- context [mergeUserTasks env ?tbl ccOperations ?w1] =>
        pose proof (mergeUserTasks_frame tbl ccOperations w1 p) as Hframe;
        destruct (mergeUserTasks env tbl ccOperations w1) as [[result|[err|]] w2]
    end; cbn in Hframe |- *; try exact Hframe.
    match goal with
    | |- context [writeChangedStatuses env ccOperations ?copies w2] =>
        pose proof (writeChangedStatuses_world env ccOperations copies w2)
          as (Hitems & _)
    end.
    cbn zeta in Hitems. rewrite Hitems. exact Hframe.
Qed.

(** *** The records of a cluster *)

Lemma filter_seq_StronglySorted (P : nat → Prop) `{∀ i, Decision (P i)} j n :
  StronglySorted lt (filter P (seq j n)).
Proof.
  revert j. induction n as [|n IH]; intros j; cbn [seq]; [constructor|].
  rewrite filter_cons. destruct (decide (P j)); [|apply IH].
  constructor; [apply IH|].
  apply Forall_forall. intros i [_ Hi%elem_of_seq]%list_elem_of_filter. lia.
Qed.

(** X15: the records a pass works on are those of the cluster of the
    triggering record.  For a cluster reference with a name, as
    [kafkaClusterReference] returns it without error, the filter keeps
    exactly the records in memory that carry that name as their cluster
    label, are in that namespace, have a valid kind and are not done, each
    once and in the order of the list; a record without the label is never
    among them. *)
Theorem filterByCluster_same_cluster kafkaClusterRef items :
  client.Name kafkaClusterRef ≠ "" →
  (∀ p, p ∈ filterByCluster kafkaClusterRef items
        ↔ (p < length items)%nat
          ∧ GetClusterRef (items !!! p) = client.Name kafkaClusterRef
          ∧ banzaiv1alpha1.GetNamespace (items !!! p) = client.Namespace kafkaClusterRef
          ∧ IsCurrentTaskOperationValid (items !!! p) = true
          ∧ IsDone (items !!! p) = false)
  ∧ StronglySorted lt (filterByCluster kafkaClusterRef items).
Proof.
  intros Hnamed. split; [|apply filter_seq_StronglySorted].
  intros p. unfold filterByCluster. rewrite list_elem_of_filter, elem_of_seq.
  cbn zeta. unfold kafkaClusterReference.
  case_bool_decide as Hlabel; cbn [fst client.Name client.Namespace].
  - split.
    + intros [(Hname & _) _]. congruence.
    + intros (_ & Hname & _). congruence.
  - split.
    + intros [(Hname & Hns & Hvalid & Hdone) [_ Hp]]. repeat split; auto.
    + intros (Hp & Hname & Hns & Hvalid & Hdone). repeat split; auto. lia.
Qed.

(** *** The calls of a pass *)

Lemma emits_mergeExecutionResult (P : Call → Prop) res p :
  (∀ o, P (CallStatusUpdate o)) → (∀ key, P (CallGet key)) →
  emits P (mergeExecutionResult env res p).
Proof.
  intros HS HG. unfold mergeExecutionResult.
  apply emits_bind; [|intros ?; emits_auto].
  by apply emits_RetryOnConflict, emits_conflictRetryFunction.
Qed.

(** From the selection on: nothing, or one job for the engine and then the
    writes and reads of the merge. *)
Lemma dispatchSelected_calls status ccOperationQueueMap w :
  ∃ new,
    calls (snd (dispatchSelected env status ccOperationQueueMap w)) = calls w ++ new
    ∧ (new = []
       ∨ ∃ c merged, new = c :: merged ∧ isDispatch c ∧ Forall isMergeCall merged).
Proof.
  unfold dispatchSelected. pass_run.
  destruct (selectOperationForExecution _ _ _) as [[p|] items']; pass_run.
  2:{ exists []. split; [by rewrite app_nil_r|by left]. }
  destruct (_ && _); pass_run.
  { exists []. split; [by rewrite app_nil_r|by left]. }
  assert (Hmerge : ∀ res c w1, isDispatch c → calls w1 = calls w ++ [c] →
    ∃ new,
      calls (snd (mergeExecutionResult env res p w1)) = calls w ++ new
      ∧ (new = []
         ∨ ∃ c merged, new = c :: merged ∧ isDispatch c ∧ Forall isMergeCall merged)).
  { intros res c w1 Hc Hw1.
    destruct (emits_mergeExecutionResult isMergeCall res p (λ _, I) (λ _, I) w1)
      as (merged & Hmerged & Hall).
    exists (c :: merged). split.
    - rewrite Hmerged, Hw1, <- app_assoc. reflexivity.
    - right. exists c, merged. done. }
  unfold executeOperation. pass_run.
  destruct (banzaiv1alpha1.CurrentTaskOperation (items' !!! p)); pass_run.
  5:{ exists []. split; [by rewrite app_nil_r|by left]. }
  all: destruct_dispatch_answer; pass_run;
       try (eapply Hmerge; [|reflexivity]; exact I);
       eexists [_]; (split; [reflexivity|]); right; eexists _, [];
       (split; [reflexivity|]); split; [exact I|constructor].
Qed.

Lemma updateCurrentTasks_calls ccOperations w :
  ∃ ids writes,
    calls (snd (updateCurrentTasks env ccOperations w))
    = calls w ++ CallUserTasks ids :: writes
    ∧ Forall isStatusUpdate writes.
Proof.
  unfold updateCurrentTasks. pass_run.
  destruct (UserTasks env _ _) as [err|tasks]; pass_run.
  { eexists _, []. split; [reflexivity|constructor]. }
  match goal with
  | |- context [mergeUserTasks env ?tbl ccOperations ?w1] =>
      pose proof (mergeUserTasks_world env tbl ccOperations w1) as (Hcalls & _);
      destruct (mergeUserTasks env tbl ccOperations w1) as [[result|[err|]] w2]
  end; cbn in Hcalls |- *.
  - eexists _, []. split; [exact Hcalls|constructor].
  - eexists _, []. split; [exact Hcalls|constructor].
  - match goal with
    | |- context [writeChangedStatuses env ccOperations ?copies w2] =>
        pose proof (writeChangedStatuses_world env ccOperations copies w2)
          as (_ & writes & Hwrites & Hall)
    end.
    cbn zeta in Hwrites. eexists _, writes. split; [|exact Hall].
    rewrite Hwrites, Hcalls, <- app_assoc. reflexivity.
Qed.

Lemma Forall_isStatusUpdate_not_isDispatch writes :
  Forall isStatusUpdate writes → Forall (λ c, ¬ isDispatch c) writes.
Proof. intros Hall. eapply Forall_impl; [exact Hall|]. intros []; cbn; tauto. Qed.

(** The part of a pass that works on the records of the cluster. *)
Lemma reconcileCluster_calls cur kafkaClusterRef status w :
  ∃ ids writes rest,
    calls (snd (reconcileCluster env cur kafkaClusterRef status w))
    = calls w ++ CallUserTasks ids :: writes ++ rest
    ∧ Forall isStatusUpdate writes
    ∧ (Forall (λ c, ¬ isDispatch c) rest
       ∨ ∃ c merged, rest = c :: merged ∧ isDispatch c ∧ Forall isMergeCall merged).
Proof.
  unfold reconcileCluster. pass_run.
  destruct (updateCurrentTasks_calls (filterByCluster kafkaClusterRef (Items w)) w)
    as (ids & writes & Hpolled & Hwrites).
  destruct (updateCurrentTasks env _ w) as [[result|[err|]] w1];
    cbn [snd] in Hpolled; pass_run.
  - exists ids, writes, []. rewrite app_nil_r. split; [exact Hpolled|].
    split; [exact Hwrites|left; constructor].
  - exists ids, writes, []. rewrite app_nil_r. split; [exact Hpolled|].
    split; [exact Hwrites|left; constructor].
  - destruct (isFinalizerNeeded (Items w1 !!! cur)
              && negb (IsCurrentTaskRunning (Items w1 !!! cur))).
    + unfold removeFinalizer, r_Update. pass_run.
      exists ids, writes. eexists [_]. split.
      { destruct (Update env _ _); pass_run; rewrite Hpolled, <- app_assoc;
          reflexivity. }
      split; [exact Hwrites|]. left. repeat constructor. cbn. tauto.
    + pass_run.
      match goal with
      | |- context [if ?b then exit reconciled else _] => destruct b
      end; pass_run.
      { exists ids, writes, []. rewrite app_nil_r. split; [exact Hpolled|].
        split; [exact Hwrites|left; constructor]. }
      match goal with
      | |- context [dispatchSelected env status ?m w1] =>
          destruct (dispatchSelected_calls status m w1) as (new & Hnew & Hshape)
      end.
      exists ids, writes, new. split.
      { rewrite Hnew, Hpolled, <- app_assoc. reflexivity. }
      split; [exact Hwrites|].
      destruct Hshape as [->|Hshape]; [left; constructor|by right].
Qed.

(** The same from the point where the engine is asked for its status. *)
Lemma engineStatus_reconcileCluster_calls cur kafkaClusterRef w :
  ∃ new,
    calls (snd ((status ← engineStatus env kafkaClusterRef;
                 reconcileCluster env cur kafkaClusterRef status) w))
    = calls w ++ new
    ∧ (Forall (λ c, ¬ isDispatch c) new
       ∨ ∃ ids writes c merged status,
           new = CallScaleFactory kafkaClusterRef :: CallStatus
                 :: CallUserTasks ids :: writes ++ c :: merged
           ∧ Status env (calls w ++ [CallScaleFactory kafkaClusterRef]) = inr status
           ∧ scale.IsReady status = true
           ∧ Forall isStatusUpdate writes
           ∧ isDispatch c
           ∧ Forall isMergeCall merged).
Proof.
  unfold engineStatus. pass_run.
  destruct (ScaleFactory env _ _) as [err|]; pass_run.
  { eexists [_]. split; [reflexivity|]. left. repeat constructor. cbn. tauto. }
  destruct (Status env _) as [err|status] eqn:Hstatus; pass_run.
  { eexists [_; _]. split; [by rewrite <- app_assoc|].
    left. repeat constructor; cbn; tauto. }
  destruct (scale.IsReady status) eqn:Hready; pass_run.
  2:{ eexists [_; _]. split; [by rewrite <- app_assoc|].
      left. repeat constructor; cbn; tauto. }
  match goal with
  | |- context [reconcileCluster env cur kafkaClusterRef status ?w1] =>
      destruct (reconcileCluster_calls cur kafkaClusterRef status w1)
        as (ids & writes & rest & Hnew & Hwrites & Hshape)
  end.
  cbn [calls] in Hnew.
  eexists (_ :: _ :: _ :: writes ++ rest). split.
  { rewrite Hnew, <- !app_assoc. reflexivity. }
  destruct Hshape as [Hquiet|(c & merged & -> & Hc & Hmerged)].
  - left. repeat (constructor; [cbn; tauto|]).
    apply Forall_app. split; [by apply Forall_isStatusUpdate_not_isDispatch|exact Hquiet].
  - right. exists ids, writes, c, merged, status. done.
Qed.

(** X16: a pass hands the engine at most one job, and only an engine that
    is ready.  The calls of a pass either hold no dispatch at all, or they
    are: calls to the store and the construction of the scaler; the status
    call, which the engine answered as ready; the poll of the user tasks
    and the writes of the statuses it changed; one dispatch; and then
    nothing but writes of a status and reads of a record. *)
Theorem Reconcile_dispatches_once request w :
  ∃ new,
    calls (snd (Reconcile env request w)) = calls w ++ new
    ∧ (Forall (λ c, ¬ isDispatch c) new
       ∨ ∃ before ids writes c merged status,
           new = before ++ CallStatus :: CallUserTasks ids :: writes ++ c :: merged
           ∧ Forall isHeadCall before
           ∧ Status env (calls w ++ before) = inr status
           ∧ scale.IsReady status = true
           ∧ Forall isStatusUpdate writes
           ∧ isDispatch c
           ∧ Forall isMergeCall merged).
Proof.
  assert (Hquiet : ∀ (cs new : list Call),
    Forall (λ c, isHeadCall c ∧ ¬ isDispatch c) new →
    ∃ new',
      cs ++ new = cs ++ new'
      ∧ (Forall (λ c, ¬ isDispatch c) new'
         ∨ ∃ before ids writes c merged status,
             new' = before ++ CallStatus :: CallUserTasks ids :: writes ++ c :: merged
             ∧ Forall isHeadCall before
             ∧ Status env (cs ++ before) = inr status
             ∧ scale.IsReady status = true
             ∧ Forall isStatusUpdate writes
             ∧ isDispatch c
             ∧ Forall isMergeCall merged)).
  { intros cs new Hall. exists new. split; [reflexivity|]. left.
    eapply Forall_impl; [exact Hall|]. by intros c [_ ?]. }
  assert (Hlate : ∀ cur kafkaClusterRef (head : list Call) w1,
    calls w1 = calls w ++ head →
    Forall (λ c, isHeadCall c ∧ ¬ isDispatch c) head →
    ∃ new,
      calls (snd ((status ← engineStatus env kafkaClusterRef;
                   reconcileCluster env cur kafkaClusterRef status) w1))
      = calls w ++ new
      ∧ (Forall (λ c, ¬ isDispatch c) new
         ∨ ∃ before ids writes c merged status,
             new = before ++ CallStatus :: CallUserTasks ids :: writes ++ c :: merged
             ∧ Forall isHeadCall before
             ∧ Status env (calls w ++ before) = inr status
             ∧ scale.IsReady status = true
             ∧ Forall isStatusUpdate writes
             ∧ isDispatch c
             ∧ Forall isMergeCall merged)).
  { intros cur kafkaClusterRef head w1 Hw1 Hhead.
    destruct (engineStatus_reconcileCluster_calls cur kafkaClusterRef w1)
      as (new & Hnew & Hshape).
    exists (head ++ new). split; [by rewrite Hnew, Hw1, <- app_assoc|].
    destruct Hshape
      as [Hnone|(ids & writes & c & merged & status & -> & Hst & Hready & Hws & Hc & Hm)].
    - left. apply Forall_app. split; [|exact Hnone].
      eapply Forall_impl; [exact Hhead|]. by intros c [_ ?].
    - right. exists (head ++ [CallScaleFactory kafkaClusterRef]),
        ids, writes, c, merged, status.
      split; [by rewrite <- app_assoc|].
      split.
      { apply Forall_app. split; [|by repeat constructor].
        eapply Forall_impl; [exact Hhead|]. by intros c' [? _]. }
      split; [|done]. rewrite app_assoc, <- Hw1. exact Hst. }
  rewrite Reconcile_world. unfold reconcile. pass_run.
  destruct (List env _ _) as [err|items]; pass_run.
  { apply Hquiet. repeat constructor; cbn; tauto. }
  destruct (findOperation request items) as [cur|]; pass_run.
  2:{ apply Hquiet. repeat constructor; cbn; tauto. }
  destruct (isFinalizerNeeded (items !!! cur) && IsDone (items !!! cur)).
  { unfold removeFinalizer, r_Update. pass_run.
    destruct (Update env _ _); pass_run; rewrite <- app_assoc; apply Hquiet;
      repeat constructor; cbn; tauto. }
  pass_run.
  destruct (IsCurrentTaskOperationValid (items !!! cur)); pass_run.
  2:{ apply Hquiet. repeat constructor; cbn; tauto. }
  unfold lookupKafkaCluster. pass_run.
  destruct (kafkaClusterReference (items !!! cur)) as [kafkaClusterRef [err|]]; pass_run.
  { apply Hquiet. repeat constructor; cbn; tauto. }
  destruct (GetKafkaCluster env _ kafkaClusterRef) as [err|]; pass_run.
  { destruct (apiErrors.IsNotFound err); pass_run.
    2:{ rewrite <- app_assoc. apply Hquiet. repeat constructor; cbn; tauto. }
    destruct (isMarkedForDeletion (items !!! cur)); pass_run.
    2:{ rewrite <- app_assoc. apply Hquiet. repeat constructor; cbn; tauto. }
    unfold r_Update. pass_run.
    destruct (Update env _ _); pass_run; rewrite <- !app_assoc; apply Hquiet;
      repeat constructor; cbn; tauto. }
  unfold addFinalizer. pass_run.
  destruct (isMarkedForDeletion (items !!! cur)); pass_run.
  { eapply Hlate; [cbn [calls]; rewrite <- app_assoc; reflexivity|].
    repeat constructor; cbn; tauto. }
  destruct (controllerutil.ContainsFinalizer (items !!! cur) ccOperationFinalizerGroup);
    pass_run.
  { eapply Hlate; [cbn [calls]; rewrite <- app_assoc; reflexivity|].
    repeat constructor; cbn; tauto. }
  unfold r_Update. pass_run.
  destruct (Update env _ _) as [err|]; pass_run.
  { rewrite <- !app_assoc. apply Hquiet. repeat constructor; cbn; tauto. }
  eapply Hlate; [cbn [calls]; rewrite <- !app_assoc; reflexivity|].
  repeat constructor; cbn; tauto.
Qed.

(** *** The result of a pass *)

(** X17: a job that the engine accepts is recorded.  When the dispatch
    returns a result and no error, the merge goes through and the store
    takes the write, the pass is reconciled; from the dispatch on it has
    made one call, the write of the status of the dispatched record, which
    now carries the job ID, the state, the request and the summary of the
    result and a start time. *)
Theorem dispatch_success_recorded status ccOperationQueueMap w selected items'
  result w2 merged :
  selectOperationForExecution (Now env (ticks w)) (Items w) ccOperationQueueMap
  = (Some selected, items') →
  (selected < length items')%nat →
  (scale.InExecution status
   || bool_decide (queue ccOperationQueueMap ccOperationInProgress ≠ []))
  && bool_decide (banzaiv1alpha1.CurrentTaskOperation (items' !!! selected)
                  ≠ banzaiv1alpha1.OperationStopExecution) = false →
  executeOperation env selected
    {| Items := items'; calls := calls w; ticks := S (ticks w) |}
  = (inr (Some result, None), w2) →
  updateResult (Parse env) (Now env (ticks w2)) (Some result) (items' !!! selected) true
  = (None, merged) →
  StatusUpdate env (calls w2) merged = None →
  dispatchSelected env status ccOperationQueueMap w
  = (inr reconciled,
     {| Items := <[selected := merged]> items';
        calls := calls w2 ++ [CallStatusUpdate merged];
        ticks := S (ticks w2) |})
  ∧ banzaiv1alpha1.CurrentTaskID merged = scale.TaskID result
  ∧ banzaiv1alpha1.State (banzaiv1alpha1.CurrentTask merged) = scale.State result
  ∧ banzaiv1alpha1.Started (banzaiv1alpha1.CurrentTask merged) ≠ None
  ∧ banzaiv1alpha1.HTTPRequest (banzaiv1alpha1.CurrentTask merged)
    = scale.RequestURL result
  ∧ banzaiv1alpha1.Summary (banzaiv1alpha1.CurrentTask merged)
    = formatSummary (scale.Result_ result).
Proof.
  intros Hselect Hvalid Hfree Hexec Hmerge Hwrite.
  pose proof (executeOperation_world _ _ _ _ _ Hexec) as (Hitems & Hticks & _).
  cbn in Hitems, Hticks. split.
  - unfold dispatchSelected, mbind, Pass_bind, time_Now, getItems, setItems, load.
    cbn -[executeOperation mergeExecutionResult]. rewrite Hselect.
    cbn -[executeOperation mergeExecutionResult]. rewrite Hfree, Hexec.
    unfold mergeExecutionResult. rewrite bind_run, RetryOnConflict_run.
    unfold conflictRetryFunction at 1.
    unfold r_Status_Update, load, store, time_Now, call.
    rewrite !bind_run. cbn -[updateResult]. rewrite Hitems, Hmerge.
    rewrite !bind_run. cbn.
    rewrite list_lookup_total_insert_eq by exact Hvalid.
    rewrite Hwrite. reflexivity.
  - rewrite updateResult_run in Hmerge. cbn zeta in Hmerge.
    change (resultOrMissing (Some result) (items' !!! selected)) with result in Hmerge.
    set (base := archiveFailedTask _ _) in Hmerge. clearbody base.
    unfold parseStarted in Hmerge.
    destruct (banzaiv1alpha1.Started (banzaiv1alpha1.CurrentTask base)) as [t|]
      eqn:Hstarted.
    + injection Hmerge as <-. unfold recordExecution.
      unfold banzaiv1alpha1.CurrentTask in Hstarted.
      destruct (scale.Err result); cbn; rewrite Hstarted; done.
    + destruct (Parse env RFC1123 _) as [t|]; [|discriminate].
      injection Hmerge as <-. unfold recordExecution.
      destruct (scale.Err result); cbn; done.
Qed.

Lemma returns_bind {A B} (m : Pass A) (f : A → Pass B) :
  returns m → (∀ a, returns (f a)) → returns (m ≫= f).
Proof.
  intros Hm Hf w. rewrite bind_run. destruct (Hm w) as [a Ha].
  destruct (m w) as [[result|a'] w1]; [discriminate|]. apply Hf.
Qed.

Lemma returns_ret {A} (a : A) : returns (mret a).
Proof. intros w. by exists a. Qed.

Lemma returns_mergeUserTasks taskResultsByID ccOperations :
  returns (mergeUserTasks env taskResultsByID ccOperations).
Proof.
  induction ccOperations as [|p ps IH]; intros w; cbn [mergeUserTasks].
  - by eexists.
  - pass_run. destruct (_ && _); [|apply IH]. pass_run.
    destruct (updateResult _ _ _ _ _) as [[err|] o']; pass_run; [by eexists|apply IH].
Qed.

Lemma returns_writeChangedStatuses ccOperations ccOperationsCopy :
  returns (writeChangedStatuses env ccOperations ccOperationsCopy).
Proof.
  revert ccOperationsCopy.
  induction ccOperations as [|p ps IH]; intros [|copy copies] w;
    cbn [writeChangedStatuses]; try (by eexists).
  pass_run. destruct (bool_decide _); [|apply IH].
  unfold r_Status_Update. pass_run.
  destruct (StatusUpdate env _ _); pass_run; [by eexists|apply IH].
Qed.

Lemma returns_updateCurrentTasks ccOperations :
  returns (updateCurrentTasks env ccOperations).
Proof.
  intros w. unfold updateCurrentTasks. pass_run.
  destruct (UserTasks env _ _) as [err|tasks]; pass_run; [by eexists|].
  match goal with
  | |- context [mergeUserTasks env ?tbl ccOperations ?w1] =>
      destruct (returns_mergeUserTasks tbl ccOperations w1) as [r Hr];
      destruct (mergeUserTasks env tbl ccOperations w1) as [[result|r'] w2]
  end; [discriminate|].
  destruct r' as [err|]; pass_run; [by eexists|].
  apply returns_writeChangedStatuses.
Qed.

Lemma returns_conflictRetryFunction res p :
  returns (conflictRetryFunction env res p).
Proof.
  intros w. unfold conflictRetryFunction, r_Status_Update. pass_run.
  destruct (updateResult _ _ _ _ _) as [[err|] o']; pass_run; [by eexists|].
  destruct (StatusUpdate env _ _) as [err|]; pass_run; [|by eexists].
  destruct (apiErrors.IsConflict err); pass_run; [|by eexists].
  destruct (Get env _ _); pass_run; by eexists.
Qed.

Lemma returns_RetryOnConflict retries fn :
  returns fn → returns (RetryOnConflict retries fn).
Proof.
  intros Hfn. induction retries as [|retries IH]; intros w;
    rewrite RetryOnConflict_run; destruct (Hfn w) as [a Ha];
    destruct (fn w) as [[result|[err|]] w1]; try discriminate; try (by eexists);
    destruct (apiErrors.IsConflict err); try (by eexists).
  apply IH.
Qed.

(** The merge after a dispatch ends the pass as reconciled or with an
    error. *)
Lemma mergeExecutionResult_outcome res p w seconds :
  outcome (fst (mergeExecutionResult env res p w)) ≠ requeueAfter seconds.
Proof.
  unfold mergeExecutionResult. rewrite bind_run.
  destruct (returns_RetryOnConflict (DefaultBackOffForConflict env)
              (conflictRetryFunction env res p)
              (returns_conflictRetryFunction res p) w) as [a Ha].
  destruct (RetryOnConflict _ _ w) as [[result|[err|]] w1]; discriminate.
Qed.

Lemma dispatchSelected_requeueAfter status ccOperationQueueMap w seconds :
  outcome (fst (dispatchSelected env status ccOperationQueueMap w))
  = requeueAfter seconds →
  seconds = defaultRequeueIntervalInSeconds
  ∧ calls (snd (dispatchSelected env status ccOperationQueueMap w)) = calls w.
Proof.
  unfold dispatchSelected. pass_run.
  destruct (selectOperationForExecution _ _ _) as [[p|] items']; pass_run.
  2:{ intros [= <-]. done. }
  destruct (_ && _); pass_run.
  { intros [= <-]. done. }
  unfold executeOperation. pass_run.
  destruct (banzaiv1alpha1.CurrentTaskOperation (items' !!! p)); pass_run.
  5:{ discriminate. }
  all: destruct_dispatch_answer; pass_run; try discriminate;
       intros Hout; by apply mergeExecutionResult_outcome in Hout.
Qed.

Lemma reconcileCluster_requeueAfter cur kafkaClusterRef status w seconds :
  outcome (fst (reconcileCluster env cur kafkaClusterRef status w))
  = requeueAfter seconds →
  seconds = defaultRequeueIntervalInSeconds
  ∧ ∃ new,
      calls (snd (reconcileCluster env cur kafkaClusterRef status w)) = calls w ++ new
      ∧ Forall (λ c, ¬ isDispatch c) new.
Proof.
  unfold reconcileCluster. pass_run.
  destruct (updateCurrentTasks_calls (filterByCluster kafkaClusterRef (Items w)) w)
    as (ids & writes & Hpolled & Hwrites).
  assert (Hquiet : Forall (λ c, ¬ isDispatch c) (CallUserTasks ids :: writes)).
  { constructor; [cbn; tauto|by apply Forall_isStatusUpdate_not_isDispatch]. }
  destruct (returns_updateCurrentTasks (filterByCluster kafkaClusterRef (Items w)) w)
    as [r Hr].
  destruct (updateCurrentTasks env _ w) as [[result|[err|]] w1];
    cbn [fst snd] in Hpolled, Hr; [discriminate|..]; pass_run.
  { intros [= <-]. split; [reflexivity|]. by eexists. }
  destruct (isFinalizerNeeded (Items w1 !!! cur)
            && negb (IsCurrentTaskRunning (Items w1 !!! cur))).
  { unfold removeFinalizer, r_Update. pass_run.
    destruct (Update env _ _); pass_run; discriminate. }
  pass_run.
  match goal with
  | |- context [if ?b then exit reconciled else _] => destruct b
  end; pass_run; [discriminate|].
  intros Hout. apply dispatchSelected_requeueAfter in Hout as [-> Hcalls].
  split; [reflexivity|]. eexists. split; [|exact Hquiet].
  rewrite Hcalls. exact Hpolled.
Qed.

Lemma engineStatus_reconcileCluster_requeueAfter cur kafkaClusterRef w seconds :
  outcome (fst ((status ← engineStatus env kafkaClusterRef;
                 reconcileCluster env cur kafkaClusterRef status) w))
  = requeueAfter seconds →
  seconds = defaultRequeueIntervalInSeconds
  ∧ ∃ new,
      calls (snd ((status ← engineStatus env kafkaClusterRef;
                   reconcileCluster env cur kafkaClusterRef status) w))
      = calls w ++ new
      ∧ Forall (λ c, ¬ isDispatch c) new.
Proof.
  unfold engineStatus. pass_run.
  destruct (ScaleFactory env _ _) as [err|]; pass_run; [discriminate|].
  destruct (Status env _) as [err|status]; pass_run.
  { intros [= <-]. split; [reflexivity|]. eexists [_; _].
    split; [by rewrite <- app_assoc|]. repeat constructor; cbn; tauto. }
  destruct (scale.IsReady status); pass_run.
  2:{ intros [= <-]. split; [reflexivity|]. eexists [_; _].
      split; [by rewrite <- app_assoc|]. repeat constructor; cbn; tauto. }
  intros Hout. apply reconcileCluster_requeueAfter in Hout as (-> & new & Hnew & Hquiet).
  split; [reflexivity|]. cbn [calls] in Hnew. eexists (_ :: _ :: new). split.
  { rewrite Hnew, <- !app_assoc. reflexivity. }
  repeat (constructor; [cbn; tauto|]). exact Hquiet.
Qed.

Lemma Reconcile_outcome request w :
  fst (Reconcile env request w) = outcome (fst (reconcile env request w)).
Proof. unfold Reconcile. destruct (reconcile env request w) as [[?|?] ?]; reflexivity. Qed.

(** X18: a pass that asks to be run again after a delay has handed nothing
    to the engine, and the delay is the fixed one of 10 seconds.  A pass
    that dispatched a job ends reconciled or with an error. *)
Theorem Reconcile_requeueAfter request w seconds :
  fst (Reconcile env request w) = requeueAfter seconds →
  seconds = defaultRequeueIntervalInSeconds
  ∧ ∃ new,
      calls (snd (Reconcile env request w)) = calls w ++ new
      ∧ Forall (λ c, ¬ isDispatch c) new.
Proof.
  assert (Hlate : ∀ cur kafkaClusterRef (head : list Call) w1,
    calls w1 = calls w ++ head →
    Forall (λ c, ¬ isDispatch c) head →
    outcome (fst ((status ← engineStatus env kafkaClusterRef;
                   reconcileCluster env cur kafkaClusterRef status) w1))
    = requeueAfter seconds →
    seconds = defaultRequeueIntervalInSeconds
    ∧ ∃ new,
        calls (snd ((status ← engineStatus env kafkaClusterRef;
                     reconcileCluster env cur kafkaClusterRef status) w1))
        = calls w ++ new
        ∧ Forall (λ c, ¬ isDispatch c) new).
  { intros cur kafkaClusterRef head w1 Hw1 Hhead Hout.
    apply engineStatus_reconcileCluster_requeueAfter in Hout
      as (-> & new & Hnew & Hquiet).
    split; [reflexivity|]. exists (head ++ new).
    split; [by rewrite Hnew, Hw1, <- app_assoc|]. by apply Forall_app. }
  rewrite Reconcile_outcome, Reconcile_world. unfold reconcile. pass_run.
  destruct (List env _ _) as [err|items]; pass_run; [discriminate|].
  destruct (findOperation request items) as [cur|]; pass_run; [|discriminate].
  destruct (isFinalizerNeeded (items !!! cur) && IsDone (items !!! cur)).
  { unfold removeFinalizer, r_Update. pass_run.
    destruct (Update env _ _); pass_run; discriminate. }
  pass_run.
  destruct (IsCurrentTaskOperationValid (items !!! cur)); pass_run; [|discriminate].
  unfold lookupKafkaCluster. pass_run.
  destruct (kafkaClusterReference (items !!! cur)) as [kafkaClusterRef [err|]]; pass_run;
    [discriminate|].
  destruct (GetKafkaCluster env _ kafkaClusterRef) as [err|]; pass_run.
  { destruct (apiErrors.IsNotFound err); pass_run; [|discriminate].
    destruct (isMarkedForDeletion (items !!! cur)); pass_run; [|discriminate].
    unfold r_Update. pass_run.
    destruct (Update env _ _); pass_run; discriminate. }
  unfold addFinalizer. pass_run.
  destruct (isMarkedForDeletion (items !!! cur)); pass_run.
  { eapply Hlate; [cbn [calls]; rewrite <- app_assoc; reflexivity|].
    repeat constructor; cbn; tauto. }
  destruct (controllerutil.ContainsFinalizer (items !!! cur) ccOperationFinalizerGroup);
    pass_run.
  { eapply Hlate; [cbn [calls]; rewrite <- app_assoc; reflexivity|].
    repeat constructor; cbn; tauto. }
  unfold r_Update. pass_run.
  destruct (Update env _ _) as [err|]; pass_run; [discriminate|].
  eapply Hlate; [cbn [calls]; rewrite <- !app_assoc; reflexivity|].
  repeat constructor; cbn; tauto.
Qed.

Lemma RemoveFinalizer_key finalizer o :
  banzaiv1alpha1.GetName (controllerutil.RemoveFinalizer finalizer o)
  = banzaiv1alpha1.GetName o
  ∧ banzaiv1alpha1.GetNamespace (controllerutil.RemoveFinalizer finalizer o)
    = banzaiv1alpha1.GetNamespace o.
Proof. split; reflexivity. Qed.

Lemma AddFinalizer_key finalizer o :
  banzaiv1alpha1.GetName (controllerutil.AddFinalizer finalizer o)
  = banzaiv1alpha1.GetName o
  ∧ banzaiv1alpha1.GetNamespace (controllerutil.AddFinalizer finalizer o)
    = banzaiv1alpha1.GetNamespace o.
Proof.
  unfold controllerutil.AddFinalizer.
  destruct (controllerutil.ContainsFinalizer o finalizer); split; reflexivity.
Qed.

(** X19: a pass writes no record as a whole but the one it was started
    for.  Every [r.Update] of a pass is of a record with the name and the
    namespace of the request; the other records of the list have at most
    their status written. *)
Theorem Reconcile_updates_triggering_record request written :
  CallUpdate written ∈ calls (snd (Reconcile env request startOfPass)) →
  banzaiv1alpha1.GetName written = client.Name request
  ∧ banzaiv1alpha1.GetNamespace written = client.Namespace request.
Proof.
  rewrite Reconcile_world. unfold reconcile, startOfPass. pass_run.
  destruct (List env [] _) as [err|items]; pass_run.
  { intros Hin. apply list_elem_of_singleton in Hin. discriminate. }
  destruct (findOperation request items) as [cur|] eqn:Hfind; pass_run.
  2:{ intros Hin. apply list_elem_of_singleton in Hin. discriminate. }
  apply findOperation_Some in Hfind as (Hvalid & Hname & Hns).
  set (o := items !!! cur) in *.
  assert (Hremoved : ∀ cs : list Call,
    CallUpdate written
    ∈ cs ++ [CallUpdate (controllerutil.RemoveFinalizer ccOperationFinalizerGroup o)] →
    (∀ c, c ∈ cs → ¬ isUpdate c) →
    banzaiv1alpha1.GetName written = client.Name request
    ∧ banzaiv1alpha1.GetNamespace written = client.Namespace request).
  { intros cs Hin Hcs. apply elem_of_app in Hin as [Hin|Hin].
    - by destruct (Hcs _ Hin).
    - apply list_elem_of_singleton in Hin. injection Hin as ->.
      destruct (RemoveFinalizer_key ccOperationFinalizerGroup o) as [-> ->]. done. }
  destruct (isFinalizerNeeded o && IsDone o).
  { unfold removeFinalizer, r_Update. pass_run.
    rewrite list_lookup_total_insert_eq by exact Hvalid. fold o.
    intros Hin. apply (Hremoved [CallList (client.Namespace request)]).
    - destruct (Update env _ _); pass_run; exact Hin.
    - intros c Hc. apply list_elem_of_singleton in Hc as ->. cbn. tauto. }
  pass_run.
  destruct (IsCurrentTaskOperationValid o); pass_run.
  2:{ intros Hin. apply list_elem_of_singleton in Hin. discriminate. }
  unfold lookupKafkaCluster. pass_run. fold o.
  destruct (kafkaClusterReference o) as [kafkaClusterRef [err|]]; pass_run.
  { intros Hin. apply list_elem_of_singleton in Hin. discriminate. }
  destruct (GetKafkaCluster env _ kafkaClusterRef) as [err|]; pass_run.
  { destruct (apiErrors.IsNotFound err); pass_run.
    2:{ intros Hin. cbn in Hin.
        repeat (apply elem_of_cons in Hin as [Hin|Hin]; [discriminate|]).
        by apply elem_of_nil in Hin. }
    destruct (isMarkedForDeletion o); pass_run.
    2:{ intros Hin. cbn in Hin.
        repeat (apply elem_of_cons in Hin as [Hin|Hin]; [discriminate|]).
        by apply elem_of_nil in Hin. }
    unfold r_Update. pass_run.
    rewrite list_lookup_total_insert_eq by exact Hvalid.
    intros Hin.
    apply (Hremoved [CallList (client.Namespace request);
                     CallGetKafkaCluster kafkaClusterRef]).
    - destruct (Update env _ _); pass_run; exact Hin.
    - intros c Hc.
      repeat (apply elem_of_cons in Hc as [->|Hc]; [cbn; tauto|]).
      by apply elem_of_nil in Hc. }
  assert (Hlate : ∀ w,
    banzaiv1alpha1.GetName (Items w !!! cur) = client.Name request →
    banzaiv1alpha1.GetNamespace (Items w !!! cur) = client.Namespace request →
    ∀ new : list Call,
      (∀ written, CallUpdate written ∈ new →
         ∃ o', written = controllerutil.RemoveFinalizer ccOperationFinalizerGroup o'
               ∧ banzaiv1alpha1.Meta o' = banzaiv1alpha1.Meta (Items w !!! cur)
               ∧ isFinalizerNeeded o' = true
               ∧ IsCurrentTaskRunning o' = false) →
      CallUpdate written ∈ new →
      banzaiv1alpha1.GetName written = client.Name request
      ∧ banzaiv1alpha1.GetNamespace written = client.Namespace request).
  { intros w Hn Hs new Hjust Hin.
    destruct (Hjust _ Hin) as (o' & -> & Hmeta & _).
    unfold banzaiv1alpha1.GetName, banzaiv1alpha1.GetNamespace in *.
    cbn. rewrite Hmeta. done. }
  unfold addFinalizer. pass_run. fold o.
  destruct (isMarkedForDeletion o); pass_run.
  { match goal with
    | |- context [engineStatus env kafkaClusterRef ?w1] =>
        destruct (engineStatus_reconcileCluster_updates env cur kafkaClusterRef w1 Hvalid)
          as (new & Hnew & Hjust)
    end.
    rewrite bind_run in Hnew. rewrite Hnew. cbn [calls Items] in *.
    intros Hin. cbn in Hin.
    repeat (apply elem_of_cons in Hin as [Hin|Hin]; [discriminate|]).
    eapply (Hlate {| Items := items; calls := []; ticks := 0 |}); eauto. }
  destruct (controllerutil.ContainsFinalizer o ccOperationFinalizerGroup); pass_run.
  { match goal with
    | |- context [engineStatus env kafkaClusterRef ?w1] =>
        destruct (engineStatus_reconcileCluster_updates env cur kafkaClusterRef w1 Hvalid)
          as (new & Hnew & Hjust)
    end.
    rewrite bind_run in Hnew. rewrite Hnew. cbn [calls Items] in *.
    intros Hin. cbn in Hin.
    repeat (apply elem_of_cons in Hin as [Hin|Hin]; [discriminate|]).
    eapply (Hlate {| Items := items; calls := []; ticks := 0 |}); eauto. }
  unfold r_Update. pass_run.
  rewrite list_lookup_total_insert_eq by exact Hvalid.
  set (guarded := controllerutil.AddFinalizer ccOperationFinalizerGroup o).
  destruct (AddFinalizer_key ccOperationFinalizerGroup o) as [Hgname Hgns].
  fold guarded in Hgname, Hgns.
  destruct (Update env _ _) as [err|]; pass_run.
  { intros Hin. cbn in Hin.
    repeat (apply elem_of_cons in Hin as [Hin|Hin]; [try discriminate|]).
    - injection Hin as ->. rewrite Hgname, Hgns. done.
    - by apply elem_of_nil in Hin. }
  assert (Hvalid' : (cur < length (<[cur:=guarded]> items))%nat)
    by (by rewrite length_insert).
  match goal with
  | |- context [engineStatus env kafkaClusterRef ?w1] =>
      destruct (engineStatus_reconcileCluster_updates env cur kafkaClusterRef w1 Hvalid')
        as (new & Hnew & Hjust)
  end.
  rewrite bind_run in Hnew. rewrite Hnew. cbn [calls Items] in *.
  intros Hin. cbn in Hin.
  repeat (apply elem_of_cons in Hin as [Hin|Hin]; [try discriminate|]).
  - injection Hin as ->. rewrite Hgname, Hgns. done.
  - eapply (Hlate {| Items := <[cur:=guarded]> items; calls := []; ticks := 0 |});
      cbn [Items]; eauto;
      rewrite list_lookup_total_insert_eq by exact Hvalid; congruence.
Qed.

End PassMore.

(** ** The further properties at work *)

(** Three failed attempts on a record with an empty history: each one that
    is archived is a failed task. *)
Lemma FailedTasks_hold_failed_tasks_witness :
  Forall failedTask (banzaiv1alpha1.FailedTasks (banzaiv1alpha1.Status failedRebalance))
  ∧ let '(final, archived) :=
      updateResults parseRFC1123 (failedAttempts 3) failedRebalance in
    Forall failedTask archived
    ∧ Forall failedTask (banzaiv1alpha1.FailedTasks (banzaiv1alpha1.Status final)).
Proof.
  assert (Hhistory : Forall failedTask
            (banzaiv1alpha1.FailedTasks (banzaiv1alpha1.Status failedRebalance)))
    by constructor.
  split; [exact Hhistory|].
  exact (FailedTasks_hold_failed_tasks parseRFC1123 (failedAttempts 3) failedRebalance
           Hhistory).
Defined.

(** The same run: three snapshots archived, three retries counted. *)
Lemma RetryCount_counts_archived_witness :
  - 2 ^ 63 ≤ banzaiv1alpha1.RetryCount (banzaiv1alpha1.Status failedRebalance)
  ∧ length (snd (updateResults parseRFC1123 (failedAttempts 3) failedRebalance)) = 3%nat
  ∧ let '(final, archived) :=
      updateResults parseRFC1123 (failedAttempts 3) failedRebalance in
    (length archived ≤ length (failedAttempts 3))%nat
    ∧ (banzaiv1alpha1.RetryCount (banzaiv1alpha1.Status failedRebalance)
       + Z.of_nat (length archived) < 2 ^ 63 →
       banzaiv1alpha1.RetryCount (banzaiv1alpha1.Status final)
       = banzaiv1alpha1.RetryCount (banzaiv1alpha1.Status failedRebalance)
         + Z.of_nat (length archived)).
Proof.
  assert (Hlow : - 2 ^ 63
                 ≤ banzaiv1alpha1.RetryCount (banzaiv1alpha1.Status failedRebalance))
    by (vm_compute; discriminate).
  split; [exact Hlow|]. split; [vm_compute; reflexivity|].
  exact (RetryCount_counts_archived parseRFC1123 (failedAttempts 3) failedRebalance Hlow).
Defined.

(** A first dispatch, accepted by the engine at time 1001, followed by the
    polls: the start time is the one of the dispatch and stays. *)
Lemma Started_set_once_witness :
  let ms := acceptedAt 1001 "job-1" :: polls in
  snd (updateResults parseRFC1123 ms newRebalance) = []
  ∧ banzaiv1alpha1.Started
      (banzaiv1alpha1.CurrentTask (fst (updateResults parseRFC1123 ms newRebalance)))
    = Some 0
  ∧ (banzaiv1alpha1.Started
       (banzaiv1alpha1.CurrentTask (fst (updateResults parseRFC1123 ms newRebalance)))
     = None
     ∨ ∃ m t, m ∈ ms
              ∧ isAfterExecution m = true
              ∧ parseRFC1123 RFC1123 (resultStartedAt m) = Some t
              ∧ banzaiv1alpha1.Started
                  (banzaiv1alpha1.CurrentTask
                     (fst (updateResults parseRFC1123 ms newRebalance)))
                = Some t).
Proof.
  intros ms.
  assert (Hnone : snd (updateResults parseRFC1123 ms newRebalance) = [])
    by (vm_compute; reflexivity).
  split; [exact Hnone|]. split; [vm_compute; reflexivity|].
  exact (Started_set_once parseRFC1123 ms newRebalance Hnone).
Defined.

(** A running rebalance that is marked for deletion, next to an add-broker
    request that waits: the first is in the stop bucket and in no other. *)
Lemma sortOperations_buckets_disjoint_witness :
  let items := [newAddBroker; runningRebalance (Some 500)] in
  1%nat ∈ queue (sortOperations items [0%nat; 1%nat]) ccOperationForStopExecution
  ∧ (1%nat ∉ queue (sortOperations items [0%nat; 1%nat]) ccOperationInProgress)
  ∧ isWaitingForFinalization (items !!! 1%nat) = true.
Proof.
  intros items.
  assert (Hin : 1%nat ∈ queue (sortOperations items [0%nat; 1%nat])
                        ccOperationForStopExecution).
  { apply (bool_decide_unpack _). vm_compute. exact I. }
  destruct (sortOperations_buckets_disjoint items [0%nat; 1%nat] 1%nat
              ccOperationForStopExecution Hin) as (_ & _ & Honly & Hstop).
  split; [exact Hin|]. split.
  - intros Hother. specialize (Honly _ Hother). discriminate.
  - by apply Hstop.
Defined.

(** A failed rebalance whose backoff has passed and a rebalance that waits
    for its first execution: the retry goes first. *)
Lemma selectOperationForExecution_retry_precedence_witness :
  let items := [failedRebalance; newRebalance] in
  let ccOperationQueueMap : gmap string (list Pointer) :=
    {[ ccOperationRetryExecution := [0%nat];
       ccOperationFirstExecution := [1%nat] ]} in
  queue ccOperationQueueMap ccOperationForStopExecution = []
  ∧ queue ccOperationQueueMap ccOperationRetryExecution = [0%nat]
  ∧ IsReadyForRetryExecution 1000 (items !!! 0%nat) = true
  ∧ selectOperationForExecution 1000 items ccOperationQueueMap = (Some 0%nat, items).
Proof.
  intros items ccOperationQueueMap.
  assert (Hstop : queue ccOperationQueueMap ccOperationForStopExecution = [])
    by (vm_compute; reflexivity).
  assert (Hretry : queue ccOperationQueueMap ccOperationRetryExecution = [0%nat])
    by (vm_compute; reflexivity).
  assert (Hready : IsReadyForRetryExecution 1000 (items !!! 0%nat) = true)
    by (vm_compute; reflexivity).
  split; [exact Hstop|]. split; [exact Hretry|]. split; [exact Hready|].
  rewrite (selectOperationForExecution_retry_precedence 1000 items ccOperationQueueMap
             0%nat [] Hstop Hretry Hready).
  vm_compute. reflexivity.
Defined.

(** A running rebalance that is marked for deletion while the engine is in
    execution: the stop is the first call. *)
Lemma stop_bypasses_busy_check_witness :
  let items := [runningRebalance (Some 500)] in
  let env := collaborators items None busy []
               (accepted "job-3" banzaiv1beta1.CruiseControlTaskCompleted) in
  let ccOperationQueueMap : gmap string (list Pointer) :=
    {[ ccOperationForStopExecution := [0%nat];
       ccOperationInProgress := [0%nat] ]} in
  let w := beforeSelection items in
  queue ccOperationQueueMap ccOperationForStopExecution = [0%nat]
  ∧ (0 < length (Items w))%nat
  ∧ scale.InExecution busy = true
  ∧ ∃ later,
      calls (snd (dispatchSelected env busy ccOperationQueueMap w))
      = calls w ++ CallStopExecution :: later.
Proof.
  intros items env ccOperationQueueMap w.
  assert (Hstop : queue ccOperationQueueMap ccOperationForStopExecution = [0%nat])
    by (vm_compute; reflexivity).
  assert (Hvalid : (0 < length (Items w))%nat) by (cbn; lia).
  split; [exact Hstop|]. split; [exact Hvalid|]. split; [reflexivity|].
  exact (stop_bypasses_busy_check env busy ccOperationQueueMap w 0%nat [] Hstop Hvalid).
Defined.

(** The engine accepts a rebalance as the job [job-1]; the store refuses the
    write of the status as a conflict and hands out the record as it has it,
    which is the one without a job.  The pass is reconciled and the record
    in memory has no job ID. *)
Lemma conflict_then_read_drops_result_witness :
  let env := conflictingStore newRebalance
               (collaborators [newRebalance] None ready []
                  (accepted "job-1" banzaiv1beta1.CruiseControlTaskActive)) in
  let w := {| Items := [newRebalance];
              calls := [CallList "ns"; CallStatus; CallRebalanceWithParams ∅];
              ticks := 1 |} in
  let result := engineResult "job-1" epoch banzaiv1beta1.CruiseControlTaskActive None in
  let merged := snd (updateResult (Parse env) (Now env (ticks w)) (Some result)
                       (Items w !!! 0%nat) true) in
  banzaiv1alpha1.CurrentTaskID merged = "job-1"
  ∧ fst (mergeExecutionResult env (Some result) 0%nat w) = inr reconciled
  ∧ banzaiv1alpha1.CurrentTaskID
      (Items (snd (mergeExecutionResult env (Some result) 0%nat w)) !!! 0%nat) = "".
Proof.
  intros env w result merged.
  assert (Hvalid : (0 < length (Items w))%nat) by (cbn; lia).
  assert (Hmerge : updateResult (Parse env) (Now env (ticks w)) (Some result)
                     (Items w !!! 0%nat) true = (None, merged))
    by (vm_compute; reflexivity).
  split; [vm_compute; reflexivity|].
  rewrite (conflict_then_read_drops_result env (Some result) 0%nat w merged
             (StatusError StatusReasonConflict "conflict") newRebalance
             Hvalid Hmerge eq_refl eq_refl eq_refl).
  split; reflexivity.
Defined.

(** A record without the guard gets it, and only once. *)
Lemma addFinalizer_idempotent_witness :
  let env := collaborators [unguardedRebalance] None ready [] invalidDispatch in
  let w := {| Items := [unguardedRebalance]; calls := [CallList "ns"]; ticks := 0 |} in
  let w1 := snd (addFinalizer env 0%nat w) in
  (0 < length (Items w))%nat
  ∧ controllerutil.ContainsFinalizer (Items w1 !!! 0%nat) ccOperationFinalizerGroup
    = true
  ∧ calls w1 = [CallList "ns"; CallUpdate newRebalance]
  ∧ snd (addFinalizer env 0%nat w1) = w1.
Proof.
  intros env w w1.
  assert (Hvalid : (0 < length (Items w))%nat) by (cbn; lia).
  destruct (addFinalizer_idempotent env 0%nat w Hvalid) as (_ & Hguard & _ & Hagain).
  split; [exact Hvalid|]. split; [by apply Hguard|].
  split; [vm_compute; reflexivity|exact Hagain].
Defined.

(** The records of the cluster [kafka]: the two that wait, not the one
    that is done. *)
Lemma filterByCluster_same_cluster_witness :
  let items :=
    [newRebalance;
     newOperation "done" 5 None guard
       (polledTask banzaiv1alpha1.OperationRebalance "job-0"
          banzaiv1beta1.CruiseControlTaskCompleted (Some 0) (Some 5));
     newAddBroker] in
  client.Name (requestFor "kafka") ≠ ""
  ∧ filterByCluster (requestFor "kafka") items = [0%nat; 2%nat]
  ∧ StronglySorted lt (filterByCluster (requestFor "kafka") items)
  ∧ IsDone (items !!! 1%nat) = true.
Proof.
  intros items.
  assert (Hnamed : client.Name (requestFor "kafka") ≠ "") by discriminate.
  destruct (filterByCluster_same_cluster (requestFor "kafka") items Hnamed)
    as [Hin Hsorted].
  split; [exact Hnamed|]. split; [vm_compute; reflexivity|].
  split; [exact Hsorted|].
  destruct (IsDone (items !!! 1%nat)) eqn:Hdone; [reflexivity|].
  assert (Hout : 1%nat ∉ filterByCluster (requestFor "kafka") items).
  { apply (bool_decide_unpack _). vm_compute. exact I. }
  destruct Hout. apply Hin. repeat split; try reflexivity; [cbn; lia|exact Hdone].
Defined.

(** The engine accepts a rebalance as the job [job-1] and the store takes
    the status. *)
Lemma dispatch_success_recorded_witness :
  let env := collaborators [newRebalance] None ready []
               (accepted "job-1" banzaiv1beta1.CruiseControlTaskActive) in
  let w := beforeSelection [newRebalance] in
  let result := engineResult "job-1" epoch banzaiv1beta1.CruiseControlTaskActive None in
  let w2 := {| Items := [newRebalance];
               calls := calls w ++ [CallRebalanceWithParams ∅]; ticks := 1 |} in
  let merged := snd (updateResult (Parse env) (Now env (ticks w2)) (Some result)
                       newRebalance true) in
  fst (dispatchSelected env ready oneWaiting w) = inr reconciled
  ∧ calls (snd (dispatchSelected env ready oneWaiting w))
    = [CallList "ns"; CallStatus; CallRebalanceWithParams ∅; CallStatusUpdate merged]
  ∧ banzaiv1alpha1.CurrentTaskID merged = "job-1"
  ∧ banzaiv1alpha1.Started (banzaiv1alpha1.CurrentTask merged) = Some 0.
Proof.
  intros env w result w2 merged.
  assert (Hselect : selectOperationForExecution (Now env (ticks w)) (Items w) oneWaiting
                    = (Some 0%nat, [newRebalance])) by (vm_compute; reflexivity).
  assert (Hvalid : (0 < length [newRebalance])%nat) by (cbn; lia).
  assert (Hexec : executeOperation env 0%nat
                    {| Items := [newRebalance]; calls := calls w; ticks := S (ticks w) |}
                  = (inr (Some result, None), w2)) by (vm_compute; reflexivity).
  assert (Hmerge : updateResult (Parse env) (Now env (ticks w2)) (Some result)
                     ([newRebalance] !!! 0%nat) true = (None, merged))
    by (vm_compute; reflexivity).
  destruct (dispatch_success_recorded env ready oneWaiting w 0%nat [newRebalance]
              result w2 merged Hselect Hvalid eq_refl Hexec Hmerge eq_refl)
    as (Hrun & Hid & _).
  rewrite Hrun. split; [reflexivity|]. split; [reflexivity|].
  split; [exact Hid|vm_compute; reflexivity].
Defined.

(** A rebalance waits while the engine is in execution: the pass asks to
    be run again in 10 seconds and has dispatched nothing. *)
Lemma Reconcile_requeueAfter_witness :
  let env := collaborators [newRebalance] None busy [] invalidDispatch in
  fst (Reconcile env (requestFor "rebalance") startOfPass) = requeueAfter 10
  ∧ ∃ new,
      calls (snd (Reconcile env (requestFor "rebalance") startOfPass))
      = calls startOfPass ++ new
      ∧ Forall (λ c, ¬ isDispatch c) new.
Proof.
  intros env.
  assert (Hout : fst (Reconcile env (requestFor "rebalance") startOfPass)
                 = requeueAfter 10) by (vm_compute; reflexivity).
  split; [exact Hout|].
  exact (proj2 (Reconcile_requeueAfter env (requestFor "rebalance") startOfPass 10 Hout)).
Defined.

(** A pass for a rebalance that does not carry the guard yet: the one
    record it writes as a whole is that rebalance, with the guard. *)
Lemma Reconcile_updates_triggering_record_witness :
  let env := collaborators [newAddBroker; unguardedRebalance] None busy []
               invalidDispatch in
  CallUpdate newRebalance
  ∈ calls (snd (Reconcile env (requestFor "rebalance") startOfPass))
  ∧ banzaiv1alpha1.GetName newRebalance = client.Name (requestFor "rebalance")
  ∧ banzaiv1alpha1.GetNamespace newRebalance
    = client.Namespace (requestFor "rebalance").
Proof.
  intros env.
  assert (Hin : CallUpdate newRebalance
                ∈ calls (snd (Reconcile env (requestFor "rebalance") startOfPass))).
  { vm_compute. do 2 apply list_elem_of_further. apply list_elem_of_here. }
  split; [exact Hin|].
  exact (Reconcile_updates_triggering_record env (requestFor "rebalance")
           newRebalance Hin).
Defined.
